(** * Foodie: the local persistence utility and the screens' pure rules

    A shallow embedding of
    - [utils/storage.js]  (favorites and user recipes over AsyncStorage),
    - the [filteredRecipes] rule of [MainFeedScreen.js],
    - the record built by [handleSave] in [AddRecipeScreen.js] and
      [EditRecipeScreen.js].

    JavaScript values are modelled as JSON values, the key-value store as a
    finite map from keys to stored texts, and every [async] function as a
    computation in a state-and-exception monad over a [World] that also
    carries the platform's behaviour (which storage calls are rejected, the
    clock, the console). *)

From Stdlib Require Import ZArith Ascii String DecimalString DecimalPos.
From stdpp Require Import gmap strings list.

Set Warnings "-register-all".
Local Open Scope string_scope.
Local Open Scope list_scope.
Local Open Scope Z_scope.

(** ** JavaScript values *)

(** The values that [JSON.parse] can produce.  Numbers are restricted to
    integers (recipe counts and timestamps).  [undefined] is not a value of
    the model: reading a property yields an [option value] and [None] stands
    for [undefined]. *)
Inductive value : Type :=
  | Null
  | Bool (b : bool)
  | Num (n : Z)
  | Str (s : string)
  | Arr (l : list value)
  | Obj (o : gmap string value).

(** A JavaScript object used as a record. *)
Abbreviation object := (gmap string value).

Inductive error : Type :=
  | StorageError   (* AsyncStorage rejected the call *)
  | SyntaxError    (* JSON.parse on a malformed text *)
  | TypeError.     (* property of null, or a method that does not exist *)

Inductive result (A : Type) : Type :=
  | Ok (a : A)
  | Throw (e : error).
Arguments Ok {A} a.
Arguments Throw {A} e.

(** [a === b] where at least one side is freshly parsed or a literal: the
    primitives compare by value; arrays and objects compare by reference and
    are never identical to a value built elsewhere. *)
Definition strict_eq (a b : option value) : bool :=
  match a, b with
  | None, None => true
  | Some Null, Some Null => true
  | Some (Bool x), Some (Bool y) => Bool.eqb x y
  | Some (Num x), Some (Num y) => Z.eqb x y
  | Some (Str x), Some (Str y) => String.eqb x y
  | _, _ => false
  end.

(** [v.k] for the property names the program reads ([id], [category]), none
    of which is defined on a prototype. *)
Definition get_prop (v : value) (k : string) : result (option value) :=
  match v with
  | Null => Throw TypeError
  | Obj o => Ok (o !! k)
  | _ => Ok None
  end.

(** [Number.prototype.toString()] of an integer: its decimal numeral.  This
    is the text that JavaScript gives for the integers that a number holds
    exactly ([safe], among the vocabulary below); from 10^21 on JavaScript
    gives an exponent notation instead.  The statements about the text of a
    stored number are made for [safe] numbers. *)
Definition Number_toString (n : Z) : string :=
  NilZero.string_of_int (Z.to_int n).

(** The own enumerable properties copied by [{...v}]. *)
Definition spread (v : value) : object :=
  match v with
  | Obj o => o
  | Arr l =>
      list_to_map (imap (fun i x => (Number_toString (Z.of_nat i), x)) l)
  | Str s =>
      list_to_map
        (imap (fun i c => (Number_toString (Z.of_nat i), Str (String c "")))
              (list_ascii_of_string s))
  | _ => ∅
  end.

(** ** Array methods *)

(** [l.indexOf(x)]: the first position strictly equal to [x], or [-1]. *)
Fixpoint indexOf (l : list value) (x : value) : Z :=
  match l with
  | [] => -1
  | y :: l' =>
      if strict_eq (Some y) (Some x) then 0
      else let i := indexOf l' x in if i <? 0 then -1 else i + 1
  end.

(** [l.splice(start, count)] for [0 <= start]: the array that remains. *)
Definition splice (l : list value) (start count : Z) : list value :=
  take (Z.to_nat start) l ++ drop (Z.to_nat start + Z.to_nat count) l.

(** [l[i] = x]: in place within the array, and growing it (the holes are
    written as [null] by [JSON.stringify]) beyond its end. *)
Definition array_set (l : list value) (i : nat) (x : value) : list value :=
  if (i <? length l)%nat then <[i := x]> l
  else l ++ replicate (i - length l) Null ++ [x].

(** [{...l[i]}]: nothing is copied from [undefined]. *)
Definition spread_at (l : list value) (i : nat) : object :=
  from_option spread ∅ (l !! i).

(** [l.push(x)]. *)
Definition push (l : list value) (x : value) : list value := l ++ [x].

(** [l.findIndex(p)]: stops at the first element satisfying [p]; a callback
    that throws aborts the search. *)
Fixpoint findIndex (p : value -> result bool) (l : list value) : result Z :=
  match l with
  | [] => Ok (-1)
  | y :: l' =>
      match p y with
      | Throw e => Throw e
      | Ok true => Ok 0
      | Ok false =>
          match findIndex p l' with
          | Throw e => Throw e
          | Ok i => Ok (if i <? 0 then -1 else i + 1)
          end
      end
  end.

(** [l.filter(p)]: visits every element in order. *)
Fixpoint filter_js (p : value -> result bool) (l : list value)
  : result (list value) :=
  match l with
  | [] => Ok []
  | y :: l' =>
      match p y with
      | Throw e => Throw e
      | Ok b =>
          match filter_js p l' with
          | Throw e => Throw e
          | Ok r => Ok (if b then y :: r else r)
          end
      end
  end.

(** ** The world: store, platform behaviour, clock and console *)

(** A stored string: either the JSON text of a value, or a text that
    [JSON.parse] rejects. *)
Inductive text : Type :=
  | JsonText (v : value)
  | BadText.

Definition JSON_stringify (v : value) : text := JsonText v.

Record World : Type := mkWorld {
  disk : gmap string text;     (* the contents of AsyncStorage *)
  faults : list bool;          (* [true]: the next storage call is rejected *)
  clock : Z;                   (* what Date.now() returns *)
  console : list string;       (* what console.error has logged, latest first *)
}.

(** Computations: state passing with exceptions. *)
Definition M (A : Type) : Type := World -> result A * World.

Definition ret {A} (a : A) : M A := fun w => (Ok a, w).
Definition throw {A} (e : error) : M A := fun w => (Throw e, w).
Definition bind {A B} (m : M A) (k : A -> M B) : M B :=
  fun w => match m w with
           | (Ok a, w') => k a w'
           | (Throw e, w') => (Throw e, w')
           end.
Definition try_catch {A} (body : M A) (handler : error -> M A) : M A :=
  fun w => match body w with
           | (Ok a, w') => (Ok a, w')
           | (Throw e, w') => handler e w'
           end.
Definition lift {A} (r : result A) : M A := fun w => (r, w).

Declare Scope js_scope.
Delimit Scope js_scope with js.
Notation "'let*' x ':=' m 'in' k" := (bind m (fun x => k))
  (at level 10, x name, m at level 100, k at level 200) : js_scope.
Notation "m ';;' k" := (bind m (fun _ => k))
  (at level 100, k at level 200, right associativity) : js_scope.
Local Open Scope js_scope.

Definition next_fault (w : World) : bool * World :=
  match faults w with
  | [] => (false, w)
  | b :: fs => (b, mkWorld (disk w) fs (clock w) (console w))
  end.

Definition AsyncStorage_getItem (key : string) : M (option text) :=
  fun w => let '(b, w') := next_fault w in
           if b then (Throw StorageError, w') else (Ok (disk w' !! key), w').

Definition AsyncStorage_setItem (key : string) (t : text) : M unit :=
  fun w => let '(b, w') := next_fault w in
           if b then (Throw StorageError, w')
           else (Ok tt, mkWorld (<[key := t]> (disk w')) (faults w')
                                (clock w') (console w')).

Definition JSON_parse (t : text) : M value :=
  match t with
  | JsonText v => ret v
  | BadText => throw SyntaxError
  end.

Definition console_error (msg : string) : M unit :=
  fun w => (Ok tt, mkWorld (disk w) (faults w) (clock w) (msg :: console w)).

Definition Date_now : M Z := fun w => (Ok (clock w), w).

(** A method of [Array.prototype] called on [v]: a [TypeError] unless [v] is
    an array.  (A string has [indexOf] but neither [splice] nor [push], so
    the bodies below throw on it all the same, before any effect.) *)
Definition as_array (v : value) : M (list value) :=
  match v with
  | Arr l => ret l
  | _ => throw TypeError
  end.

(** ** utils/storage.js *)

Module Storage.

Definition FAVORITES_KEY : string := "@foodie_favorites".
Definition MY_RECIPES_KEY : string := "@foodie_my_recipes".

(** *** Favorites *)

Definition getFavorites : M value :=
  try_catch
    (let* json := AsyncStorage_getItem FAVORITES_KEY in
     match json with
     | Some t => JSON_parse t
     | None => ret (Arr [])
     end)
    (fun _ => console_error "Error reading favorites:";; ret (Arr [])).

Definition saveFavorites (favorites : value) : M unit :=
  try_catch
    (AsyncStorage_setItem FAVORITES_KEY (JSON_stringify favorites))
    (fun _ => console_error "Error saving favorites:").

Definition toggleFavorite (recipeId : string) : M value :=
  try_catch
    (let* parsed := getFavorites in
     let* favorites := as_array parsed in
     let index := indexOf favorites (Str recipeId) in
     let favorites :=
       if index >? -1 then splice favorites index 1
       else push favorites (Str recipeId) in
     saveFavorites (Arr favorites);;
     ret (Arr favorites))
    (fun _ => console_error "Error toggling favorite:";; ret (Arr [])).

(** *** My Recipes *)

Definition getMyRecipes : M value :=
  try_catch
    (let* json := AsyncStorage_getItem MY_RECIPES_KEY in
     match json with
     | Some t => JSON_parse t
     | None => ret (Arr [])
     end)
    (fun _ => console_error "Error reading my recipes:";; ret (Arr [])).

Definition saveMyRecipes (recipes : value) : M unit :=
  try_catch
    (AsyncStorage_setItem MY_RECIPES_KEY (JSON_stringify recipes))
    (fun _ => console_error "Error saving my recipes:").

(** Returns the new record, or [Null]. *)
Definition addMyRecipe (recipe : object) : M value :=
  try_catch
    (let* parsed := getMyRecipes in
     let* millis := Date_now in
     let newRecipe : object :=
       <["category" := Str "myfood"]>
         (<["id" := Str ("user_" +:+ Number_toString millis)]> recipe) in
     let* recipes := as_array parsed in
     let recipes := push recipes (Obj newRecipe) in
     saveMyRecipes (Arr recipes);;
     ret (Obj newRecipe))
    (fun _ => console_error "Error adding recipe:";; ret Null).

(** The callback [(r) => r.id === updatedRecipe.id]. *)
Definition has_id (id : option value) (r : value) : result bool :=
  match get_prop r "id" with
  | Ok x => Ok (strict_eq x id)
  | Throw e => Throw e
  end.

Definition updateMyRecipe (updatedRecipe : object) : M unit :=
  try_catch
    (let* parsed := getMyRecipes in
     let* recipes := as_array parsed in
     let* index := lift (findIndex (has_id (updatedRecipe !! "id")) recipes) in
     if index >? -1 then
       let merged : object := updatedRecipe ∪ spread_at recipes (Z.to_nat index) in
       saveMyRecipes (Arr (array_set recipes (Z.to_nat index) (Obj merged)))
     else ret tt)
    (fun _ => console_error "Error updating recipe:").

(** The callback [(r) => r.id !== recipeId]. *)
Definition lacks_id (id : option value) (r : value) : result bool :=
  match get_prop r "id" with
  | Ok x => Ok (negb (strict_eq x id))
  | Throw e => Throw e
  end.

Definition deleteMyRecipe (recipeId : string) : M unit :=
  try_catch
    (let* parsed := getMyRecipes in
     let* recipes := as_array parsed in
     let* filtered := lift (filter_js (lacks_id (Some (Str recipeId))) recipes) in
     saveMyRecipes (Arr filtered))
    (fun _ => console_error "Error deleting recipe:").

End Storage.

(** ** Strings: [trim], [split], [parseInt] and the [||] fallbacks *)

(** A character of a [string] is read as a UTF-16 code unit below 256.
    Among these, the white space and line terminators of ECMAScript are TAB,
    LF, VT, FF, CR, SP and NBSP. *)
Definition is_ws (c : ascii) : bool :=
  let n := N_of_ascii c in
  ((9 <=? n) && (n <=? 13) || (n =? 32) || (n =? 160))%N.

Fixpoint trimStart (s : string) : string :=
  match s with
  | EmptyString => EmptyString
  | String c r => if is_ws c then trimStart r else s
  end.

Fixpoint trimEnd (s : string) : string :=
  match s with
  | EmptyString => EmptyString
  | String c r =>
      match trimEnd r with
      | EmptyString => if is_ws c then EmptyString else String c EmptyString
      | r' => String c r'
      end
  end.

(** [s.trim()]. *)
Definition trim (s : string) : string := trimEnd (trimStart s).

(** [s.split(sep)] for a one-character separator. *)
Fixpoint split (sep : ascii) (s : string) : list string :=
  match s with
  | EmptyString => [EmptyString]
  | String c r =>
      if Ascii.eqb c sep then EmptyString :: split sep r
      else match split sep r with
           | [] => [String c EmptyString]
           | h :: t => String c h :: t
           end
  end.

Definition LF : ascii := ascii_of_nat 10.

Definition digit_of (c : ascii) : option Z :=
  let n := Z.of_N (N_of_ascii c) in
  if (48 <=? n) && (n <=? 57) then Some (n - 48) else None.

(** The digits of the longest prefix of [s] made of decimal digits. *)
Fixpoint leading_digits (s : string) : list Z :=
  match s with
  | EmptyString => []
  | String c r =>
      match digit_of c with
      | Some d => d :: leading_digits r
      | None => []
      end
  end.

Definition digits_value (ds : list Z) : Z :=
  fold_left (fun acc d => 10 * acc + d) ds 0.

(** [parseInt(s, 10)]; [None] is [NaN].  Leading white space is skipped, one
    sign is read, then the longest run of decimal digits; what follows is
    ignored.  The result is the integer that the digits denote, which is
    what JavaScript returns when that integer is one that a number holds
    exactly ([safe], among the vocabulary below); beyond 2^53 JavaScript
    rounds it to a double, and to [Infinity] from about 309 digits on.  The
    statements about the number that a text parses to are made for [safe]
    integers. *)
Definition parseInt (s : string) : option Z :=
  let s := trimStart s in
  let '(sign, s) :=
    match s with
    | String "-" r => (-1, r)
    | String "+" r => (1, r)
    | _ => (1, s)
    end in
  match leading_digits s with
  | [] => None
  | ds => Some (sign * digits_value ds)
  end.

(** [n || d] on numbers: [NaN] and [0] are falsy. *)
Definition num_or (n : option Z) (d : Z) : Z :=
  match n with
  | None => d
  | Some k => if k =? 0 then d else k
  end.

(** [s || d] on strings: the empty string is falsy. *)
Definition str_or (s d : string) : string :=
  if String.eqb s "" then d else s.

(** Truthiness of a value that may be [undefined]. *)
Definition truthy (v : option value) : bool :=
  match v with
  | None | Some Null => false
  | Some (Bool b) => b
  | Some (Num n) => negb (n =? 0)
  | Some (Str s) => negb (String.eqb s "")
  | Some (Arr _) | Some (Obj _) => true
  end.

(** [text.split('\n').map((line) => line.trim()).filter((line) => line.length > 0)] *)
Definition lines_of (text : string) : list string :=
  List.filter (fun line => (0 <? String.length line)%nat)
              (trim <$> split LF text).

(** ** Conversions to string, [join], [includes] and spreading *)

(** [l.join(sep)] over a conversion [f] of the elements; a [null] element
    gives the empty string. *)
Definition join_with (f : value -> result string) (sep : string)
  : list value -> result string :=
  fix go (l : list value) : result string :=
    match l with
    | [] => Ok ""
    | x :: l' =>
        match (match x with Null => Ok "" | _ => f x end) with
        | Throw e => Throw e
        | Ok s =>
            match l' with
            | [] => Ok s
            | _ :: _ =>
                match go l' with
                | Throw e => Throw e
                | Ok t => Ok (s +:+ sep +:+ t)
                end
            end
        end
    end.

(** [String(v)], which is also [v.toString()] on a value that is not [null].
    An array joins its elements with a comma; an object gives
    ["[object Object]"], unless it has a [toString] property of its own,
    which, coming from JSON, cannot be called. *)
Fixpoint ToString (v : value) : result string :=
  match v with
  | Null => Ok "null"
  | Bool b => Ok (if b then "true" else "false")
  | Num n => Ok (Number_toString n)
  | Str s => Ok s
  | Arr l => join_with ToString "," l
  | Obj o =>
      match o !! "toString" with
      | Some _ => Throw TypeError
      | None => Ok "[object Object]"
      end
  end.

(** [p] occurs in [s] as a substring. *)
Fixpoint is_infix (p s : string) : bool :=
  String.prefix p s
  || match s with
     | EmptyString => false
     | String _ r => is_infix p r
     end.

(** [v.includes(x)]: membership up to strict equality on an array, substring
    search for [String(x)] on a string, a [TypeError] on anything else. *)
Definition includes (v : value) (x : option value) : result bool :=
  match v with
  | Arr l => Ok (existsb (fun y => strict_eq (Some y) x) l)
  | Str s =>
      match (match x with Some y => ToString y | None => Ok "undefined" end) with
      | Ok p => Ok (is_infix p s)
      | Throw e => Throw e
      end
  | _ => Throw TypeError
  end.

(** The elements spread by [[...v]]: those of an array, the characters of a
    string; nothing else that JSON holds is iterable. *)
Definition iterate (v : value) : result (list value) :=
  match v with
  | Arr l => Ok l
  | Str s => Ok ((fun c => Str (String c "")) <$> list_ascii_of_string s)
  | _ => Throw TypeError
  end.

(** The state of the Add and Edit forms. *)
Record Form : Type := mkForm {
  name : string;
  imageUrl : string;
  prepTime : string;
  servings : string;
  calories : string;
  difficulty : string;
  ingredients : string;
  instructions : string;
}.

Inductive alert : Type :=
  | MissingInformation
  | Success
  | Failure.

(** ** screens/AddRecipeScreen.js *)

Module AddRecipeScreen.

Definition PLACEHOLDER_IMAGE : string :=
  "https://images.unsplash.com/photo-1495521821757-a1efb6729352?w=400".

(** The object literal [newRecipe] of [handleSave]. *)
Definition newRecipe (f : Form) : object :=
  list_to_map
    [ ("name", Str (trim (name f)));
      ("image", Str (str_or (trim (imageUrl f)) PLACEHOLDER_IMAGE));
      ("prepTime", Str (str_or (trim (prepTime f)) "N/A"));
      ("servings", Num (num_or (parseInt (servings f)) 1));
      ("calories", Num (num_or (parseInt (calories f)) 0));
      ("difficulty", Str (str_or (trim (difficulty f)) "Easy"));
      ("ingredients", Arr (Str <$> lines_of (ingredients f)));
      ("instructions", Arr (Str <$> lines_of (instructions f))) ].

(** [handleSave]; the result is the dialog shown. *)
Definition handleSave (f : Form) : M alert :=
  if String.eqb (trim (name f)) "" then ret MissingInformation
  else
    let* saved := Storage.addMyRecipe (newRecipe f) in
    if truthy (Some saved) then ret Success else ret Failure.

End AddRecipeScreen.

(** ** screens/EditRecipeScreen.js *)

Module EditRecipeScreen.

(** [imageUrl.trim() || recipe.image || ''] *)
Definition image_or (url : string) (old : option value) : value :=
  if String.eqb url "" then
    match old with
    | Some v => if truthy old then v else Str ""
    | None => Str ""
    end
  else Str url.

(** The object literal [updatedRecipe] of [handleSave]; [recipe] is the
    record received through the navigation parameters.  An [id] that is
    [undefined] is dropped by [JSON.stringify], and is left out here. *)
Definition updatedRecipe (recipe : object) (f : Form) : object :=
  let fields : object :=
    list_to_map
      [ ("name", Str (trim (name f)));
        ("image", image_or (trim (imageUrl f)) (recipe !! "image"));
        ("prepTime", Str (str_or (trim (prepTime f)) "N/A"));
        ("servings", Num (num_or (parseInt (servings f)) 1));
        ("calories", Num (num_or (parseInt (calories f)) 0));
        ("difficulty", Str (str_or (trim (difficulty f)) "Easy"));
        ("category", Str "myfood");
        ("ingredients", Arr (Str <$> lines_of (ingredients f)));
        ("instructions", Arr (Str <$> lines_of (instructions f))) ] in
  match recipe !! "id" with
  | Some i => <["id" := i]> fields
  | None => fields
  end.

(** The initial state of the form.  [name], [imageUrl], [prepTime] and
    [difficulty] start as [recipe.field || ''], which is whatever truthy value
    the record holds; the numeric fields as [v ? v.toString() : '']; the two
    lists as [Array.isArray(v) ? v.join('\n') : '']. *)
Record State : Type := mkState {
  st_name : value;
  st_imageUrl : value;
  st_prepTime : value;
  st_servings : string;
  st_calories : string;
  st_difficulty : value;
  st_ingredients : string;
  st_instructions : string;
}.

Definition or_empty (v : option value) : value :=
  match v with
  | Some x => if truthy v then x else Str ""
  | None => Str ""
  end.

Definition text_of (v : option value) : result string :=
  match v with
  | Some x => if truthy v then ToString x else Ok ""
  | None => Ok ""
  end.

Definition lines_text (v : option value) : result string :=
  match v with
  | Some (Arr l) => join_with ToString (String LF "") l
  | _ => Ok ""
  end.

Definition initialState (recipe : object) : result State :=
  match text_of (recipe !! "servings") with
  | Throw e => Throw e
  | Ok s =>
      match text_of (recipe !! "calories") with
      | Throw e => Throw e
      | Ok c =>
          match lines_text (recipe !! "ingredients") with
          | Throw e => Throw e
          | Ok ing =>
              match lines_text (recipe !! "instructions") with
              | Throw e => Throw e
              | Ok ins =>
                  Ok (mkState (or_empty (recipe !! "name"))
                              (or_empty (recipe !! "image"))
                              (or_empty (recipe !! "prepTime"))
                              s c
                              (or_empty (recipe !! "difficulty"))
                              ing ins)
              end
          end
      end
  end.

Definition handleSave (recipe : object) (f : Form) : M alert :=
  if String.eqb (trim (name f)) "" then ret MissingInformation
  else
    Storage.updateMyRecipe (updatedRecipe recipe f);;
    ret Success.

End EditRecipeScreen.

(** ** screens/MainFeedScreen.js *)

Module MainFeedScreen.

(** The callbacks [(r) => r.category !== 'myfood'] and
    [(r) => r.category === selectedCategory]. *)
Definition category_is_not (c : string) (r : value) : result bool :=
  match get_prop r "category" with
  | Ok x => Ok (negb (strict_eq x (Some (Str c))))
  | Throw e => Throw e
  end.

Definition category_is (c : string) (r : value) : result bool :=
  match get_prop r "category" with
  | Ok x => Ok (strict_eq x (Some (Str c)))
  | Throw e => Throw e
  end.

Definition filteredRecipes (selectedCategory : string) (allRecipes : list value)
  : result (list value) :=
  if String.eqb selectedCategory "all" then
    filter_js (category_is_not "myfood") allRecipes
  else
    filter_js (category_is selectedCategory) allRecipes.

(** [handleCategoryPress]: the new selection, and the screen navigated to,
    if any. *)
Definition handleCategoryPress (categoryId selectedCategory : string)
  : string * option string :=
  if String.eqb categoryId "myfood" then (selectedCategory, Some "MyRecipes")
  else (categoryId, None).

(** [loadRecipes]: the new [allRecipes], the catalog followed by the user's
    recipes.  [MOCK_RECIPES] is the catalog of [data/mockData.js]. *)
Definition loadRecipes (MOCK_RECIPES : list value) : M (list value) :=
  let* userRecipes := Storage.getMyRecipes in
  let* spreadUser := lift (iterate userRecipes) in
  ret (MOCK_RECIPES ++ spreadUser).

End MainFeedScreen.

(** ** screens/RecipeDetailScreen.js *)

Module RecipeDetailScreen.

(** Both functions take [recipe.id], a string or [undefined], and the
    current [isFavorited]; they return the new [isFavorited]. *)
Definition checkFavorite (id : option string) (isFavorited : bool) : M bool :=
  if truthy (Str <$> id) then
    match id with
    | Some s =>
        let* favorites := Storage.getFavorites in
        lift (includes favorites (Some (Str s)))
    | None => ret isFavorited
    end
  else ret isFavorited.

Definition handleToggleFavorite (id : option string) (isFavorited : bool)
  : M bool :=
  if truthy (Str <$> id) then
    match id with
    | Some s =>
        let* updatedFavorites := Storage.toggleFavorite s in
        lift (includes updatedFavorites (Some (Str s)))
    | None => ret isFavorited
    end
  else ret isFavorited.

End RecipeDetailScreen.

(** ** screens/FavoritesScreen.js *)

Module FavoritesScreen.

(** The callback [(r) => favoriteIds.includes(r.id)]. *)
Definition is_favorite (favoriteIds : value) (r : value) : result bool :=
  match get_prop r "id" with
  | Ok x => includes favoriteIds x
  | Throw e => Throw e
  end.

(** [loadFavorites]: the new [favoriteRecipes]. *)
Definition loadFavorites (MOCK_RECIPES : list value) : M (list value) :=
  let* favoriteIds := Storage.getFavorites in
  let* userRecipes := Storage.getMyRecipes in
  let* spreadUser := lift (iterate userRecipes) in
  let allRecipes := MOCK_RECIPES ++ spreadUser in
  lift (filter_js (is_favorite favoriteIds) allRecipes).

End FavoritesScreen.

(** ** screens/MyRecipesScreen.js *)

Module MyRecipesScreen.

(** [loadRecipes]: the new [myRecipes]. *)
Definition loadRecipes : M value := Storage.getMyRecipes.

(** The [Delete] button of the confirmation dialog of [handleDelete]: the
    new [myRecipes]. *)
Definition confirmDelete (recipeId : string) : M value :=
  Storage.deleteMyRecipe recipeId;;
  Storage.getMyRecipes.

End MyRecipesScreen.

(** ** The vocabulary of the statements *)

(** The value an operation obtains for [key]: an absent key stands for the
    empty array; [None] when the stored text is malformed. *)
Definition stored (key : string) (w : World) : option value :=
  match disk w !! key with
  | None => Some (Arr [])
  | Some (JsonText v) => Some v
  | Some BadText => None
  end.

(** The world after [key] has been overwritten with the JSON text of [v]. *)
Definition write (key : string) (v : value) (w : World) : World :=
  mkWorld (<[key := JsonText v]> (disk w)) (faults w) (clock w) (console w).

(** The [n]-th storage call from now on is rejected. *)
Definition rejected (n : nat) (w : World) : Prop := faults w !! n = Some true.

(** The [n] next storage calls are served. *)
Definition served (n : nat) (w : World) : Prop :=
  Forall (fun b => b = false) (take n (faults w)).

(** [Array.isArray(v)]. *)
Definition is_array (v : value) : bool :=
  match v with
  | Arr _ => true
  | _ => false
  end.

(** The next read of [key] fails: the call is rejected, or the text does not
    parse. *)
Definition unreadable (key : string) (w : World) : Prop :=
  rejected 0 w \/ disk w !! key = Some BadText.

(** The next read of [key] succeeds, with something that is not an array. *)
Definition not_an_array (key : string) (w : World) : Prop :=
  served 1 w /\ exists v, stored key w = Some v /\ is_array v = false.

(** Exceptions never leave [m]. *)
Definition never_throws {A} (m : M A) : Prop :=
  forall w, exists a w', m w = (Ok a, w').

(** Every character of [s] is a decimal digit. *)
Fixpoint digits_only (s : string) : bool :=
  match s with
  | EmptyString => true
  | String c r => match digit_of c with Some _ => digits_only r | None => false end
  end.

(** [r.id === i] on a record. *)
Definition id_is (i : string) (r : object) : bool :=
  strict_eq (r !! "id") (Some (Str i)).

(** No record of [rs] has the id [i]. *)
Definition no_record_with_id (i : string) (rs : list object) : Prop :=
  Forall (fun r : object => r !! "id" ≠ Some (Str i)) rs.

(** The ids of a collection, [None] where a record has none. *)
Definition ids (rs : list object) : list (option value) :=
  (fun r : object => r !! "id") <$> rs.

(** The records that survive a delete of [i]. *)
Definition others (i : string) (rs : list object) : list object :=
  List.filter (fun r => negb (id_is i r)) rs.

(** The record's category is [c]. *)
Definition is_category (c : string) (r : object) : Prop :=
  r !! "category" = Some (Str c).

#[global] Instance is_category_dec (c : string) (r : object) :
  Decision (is_category c r).
Proof.
  unfold is_category.
  destruct (r !! "category") as [[| | |s| |]|]; try (right; discriminate).
  destruct (String.eqb_spec s c) as [->|Hne]; [left; reflexivity|].
  right. congruence.
Defined.

(** Under ["all"] every recipe whose category is not ["myfood"]; otherwise
    exactly the recipes whose category is the selected one. *)
Definition feed_rule (selectedCategory : string) (rs : list object)
  : list object :=
  if decide (selectedCategory = "all")
  then filter (fun r => ¬ is_category "myfood" r) rs
  else filter (is_category selectedCategory) rs.

(** White space only (or empty). *)
Fixpoint blank (s : string) : bool :=
  match s with
  | EmptyString => true
  | String c r => is_ws c && blank r
  end.

(** [c] occurs in [s]. *)
Fixpoint contains (c : ascii) (s : string) : bool :=
  match s with
  | EmptyString => false
  | String d r => Ascii.eqb d c || contains c r
  end.

(** The form after one field has been typed over. *)
Definition with_servings (s : string) (f : Form) : Form :=
  mkForm (name f) (imageUrl f) (prepTime f) s (calories f) (difficulty f)
         (ingredients f) (instructions f).

Definition with_calories (s : string) (f : Form) : Form :=
  mkForm (name f) (imageUrl f) (prepTime f) (servings f) s (difficulty f)
         (ingredients f) (instructions f).

Definition with_ingredients (s : string) (f : Form) : Form :=
  mkForm (name f) (imageUrl f) (prepTime f) (servings f) (calories f)
         (difficulty f) s (instructions f).

Definition with_instructions (s : string) (f : Form) : Form :=
  mkForm (name f) (imageUrl f) (prepTime f) (servings f) (calories f)
         (difficulty f) (ingredients f) s.

(** The two readers and the two writers differ in their key and message
    only. *)
Definition reader (key msg : string) : M value :=
  try_catch
    (let* json := AsyncStorage_getItem key in
     match json with
     | Some t => JSON_parse t
     | None => ret (Arr [])
     end)
    (fun _ => console_error msg;; ret (Arr [])).

Definition writer (key msg : string) (v : value) : M unit :=
  try_catch
    (AsyncStorage_setItem key (JSON_stringify v))
    (fun _ => console_error msg).

(** ** Sample data *)

(** Sample worlds for the favorites. *)
Definition favorites_1_5 : World :=
  mkWorld {[Storage.FAVORITES_KEY := JsonText (Arr [Str "1"; Str "5"])]} [] 0 [].

Definition empty_world : World := mkWorld ∅ [] 1700000000000 [].

Definition tacos : object :=
  list_to_map [("name", Str "Tacos"); ("prepTime", Str "10 min");
               ("servings", Num 2); ("category", Str "dinner")].

Definition two_recipes : list object :=
  [ list_to_map [("id", Str "user_1"); ("name", Str "A"); ("calories", Num 100)];
    list_to_map [("id", Str "user_2"); ("name", Str "B")] ].

Definition two_recipes_world : World :=
  mkWorld {[Storage.MY_RECIPES_KEY := JsonText (Arr (Obj <$> two_recipes))]}
          [] 1700000000000 [].

Definition calories_200 : object :=
  list_to_map [("id", Str "user_1"); ("calories", Num 200)].

Definition calories_unknown : object :=
  list_to_map [("id", Str "user_9"); ("calories", Num 200)].

Definition three_recipes : list object :=
  [ list_to_map [("id", Str "user_1"); ("name", Str "A")];
    list_to_map [("id", Str "user_2"); ("name", Str "B")];
    list_to_map [("id", Str "user_3"); ("name", Str "C")] ].

Definition three_recipes_world : World :=
  mkWorld {[Storage.MY_RECIPES_KEY := JsonText (Arr (Obj <$> three_recipes))]}
          [] 1700000000000 [].

(** Two records share the id ["user_1"]. *)
Definition shared_id_recipes : list object :=
  [ list_to_map [("id", Str "user_1"); ("name", Str "A")];
    list_to_map [("id", Str "user_2"); ("name", Str "B")];
    list_to_map [("id", Str "user_1"); ("name", Str "C")] ].

Definition shared_id_world : World :=
  mkWorld {[Storage.MY_RECIPES_KEY := JsonText (Arr (Obj <$> shared_id_recipes))]}
          [] 1700000000000 [].

(** A breakfast, a lunch and a user-authored recipe. *)
Definition eggs : object :=
  list_to_map [("id", Str "1"); ("category", Str "breakfast")].
Definition wrap : object :=
  list_to_map [("id", Str "4"); ("category", Str "lunch")].
Definition my_pie : object :=
  list_to_map [("id", Str "user_1700000000000"); ("category", Str "myfood")].

(** The line break as a string, and the text
    ["flour\n\n2 eggs\n  \nmilk"]. *)
Definition nl : string := String LF "".

Definition shopping_text : string :=
  "flour" +:+ nl +:+ nl +:+ "2 eggs" +:+ nl +:+ "  " +:+ nl +:+ "milk".

(** A form with a name and nothing else. *)
Definition blank_form : Form := mkForm "Bread" "" "" "" "" "" "" "".

(** Worlds in which the first, or the second, storage call is rejected. *)
Definition write_rejected_world : World :=
  mkWorld ∅ [false; true] 1700000000000 [].

Definition read_rejected_world : World :=
  mkWorld {[Storage.MY_RECIPES_KEY := JsonText (Arr (Obj <$> two_recipes))]}
          [true] 1700000000000 [].

Definition recipes_write_rejected_world : World :=
  mkWorld {[Storage.MY_RECIPES_KEY := JsonText (Arr (Obj <$> two_recipes))]}
          [false; true] 1700000000000 [].

(** Worlds whose stored texts do not parse, or parse to something that is
    not an array. *)
Definition malformed_world : World :=
  mkWorld (<[Storage.FAVORITES_KEY := BadText]>
             {[Storage.MY_RECIPES_KEY := BadText]}) [] 1700000000000 [].

Definition not_arrays_world : World :=
  mkWorld (<[Storage.FAVORITES_KEY := JsonText Null]>
             {[Storage.MY_RECIPES_KEY := JsonText (Num 5)]}) [] 1700000000000 [].

(** Closed goals [no_record_with_id i rs] and [NoDup (ids rs)]. *)
Ltac no_such_record :=
  repeat (constructor; [let H := fresh in intros H; vm_compute in H; discriminate H|]);
  constructor.

Ltac distinct_ids :=
  vm_compute;
  repeat (apply NoDup_cons_2;
          [ let H := fresh in
            intros H;
            repeat (apply elem_of_cons in H as [H|H]; [discriminate H|]);
            by apply elem_of_nil in H
          | ]);
  apply NoDup_nil_2.

(** ** Further vocabulary *)

(** Every entry of the store but the one under [key] is the same in both
    worlds. *)
Definition touches_only (key : string) (w w' : World) : Prop :=
  forall k : string, k ≠ key -> disk w' !! k = disk w !! k.

(** The digits of a decimal numeral, most significant first. *)
Fixpoint uint_digits (d : Decimal.uint) : list Z :=
  match d with
  | Decimal.Nil => []
  | Decimal.D0 d => 0 :: uint_digits d
  | Decimal.D1 d => 1 :: uint_digits d
  | Decimal.D2 d => 2 :: uint_digits d
  | Decimal.D3 d => 3 :: uint_digits d
  | Decimal.D4 d => 4 :: uint_digits d
  | Decimal.D5 d => 5 :: uint_digits d
  | Decimal.D6 d => 6 :: uint_digits d
  | Decimal.D7 d => 7 :: uint_digits d
  | Decimal.D8 d => 8 :: uint_digits d
  | Decimal.D9 d => 9 :: uint_digits d
  end.

(** Every record is in the category ["myfood"]. *)
Definition all_myfood (rs : list object) : Prop :=
  Forall (is_category "myfood") rs.

(** A world like [empty_world], one millisecond later. *)
Definition later_world : World := mkWorld ∅ [] 1700000000001 [].


(** A stored collection with a [null] entry. *)
Definition null_entry_world : World :=
  mkWorld {[Storage.MY_RECIPES_KEY :=
              JsonText (Arr (Null :: (Obj <$> two_recipes)))]}
          [] 1700000000000 [].

(** A record with a property that no form knows. *)
Definition noted_recipe : object :=
  list_to_map [("id", Str "user_1"); ("name", Str "A"); ("category", Str "myfood");
               ("notes", Str "grandma's")].

Definition noted_world : World :=
  mkWorld {[Storage.MY_RECIPES_KEY := JsonText (Arr (Obj <$> [noted_recipe]))]}
          [] 1700000000000 [].

(** The state of the Edit form as a [Form], when each text field holds a
    string. *)
Definition form_of_state (st : EditRecipeScreen.State) : option Form :=
  match EditRecipeScreen.st_name st, EditRecipeScreen.st_imageUrl st,
        EditRecipeScreen.st_prepTime st, EditRecipeScreen.st_difficulty st with
  | Str n, Str i, Str p, Str d =>
      Some (mkForm n i p (EditRecipeScreen.st_servings st)
                   (EditRecipeScreen.st_calories st) d
                   (EditRecipeScreen.st_ingredients st)
                   (EditRecipeScreen.st_instructions st))
  | _, _, _, _ => None
  end.

(** The record that [addMyRecipe] stores for the Add form [f], under the
    id [i]. *)
Definition created (i : string) (f : Form) : object :=
  <["category" := Str "myfood"]> (<["id" := Str i]> (AddRecipeScreen.newRecipe f)).

(** A filled Add form. *)
Definition pancakes_form : Form :=
  mkForm " Pancakes " "" "20 min" "4" "" "" shopping_text "mix".

Definition pancakes_world : World :=
  mkWorld {[Storage.MY_RECIPES_KEY :=
              JsonText (Arr (Obj <$> [created "user_1700000000000" pancakes_form]))]}
          [] 1700000000005 [].

(** The selection after the category pills [ps] have been pressed in turn. *)
Definition presses (ps : list string) (selectedCategory : string) : string :=
  fold_left (fun sel p => fst (MainFeedScreen.handleCategoryPress p sel))
            ps selectedCategory.

(** The record's id is one of [favs]. *)
Definition favorited (favs : list string) (r : object) : bool :=
  existsb (fun s => id_is s r) favs.

(** A catalog of two, and a world with one favorite and one user recipe. *)
Definition catalog : list object := [eggs; wrap].

Definition home_world : World :=
  mkWorld (<[Storage.FAVORITES_KEY := JsonText (Arr [Str "4"])]>
             {[Storage.MY_RECIPES_KEY := JsonText (Arr (Obj <$> [my_pie]))]})
          [] 1700000000000 [].

(** A stored record whose servings and calories are 0. *)
Definition zero_servings : object :=
  list_to_map [("id", Str "user_3"); ("name", Str "Soup");
               ("servings", Num 0); ("calories", Num 0)].

(** The same store, with the second storage call rejected. *)
Definition home_write_rejected_world : World :=
  mkWorld (<[Storage.FAVORITES_KEY := JsonText (Arr [Str "4"])]>
             {[Storage.MY_RECIPES_KEY := JsonText (Arr (Obj <$> [my_pie]))]})
          [false; true] 1700000000000 [].

(** The favorites after a toggle of [x], as [toggleFavorite] computes them. *)
Definition toggled (x : string) (l : list value) : list value :=
  if indexOf l (Str x) >? -1 then splice l (indexOf l (Str x)) 1
  else push l (Str x).

(** [[...v]] does not throw. *)
Definition iterable (v : value) : bool :=
  match v with
  | Arr _ | Str _ => true
  | _ => false
  end.

(** A world whose stored user recipes are an object, not an array. *)
Definition object_world : World :=
  mkWorld {[Storage.MY_RECIPES_KEY := JsonText (Obj ∅)]} [] 1700000000000 [].

(** ** White space, lines and numerals in the spec's words *)

(** The white space and line terminators of ECMAScript below 256, one by
    one: TAB, LF, VT, FF, CR, SP and NBSP. *)
Definition white (c : ascii) : Prop :=
  c ∈ ["009"; "010"; "011"; "012"; "013"; " "; "160"]%char.

Definition decimal_digit (c : ascii) : Prop :=
  c ∈ ["0"; "1"; "2"; "3"; "4"; "5"; "6"; "7"; "8"; "9"]%char.

(** White space only (or empty). *)
Definition all_white (s : string) : Prop :=
  Forall white (list_ascii_of_string s).

Definition first_char (s : string) : option ascii :=
  match s with
  | EmptyString => None
  | String c _ => Some c
  end.

Fixpoint last_char (s : string) : option ascii :=
  match s with
  | EmptyString => None
  | String c EmptyString => Some c
  | String _ r => last_char r
  end.

(** [s] begins with a character that satisfies [P]. *)
Definition starts_with (P : ascii -> Prop) (s : string) : Prop :=
  exists c, first_char s = Some c /\ P c.

(** [line] is [piece] without the white space around it: [piece] is [line]
    between two runs of white space, and [line] begins and ends with a
    character that is not white space. *)
Definition trimmed_to (piece line : string) : Prop :=
  (exists pre post : string,
      piece = pre +:+ line +:+ post /\ all_white pre /\ all_white post)
  /\ (exists c, first_char line = Some c /\ ~ white c)
  /\ (exists c, last_char line = Some c /\ ~ white c).

(** The lines kept of the pieces of a text, in the spec's words: a piece of
    white space only is discarded, any other piece is kept without the white
    space around it, and the order is that of the text. *)
Inductive kept : list string -> list string -> Prop :=
  | kept_nil : kept [] []
  | kept_blank piece pieces lines :
      all_white piece -> kept pieces lines -> kept (piece :: pieces) lines
  | kept_line piece line pieces lines :
      trimmed_to piece line -> kept pieces lines ->
      kept (piece :: pieces) (line :: lines).

(** The integers that a JavaScript number holds exactly, every integer in
    between being held exactly as well.  On these [parseInt] returns the
    integer that the digits denote and [toString] prints its decimal
    numeral. *)
Definition safe (n : Z) : Prop := - 2 ^ 53 <= n <= 2 ^ 53.

(** The time values of ECMAScript that [Date.now()] can return. *)
Definition time_value (t : Z) : Prop := 0 <= t <= 8640000000000000.

(** [s] reads as the integer [n]: after white space, if any, comes an
    optional sign, then a decimal numeral [u] (leading zeros allowed), then
    something that does not go on with a digit. *)
Definition integer_text (s : string) (n : Z) : Prop :=
  exists (pre sign rest : string) (u : Decimal.uint),
    s = pre +:+ sign +:+ NilEmpty.string_of_uint u +:+ rest
    /\ all_white pre
    /\ u ≠ Decimal.Nil
    /\ ~ starts_with decimal_digit rest
    /\ ((sign = "" \/ sign = "+") /\ n = Z.of_uint u
        \/ sign = "-" /\ n = - Z.of_uint u).

(** [s] does not read as an integer: after the white space and the optional
    sign there is no digit. *)
Definition not_integer_text (s : string) : Prop :=
  exists (pre sign rest : string),
    s = pre +:+ sign +:+ rest
    /\ all_white pre
    /\ ~ starts_with decimal_digit rest
    /\ (sign = "+" \/ sign = "-"
        \/ sign = ""
           /\ ~ starts_with white rest
           /\ ~ starts_with (fun c => c = "+"%char \/ c = "-"%char) rest).

(** The spec's text with white space around its three lines: a space before
    and two after "flour", a TAB before and a CR after "2 eggs", an NBSP
    alone on a line, and two spaces before "milk". *)
Definition padded_text : string :=
  " flour  " +:+ nl +:+ nl
  +:+ String "009" "2 eggs" +:+ String "013" "" +:+ nl
  +:+ String "160" "" +:+ nl +:+ "  milk".

(** A stored record with servings and calories. *)
Definition stew : object :=
  list_to_map [("id", Str "user_4"); ("name", Str "Stew");
               ("servings", Num 4); ("calories", Num 250)].

(** Two lines with white space around them, and a line of one space in
    between. *)
Definition spaced_text : string :=
  "flour  " +:+ nl +:+ " " +:+ nl +:+ "  eggs".

(** Closed goals about white space and first characters. *)
Ltac all_white_text :=
  unfold all_white; cbn [list_ascii_of_string];
  repeat (constructor; [unfold white; compute_done|]); constructor.

Ltac not_white_char := unfold white; compute_done.

Ltac no_such_start :=
  let c := fresh "c" in
  let Hc := fresh "Hc" in
  let H := fresh "H" in
  intros (c & Hc & H);
  first [ discriminate Hc
        | injection Hc as <-; revert H; cbv beta;
          unfold white, decimal_digit; compute_done ].

(** ** Basic facts *)

Lemma strict_eq_Str (x : option value) (s : string) :
  strict_eq x (Some (Str s)) = true <-> x = Some (Str s).
Proof.
  split.
  - destruct x as [[]|]; simpl; try discriminate.
    intros H. apply String.eqb_eq in H. by subst.
  - intros ->. simpl. apply String.eqb_refl.
Qed.

Lemma strict_eq_Str_false (x : option value) (s : string) :
  strict_eq x (Some (Str s)) = false <-> x ≠ Some (Str s).
Proof.
  rewrite <- strict_eq_Str. destruct (strict_eq _ _); split; congruence.
Qed.

Lemma id_is_true (i : string) (r : object) :
  id_is i r = true <-> r !! "id" = Some (Str i).
Proof. apply strict_eq_Str. Qed.

Lemma id_is_false (i : string) (r : object) :
  id_is i r = false <-> r !! "id" ≠ Some (Str i).
Proof. apply strict_eq_Str_false. Qed.

Lemma stored_write key v w : stored key (write key v w) = Some v.
Proof. unfold stored, write. simpl. by rewrite lookup_insert_eq. Qed.

Lemma stored_write_ne key key' v w :
  key ≠ key' -> stored key' (write key v w) = stored key' w.
Proof. intros H. unfold stored, write. simpl. by rewrite lookup_insert_ne. Qed.

Lemma faults_write key v w : faults (write key v w) = faults w.
Proof. reflexivity. Qed.

Section Quiet.
(** A world in which no storage call is rejected. *)
Variable w : World.
Hypothesis quiet : faults w = [].

Lemma getItem_quiet key : AsyncStorage_getItem key w = (Ok (disk w !! key), w).
Proof. unfold AsyncStorage_getItem, next_fault. by rewrite quiet. Qed.

Lemma setItem_quiet key v :
  AsyncStorage_setItem key (JSON_stringify v) w = (Ok tt, write key v w).
Proof. unfold AsyncStorage_setItem, next_fault. by rewrite quiet. Qed.

Lemma getFavorites_quiet v :
  stored Storage.FAVORITES_KEY w = Some v -> Storage.getFavorites w = (Ok v, w).
Proof.
  unfold stored, Storage.getFavorites, try_catch, bind.
  rewrite getItem_quiet.
  destruct (disk w !! _) as [[u|]|]; simpl; congruence.
Qed.

Lemma getMyRecipes_quiet v :
  stored Storage.MY_RECIPES_KEY w = Some v -> Storage.getMyRecipes w = (Ok v, w).
Proof.
  unfold stored, Storage.getMyRecipes, try_catch, bind.
  rewrite getItem_quiet.
  destruct (disk w !! _) as [[u|]|]; simpl; congruence.
Qed.

Lemma saveFavorites_quiet v :
  Storage.saveFavorites v w = (Ok tt, write Storage.FAVORITES_KEY v w).
Proof. unfold Storage.saveFavorites, try_catch. by rewrite setItem_quiet. Qed.

Lemma saveMyRecipes_quiet v :
  Storage.saveMyRecipes v w = (Ok tt, write Storage.MY_RECIPES_KEY v w).
Proof. unfold Storage.saveMyRecipes, try_catch. by rewrite setItem_quiet. Qed.
End Quiet.

(** *** [indexOf] and [splice] *)

Lemma indexOf_range l x : -1 <= indexOf l x < Z.of_nat (length l).
Proof.
  induction l as [|y l IH]; cbn [indexOf length]; [lia|].
  destruct (strict_eq (Some y) (Some x)); [lia|].
  destruct (Z.ltb_spec (indexOf l x) 0); lia.
Qed.

Lemma indexOf_absent (ids : list string) (x : string) :
  x ∉ ids -> indexOf (Str <$> ids) (Str x) = -1.
Proof.
  induction ids as [|y ids IH]; csimpl; [done|].
  intros H. apply not_elem_of_cons in H as [Hne Hnin].
  destruct (String.eqb_spec y x) as [->|_]; [done|].
  rewrite IH by done. reflexivity.
Qed.

Lemma indexOf_last (ids : list string) (x : string) :
  x ∉ ids -> indexOf (Str <$> (ids ++ [x])) (Str x) = Z.of_nat (length ids).
Proof.
  induction ids as [|y ids IH]; csimpl.
  - intros _. by rewrite String.eqb_refl.
  - intros H. apply not_elem_of_cons in H as [Hne Hnin].
    destruct (String.eqb_spec y x) as [->|_]; [done|].
    rewrite IH by done.
    destruct (Z.ltb_spec (Z.of_nat (length ids)) 0); lia.
Qed.

Lemma splice_last (l : list value) (x : value) :
  splice (l ++ [x]) (Z.of_nat (length l)) 1 = l.
Proof.
  unfold splice. rewrite Nat2Z.id.
  rewrite take_app_length.
  rewrite drop_ge; [by rewrite app_nil_r|].
  rewrite length_app. simpl. lia.
Qed.

(** ** Favorites *)

(** One toggle in a quiet world whose stored favorites are an array. *)
Lemma toggleFavorite_quiet (w : World) (l : list value) (x : string) :
  faults w = [] ->
  stored Storage.FAVORITES_KEY w = Some (Arr l) ->
  let l' := if indexOf l (Str x) >? -1 then splice l (indexOf l (Str x)) 1
            else push l (Str x) in
  Storage.toggleFavorite x w
  = (Ok (Arr l'), write Storage.FAVORITES_KEY (Arr l') w).
Proof.
  intros Hq Hs. unfold Storage.toggleFavorite, try_catch, bind.
  rewrite (getFavorites_quiet w Hq _ Hs). cbn [as_array ret].
  rewrite (saveFavorites_quiet w Hq). reflexivity.
Qed.

(** C1. Toggling twice an id [x] that is not among the stored favorites: the
    first call returns (and stores) the old favorites followed by [x], the
    second call returns (and stores) exactly the old favorites, in their
    order, so [x] is a member after the first call and not after the
    second. *)
Theorem toggleFavorite_twice (x : string) (favs : list string) (w : World) :
  faults w = [] ->
  stored Storage.FAVORITES_KEY w = Some (Arr (Str <$> favs)) ->
  x ∉ favs ->
  exists (after1 after2 : list string) (w1 w2 : World),
    Storage.toggleFavorite x w = (Ok (Arr (Str <$> after1)), w1)
    /\ stored Storage.FAVORITES_KEY w1 = Some (Arr (Str <$> after1))
    /\ Storage.toggleFavorite x w1 = (Ok (Arr (Str <$> after2)), w2)
    /\ stored Storage.FAVORITES_KEY w2 = Some (Arr (Str <$> after2))
    /\ x ∈ after1 /\ (x ∉ after2)
    /\ after1 = (favs ++ [x]) /\ after2 = favs.
Proof.
  intros Hq Hs Hx.
  pose proof (toggleFavorite_quiet w _ x Hq Hs) as H1. cbv zeta in H1.
  rewrite (indexOf_absent _ _ Hx) in H1. cbn [Z.gtb Z.compare] in H1.
  unfold push in H1.
  replace ((Str <$> favs) ++ [Str x]) with (Str <$> (favs ++ [x])) in H1
    by (by rewrite fmap_app).
  set (w1 := write Storage.FAVORITES_KEY (Arr (Str <$> (favs ++ [x]))) w) in *.
  assert (Hq1 : faults w1 = []) by done.
  assert (Hs1 : stored Storage.FAVORITES_KEY w1 = Some (Arr (Str <$> (favs ++ [x]))))
    by apply stored_write.
  pose proof (toggleFavorite_quiet w1 _ x Hq1 Hs1) as H2. cbv zeta in H2.
  rewrite (indexOf_last _ _ Hx) in H2.
  replace (Z.of_nat (length favs) >? -1) with true in H2
    by (symmetry; apply Z.gtb_lt; lia).
  rewrite fmap_app in H2. cbn [fmap list_fmap] in H2.
  replace (Z.of_nat (length favs)) with (Z.of_nat (length (Str <$> favs))) in H2
    by (by rewrite length_fmap).
  rewrite splice_last in H2.
  exists (favs ++ [x]), favs, w1, (write Storage.FAVORITES_KEY (Arr (Str <$> favs)) w1).
  split; [exact H1|]. split; [exact Hs1|].
  split; [exact H2|]. split; [apply stored_write|].
  split; [set_solver|]. done.
Qed.

Lemma toggleFavorite_twice_witness :
  faults favorites_1_5 = []
  /\ stored Storage.FAVORITES_KEY favorites_1_5 = Some (Arr (Str <$> ["1"; "5"]))
  /\ ("7" ∉ ["1"; "5"])
  /\ exists (after1 after2 : list string) (w1 w2 : World),
       Storage.toggleFavorite "7" favorites_1_5 = (Ok (Arr (Str <$> after1)), w1)
       /\ stored Storage.FAVORITES_KEY w1 = Some (Arr (Str <$> after1))
       /\ Storage.toggleFavorite "7" w1 = (Ok (Arr (Str <$> after2)), w2)
       /\ stored Storage.FAVORITES_KEY w2 = Some (Arr (Str <$> after2))
       /\ "7" ∈ after1 /\ ("7" ∉ after2)
       /\ after1 = (["1"; "5"] ++ ["7"]) /\ after2 = ["1"; "5"].
Proof.
  assert (H1 : faults favorites_1_5 = []) by reflexivity.
  assert (H2 : stored Storage.FAVORITES_KEY favorites_1_5
               = Some (Arr (Str <$> ["1"; "5"]))) by (vm_compute; reflexivity).
  assert (H3 : "7" ∉ ["1"; "5"]) by compute_done.
  split; [exact H1|]. split; [exact H2|]. split; [exact H3|].
  exact (toggleFavorite_twice "7" ["1"; "5"] favorites_1_5 H1 H2 H3).
Defined.

(** ** User recipes: create *)

Lemma string_of_uint_digits (d : Decimal.uint) :
  digits_only (NilEmpty.string_of_uint d) = true.
Proof. induction d; simpl; auto. Qed.

Lemma Number_toString_digits (n : Z) :
  0 <= n ->
  digits_only (Number_toString n) = true /\ Number_toString n ≠ "".
Proof.
  intros Hn. unfold Number_toString.
  destruct n as [|p|p]; [by split| |lia].
  cbn [Z.to_int NilZero.string_of_int NilZero.string_of_uint].
  pose proof (DecimalPos.Unsigned.to_uint_nonnil p) as Hnil.
  destruct (Pos.to_uint p) eqn:E; [done|..];
    (split; [apply (string_of_uint_digits (_ u)) | discriminate]).
Qed.

(** The text of a number that is not negative is a decimal numeral without
    leading zeros, and the numeral denotes the number. *)
Lemma Number_toString_numeral (n : Z) :
  0 <= n ->
  exists u : Decimal.uint,
    Number_toString n = NilEmpty.string_of_uint u
    /\ Decimal.unorm u = u
    /\ Z.of_uint u = n.
Proof.
  intros Hn. unfold Number_toString.
  destruct n as [|p|p]; [by exists (Decimal.D0 Decimal.Nil)| |lia].
  exists (Pos.to_uint p).
  cbn [Z.to_int NilZero.string_of_int NilZero.string_of_uint].
  pose proof (DecimalPos.Unsigned.to_uint_nonnil p) as Hnil.
  pose proof (DecimalPos.Unsigned.of_to p) as Hof.
  pose proof (DecimalPos.Unsigned.to_of (Pos.to_uint p)) as Hto.
  rewrite Hof in Hto. cbn [N.to_uint] in Hto.
  split; [by destruct (Pos.to_uint p)|]. split; [done|].
  unfold Z.of_uint. by rewrite Hof.
Qed.

(** C2. In a quiet world whose stored recipes are an array, at any time that
    [Date.now()] can return, [addMyRecipe] returns a record and stores the
    old array followed by that record.  The record's [id] is ["user_"]
    followed by digits; the digits are a decimal numeral without leading
    zeros, and the numeral denotes the clock.  Its [category] is ["myfood"]
    whatever the input says, and every other field is the input's. *)
Theorem addMyRecipe_appends (recipe : object) (rs : list value) (w : World) :
  faults w = [] ->
  stored Storage.MY_RECIPES_KEY w = Some (Arr rs) ->
  time_value (clock w) ->
  exists (saved : object) (w' : World) (digits : string) (u : Decimal.uint),
    Storage.addMyRecipe recipe w = (Ok (Obj saved), w')
    /\ stored Storage.MY_RECIPES_KEY w' = Some (Arr (rs ++ [Obj saved]))
    /\ saved !! "id" = Some (Str ("user_" +:+ digits))
    /\ digits = NilEmpty.string_of_uint u
    /\ Decimal.unorm u = u
    /\ Z.of_uint u = clock w
    /\ digits = Number_toString (clock w)
    /\ digits ≠ "" /\ digits_only digits = true
    /\ saved !! "category" = Some (Str "myfood")
    /\ (forall k : string, k ≠ "id" -> k ≠ "category" -> saved !! k = recipe !! k).
Proof.
  intros Hq Hs [Hc _].
  destruct (Number_toString_digits _ Hc) as [Hd Hne].
  destruct (Number_toString_numeral _ Hc) as (u & Hu & Hn & Hv).
  eexists _, _, (Number_toString (clock w)), u.
  split.
  { unfold Storage.addMyRecipe, try_catch, bind.
    rewrite (getMyRecipes_quiet w Hq _ Hs). cbn [Date_now as_array ret].
    rewrite (saveMyRecipes_quiet w Hq). reflexivity. }
  split; [apply stored_write|].
  split; [by rewrite lookup_insert_ne, lookup_insert_eq|].
  do 6 (split; [done|]).
  split; [by rewrite lookup_insert_eq|].
  intros k Hk1 Hk2. by rewrite !lookup_insert_ne.
Qed.

Lemma addMyRecipe_appends_witness :
  faults empty_world = []
  /\ stored Storage.MY_RECIPES_KEY empty_world = Some (Arr [])
  /\ time_value (clock empty_world)
  /\ exists (saved : object) (w' : World),
       Storage.addMyRecipe tacos empty_world = (Ok (Obj saved), w')
       /\ stored Storage.MY_RECIPES_KEY w' = Some (Arr [Obj saved])
       /\ saved !! "id" = Some (Str "user_1700000000000")
       /\ saved !! "category" = Some (Str "myfood")
       /\ saved !! "name" = Some (Str "Tacos")
       /\ saved !! "servings" = Some (Num 2).
Proof.
  assert (H1 : faults empty_world = []) by reflexivity.
  assert (H2 : stored Storage.MY_RECIPES_KEY empty_world = Some (Arr []))
    by reflexivity.
  assert (H3 : time_value (clock empty_world))
    by (split; vm_compute; discriminate).
  split; [exact H1|]. split; [exact H2|]. split; [exact H3|].
  destruct (addMyRecipe_appends tacos [] empty_world H1 H2 H3)
    as (saved & w' & digits & u & Hr & Hst & Hid & Hd & Hn & Hu & _ & _ & _
        & Hcat & Hk).
  assert (Hnum : u = N.to_uint (Z.to_N (clock empty_world))).
  { rewrite <- Hn, <- DecimalPos.Unsigned.to_of. f_equal.
    unfold Z.of_uint in Hu. by rewrite <- Hu, N2Z.id. }
  rewrite Hd, Hnum in Hid.
  exists saved, w'. split; [exact Hr|]. split; [exact Hst|].
  split; [exact Hid|]. split; [exact Hcat|].
  split; [by rewrite Hk|by rewrite Hk].
Defined.

(** ** User recipes: update *)

Lemma has_id_record (i : string) (r : object) :
  Storage.has_id (Some (Str i)) (Obj r) = Ok (id_is i r).
Proof. reflexivity. Qed.

Lemma findIndex_absent (i : string) (rs : list object) :
  no_record_with_id i rs ->
  findIndex (Storage.has_id (Some (Str i))) (Obj <$> rs) = Ok (-1).
Proof.
  induction 1 as [|r rs Hr _ IH]; [done|].
  rewrite fmap_cons. cbn [findIndex].
  rewrite has_id_record. apply id_is_false in Hr. rewrite Hr, IH. done.
Qed.

Lemma findIndex_first (i : string) (rs1 : list object) (old : object)
      (rest : list value) :
  no_record_with_id i rs1 ->
  old !! "id" = Some (Str i) ->
  findIndex (Storage.has_id (Some (Str i))) ((Obj <$> rs1) ++ Obj old :: rest)
  = Ok (Z.of_nat (length rs1)).
Proof.
  intros H Hold. induction H as [|r rs Hr _ IH].
  - rewrite fmap_nil, app_nil_l. cbn [findIndex].
    rewrite has_id_record. apply id_is_true in Hold. by rewrite Hold.
  - rewrite fmap_cons, <- app_comm_cons. cbn [findIndex].
    rewrite has_id_record. apply id_is_false in Hr. rewrite Hr, IH.
    rewrite length_cons.
    destruct (Z.ltb_spec (Z.of_nat (length rs)) 0); [lia|].
    f_equal. lia.
Qed.

(** Any collection holding a record with id [i] splits at the first one. *)
Lemma first_record_with_id (i : string) (rs : list object) :
  (exists r, r ∈ rs /\ r !! "id" = Some (Str i)) ->
  exists rs1 old rs2,
    rs = rs1 ++ old :: rs2
    /\ no_record_with_id i rs1
    /\ old !! "id" = Some (Str i).
Proof.
  induction rs as [|r rs IH]; intros (r0 & Hin & Hid).
  - by apply elem_of_nil in Hin.
  - destruct (id_is i r) eqn:E.
    + exists [], r, rs. split; [done|]. split; [constructor|].
      by apply id_is_true.
    + apply id_is_false in E.
      apply elem_of_cons in Hin as [->|Hin]; [done|].
      destruct IH as (rs1 & old & rs2 & -> & Hno & Hold); [by eauto|].
      exists (r :: rs1), old, rs2. split; [done|]. split; [|done].
      by constructor.
Qed.

Lemma array_set_middle (l1 l2 : list value) (x y : value) :
  array_set (l1 ++ x :: l2) (length l1) y = l1 ++ y :: l2.
Proof.
  unfold array_set.
  destruct (Nat.ltb_spec (length l1) (length (l1 ++ x :: l2))) as [_|H].
  - replace (length l1) with (length l1 + 0)%nat at 1 by lia.
    by rewrite insert_app_r.
  - rewrite length_app in H. simpl in H. lia.
Qed.

Lemma spread_at_middle (l1 l2 : list value) (o : object) :
  spread_at (l1 ++ Obj o :: l2) (length l1) = o.
Proof. unfold spread_at. by rewrite list_lookup_middle. Qed.

Lemma lookup_merge (upd old : object) (k : string) :
  (upd ∪ old) !! k = match upd !! k with Some v => Some v | None => old !! k end.
Proof.
  rewrite lookup_union. by destruct (upd !! k), (old !! k).
Qed.

(** C3. [updateMyRecipe] merges, it does not replace.  With an update
    carrying id [i]: if some stored record has id [i], the first such record
    is replaced in place by the old record overwritten with the update's
    fields, a field absent from the update keeping its old value, and the
    other records stay where they are; if no stored record has id [i], the
    world is left exactly as it was. *)
Theorem updateMyRecipe_merges (upd : object) (i : string) (rs : list object)
        (w : World) :
  faults w = [] ->
  stored Storage.MY_RECIPES_KEY w = Some (Arr (Obj <$> rs)) ->
  upd !! "id" = Some (Str i) ->
  ((exists r, r ∈ rs /\ r !! "id" = Some (Str i)) ->
   exists (rs1 : list object) (old : object) (rs2 : list object) (w' : World),
     rs = rs1 ++ old :: rs2
     /\ no_record_with_id i rs1
     /\ old !! "id" = Some (Str i)
     /\ Storage.updateMyRecipe upd w = (Ok tt, w')
     /\ stored Storage.MY_RECIPES_KEY w'
        = Some (Arr (Obj <$> (rs1 ++ (upd ∪ old) :: rs2)))
     /\ (forall k : string,
           (upd ∪ old) !! k
           = match upd !! k with Some v => Some v | None => old !! k end))
  /\ (no_record_with_id i rs -> Storage.updateMyRecipe upd w = (Ok tt, w)).
Proof.
  intros Hq Hs Hid. split.
  - intros Hex.
    destruct (first_record_with_id i rs Hex) as (rs1 & old & rs2 & -> & Hno & Hold).
    exists rs1, old, rs2,
      (write Storage.MY_RECIPES_KEY (Arr (Obj <$> (rs1 ++ (upd ∪ old) :: rs2))) w).
    split; [done|]. split; [done|]. split; [done|].
    split; [|split; [apply stored_write | apply lookup_merge]].
    unfold Storage.updateMyRecipe, try_catch, bind.
    rewrite (getMyRecipes_quiet w Hq _ Hs). cbn [as_array ret lift].
    rewrite Hid, !fmap_app, !fmap_cons.
    rewrite (findIndex_first i rs1 old _ Hno Hold).
    replace (Z.of_nat (length rs1) >? -1) with true
      by (symmetry; apply Z.gtb_lt; lia).
    rewrite Nat2Z.id.
    replace (length rs1) with (length (Obj <$> rs1)) by apply length_fmap.
    rewrite spread_at_middle, array_set_middle.
    rewrite (saveMyRecipes_quiet w Hq). reflexivity.
  - intros Hno.
    unfold Storage.updateMyRecipe, try_catch, bind.
    rewrite (getMyRecipes_quiet w Hq _ Hs). cbn [as_array ret lift].
    rewrite Hid, (findIndex_absent i rs Hno). reflexivity.
Qed.

Lemma updateMyRecipe_merges_witness :
  (faults two_recipes_world = []
   /\ stored Storage.MY_RECIPES_KEY two_recipes_world
      = Some (Arr (Obj <$> two_recipes))
   /\ calories_200 !! "id" = Some (Str "user_1")
   /\ exists (rs1 : list object) (old : object) (rs2 : list object) (w' : World),
        two_recipes = rs1 ++ old :: rs2
        /\ no_record_with_id "user_1" rs1
        /\ old !! "id" = Some (Str "user_1")
        /\ Storage.updateMyRecipe calories_200 two_recipes_world = (Ok tt, w')
        /\ stored Storage.MY_RECIPES_KEY w'
           = Some (Arr (Obj <$> (rs1 ++ (calories_200 ∪ old) :: rs2)))
        /\ (forall k : string,
              (calories_200 ∪ old) !! k
              = match calories_200 !! k with
                | Some v => Some v
                | None => old !! k
                end))
  /\ (calories_unknown !! "id" = Some (Str "user_9")
      /\ no_record_with_id "user_9" two_recipes
      /\ Storage.updateMyRecipe calories_unknown two_recipes_world
         = (Ok tt, two_recipes_world)).
Proof.
  assert (H1 : faults two_recipes_world = []) by reflexivity.
  assert (H2 : stored Storage.MY_RECIPES_KEY two_recipes_world
               = Some (Arr (Obj <$> two_recipes))) by (vm_compute; reflexivity).
  assert (H3 : calories_200 !! "id" = Some (Str "user_1"))
    by (vm_compute; reflexivity).
  assert (H4 : calories_unknown !! "id" = Some (Str "user_9"))
    by (vm_compute; reflexivity).
  assert (H5 : no_record_with_id "user_9" two_recipes) by no_such_record.
  assert (H6 : exists r, r ∈ two_recipes /\ r !! "id" = Some (Str "user_1")).
  { eexists. split; [left|]. vm_compute. reflexivity. }
  split.
  - split; [exact H1|]. split; [exact H2|]. split; [exact H3|].
    exact (proj1 (updateMyRecipe_merges calories_200 "user_1" two_recipes
                    two_recipes_world H1 H2 H3) H6).
  - split; [exact H4|]. split; [exact H5|].
    exact (proj2 (updateMyRecipe_merges calories_unknown "user_9" two_recipes
                    two_recipes_world H1 H2 H4) H5).
Defined.

(** ** User recipes: delete *)

Lemma filter_js_records (i : string) (rs : list object) :
  filter_js (Storage.lacks_id (Some (Str i))) (Obj <$> rs)
  = Ok (Obj <$> others i rs).
Proof.
  induction rs as [|r rs IH]; [done|].
  rewrite fmap_cons. cbn [filter_js others List.filter].
  fold (others i rs). rewrite IH.
  change (Storage.lacks_id (Some (Str i)) (Obj r)) with (Ok (negb (id_is i r))).
  by destruct (id_is i r).
Qed.

Lemma deleteMyRecipe_quiet (i : string) (rs : list object) (w : World) :
  faults w = [] ->
  stored Storage.MY_RECIPES_KEY w = Some (Arr (Obj <$> rs)) ->
  Storage.deleteMyRecipe i w
  = (Ok tt, write Storage.MY_RECIPES_KEY (Arr (Obj <$> others i rs)) w).
Proof.
  intros Hq Hs. unfold Storage.deleteMyRecipe, try_catch, bind.
  rewrite (getMyRecipes_quiet w Hq _ Hs). cbn [as_array ret lift].
  rewrite filter_js_records. by rewrite (saveMyRecipes_quiet w Hq).
Qed.

Lemma others_absent (i : string) (rs : list object) :
  no_record_with_id i rs -> others i rs = rs.
Proof.
  induction 1 as [|r rs Hr _ IH]; [done|].
  cbn [others List.filter]. fold (others i rs).
  apply id_is_false in Hr. rewrite Hr, IH. done.
Qed.

Lemma others_app (i : string) (rs1 rs2 : list object) :
  others i (rs1 ++ rs2) = others i rs1 ++ others i rs2.
Proof. apply List.filter_app. Qed.

Lemma others_clean (i : string) (rs : list object) :
  no_record_with_id i (others i rs).
Proof.
  induction rs as [|r rs IH]; [constructor|].
  cbn [others List.filter]. fold (others i rs).
  destruct (id_is i r) eqn:E; cbn [negb]; [done|].
  constructor; [by apply id_is_false | done].
Qed.

Lemma others_keeps (i : string) (rs : list object) (r : object) :
  r ∈ others i rs <-> r ∈ rs /\ r !! "id" ≠ Some (Str i).
Proof.
  unfold others. rewrite !list_elem_of_In, List.filter_In.
  rewrite negb_true_iff, id_is_false. done.
Qed.

Lemma NoDup_ids_absent (i : string) (rs1 rs2 : list object) (r : object) :
  NoDup (ids (rs1 ++ r :: rs2)) ->
  r !! "id" = Some (Str i) ->
  no_record_with_id i rs1 /\ no_record_with_id i rs2.
Proof.
  unfold ids. rewrite fmap_app, fmap_cons. intros Hnd Hr.
  apply NoDup_app in Hnd as (_ & Hdisj & Hnd2).
  apply NoDup_cons in Hnd2 as [Hnotin _].
  split; apply Forall_forall; intros r' Hin Hr'.
  - apply (Hdisj (r' !! "id")); [by apply list_elem_of_fmap_2|].
    rewrite Hr', <- Hr. left.
  - apply Hnotin. rewrite Hr, <- Hr'. by apply list_elem_of_fmap_2.
Qed.

(** C6. Delete removes by id and keeps the order.  For stored records with
    distinct ids, deleting the id of one of them stores exactly the records
    before it followed by the records after it; deleting an id that no
    record has stores the same records again. *)
Theorem deleteMyRecipe_by_id (i : string) (rs : list object) (w : World) :
  faults w = [] ->
  stored Storage.MY_RECIPES_KEY w = Some (Arr (Obj <$> rs)) ->
  NoDup (ids rs) ->
  exists (w' : World) (rs' : list object),
    Storage.deleteMyRecipe i w = (Ok tt, w')
    /\ stored Storage.MY_RECIPES_KEY w' = Some (Arr (Obj <$> rs'))
    /\ (forall rs1 r rs2,
          rs = rs1 ++ r :: rs2 -> r !! "id" = Some (Str i) -> rs' = rs1 ++ rs2)
    /\ (no_record_with_id i rs -> rs' = rs).
Proof.
  intros Hq Hs Hnd. eexists _, (others i rs).
  split; [by apply deleteMyRecipe_quiet|].
  split; [apply stored_write|]. split.
  - intros rs1 r rs2 -> Hr.
    destruct (NoDup_ids_absent i rs1 rs2 r Hnd Hr) as [H1 H2].
    rewrite others_app. cbn [others List.filter]. fold (others i rs2).
    apply id_is_true in Hr. rewrite Hr. cbn [negb].
    by rewrite !others_absent.
  - apply others_absent.
Qed.

Lemma deleteMyRecipe_by_id_witness :
  faults three_recipes_world = []
  /\ stored Storage.MY_RECIPES_KEY three_recipes_world
     = Some (Arr (Obj <$> three_recipes))
  /\ NoDup (ids three_recipes)
  /\ exists (w' : World) (rs' : list object),
       Storage.deleteMyRecipe "user_2" three_recipes_world = (Ok tt, w')
       /\ stored Storage.MY_RECIPES_KEY w' = Some (Arr (Obj <$> rs'))
       /\ (forall rs1 r rs2,
             three_recipes = rs1 ++ r :: rs2 ->
             r !! "id" = Some (Str "user_2") -> rs' = rs1 ++ rs2)
       /\ (no_record_with_id "user_2" three_recipes -> rs' = three_recipes).
Proof.
  assert (H1 : faults three_recipes_world = []) by reflexivity.
  assert (H2 : stored Storage.MY_RECIPES_KEY three_recipes_world
               = Some (Arr (Obj <$> three_recipes))) by (vm_compute; reflexivity).
  assert (H3 : NoDup (ids three_recipes)) by distinct_ids.
  split; [exact H1|]. split; [exact H2|]. split; [exact H3|].
  exact (deleteMyRecipe_by_id "user_2" three_recipes three_recipes_world H1 H2 H3).
Defined.

(** C9. Delete removes every record with the given id, not just one: after
    one call no stored record has that id, whatever their number before,
    while each record with another id is still stored. *)
Theorem deleteMyRecipe_removes_all (i : string) (rs : list object) (w : World) :
  faults w = [] ->
  stored Storage.MY_RECIPES_KEY w = Some (Arr (Obj <$> rs)) ->
  exists (w' : World) (rs' : list object),
    Storage.deleteMyRecipe i w = (Ok tt, w')
    /\ stored Storage.MY_RECIPES_KEY w' = Some (Arr (Obj <$> rs'))
    /\ no_record_with_id i rs'
    /\ (forall r : object, r ∈ rs' <-> r ∈ rs /\ r !! "id" ≠ Some (Str i))
    /\ (length rs' + length (List.filter (id_is i) rs) = length rs)%nat.
Proof.
  intros Hq Hs. eexists _, (others i rs).
  split; [by apply deleteMyRecipe_quiet|].
  split; [apply stored_write|].
  split; [apply others_clean|].
  split; [apply others_keeps|].
  unfold others. rewrite Nat.add_comm. apply List.filter_length.
Qed.

Lemma deleteMyRecipe_removes_all_witness :
  faults shared_id_world = []
  /\ stored Storage.MY_RECIPES_KEY shared_id_world
     = Some (Arr (Obj <$> shared_id_recipes))
  /\ length (List.filter (id_is "user_1") shared_id_recipes) = 2%nat
  /\ exists (w' : World) (rs' : list object),
       Storage.deleteMyRecipe "user_1" shared_id_world = (Ok tt, w')
       /\ stored Storage.MY_RECIPES_KEY w' = Some (Arr (Obj <$> rs'))
       /\ no_record_with_id "user_1" rs'
       /\ (forall r : object,
             r ∈ rs' <-> r ∈ shared_id_recipes /\ r !! "id" ≠ Some (Str "user_1"))
       /\ (length rs' + length (List.filter (id_is "user_1") shared_id_recipes)
           = length shared_id_recipes)%nat.
Proof.
  assert (H1 : faults shared_id_world = []) by reflexivity.
  assert (H2 : stored Storage.MY_RECIPES_KEY shared_id_world
               = Some (Arr (Obj <$> shared_id_recipes)))
    by (vm_compute; reflexivity).
  split; [exact H1|]. split; [exact H2|]. split; [vm_compute; reflexivity|].
  exact (deleteMyRecipe_removes_all "user_1" shared_id_recipes shared_id_world
           H1 H2).
Defined.

(** One call on the collection above leaves the single record of id
    ["user_2"]. *)
Example deleteMyRecipe_shared_id :
  stored Storage.MY_RECIPES_KEY
         (snd (Storage.deleteMyRecipe "user_1" shared_id_world))
  = Some (Arr [Obj (list_to_map [("id", Str "user_2"); ("name", Str "B")])]).
Proof. vm_compute. reflexivity. Qed.

(** ** The Main Feed's filter rule *)

Lemma filter_js_decide (P : object -> Prop) `{!forall r, Decision (P r)}
      (p : value -> result bool) (rs : list object) :
  (forall r, p (Obj r) = Ok (bool_decide (P r))) ->
  filter_js p (Obj <$> rs) = Ok (Obj <$> filter P rs).
Proof.
  intros Hp. induction rs as [|r rs IH]; [done|].
  rewrite fmap_cons. cbn [filter_js]. rewrite Hp, IH, filter_cons.
  destruct (decide (P r)) as [HP|HP].
  - by rewrite (bool_decide_eq_true_2 _ HP).
  - by rewrite (bool_decide_eq_false_2 _ HP).
Qed.

Lemma category_is_decide (c : string) (r : object) :
  MainFeedScreen.category_is c (Obj r) = Ok (bool_decide (is_category c r)).
Proof.
  unfold MainFeedScreen.category_is, is_category. cbn [get_prop]. f_equal.
  destruct (strict_eq (r !! "category") (Some (Str c))) eqn:E; symmetry.
  - apply bool_decide_eq_true_2. by apply strict_eq_Str.
  - apply bool_decide_eq_false_2. by apply strict_eq_Str_false.
Qed.

Lemma category_is_not_decide (c : string) (r : object) :
  MainFeedScreen.category_is_not c (Obj r)
  = Ok (bool_decide (¬ is_category c r)).
Proof.
  unfold MainFeedScreen.category_is_not, is_category. cbn [get_prop]. f_equal.
  destruct (strict_eq (r !! "category") (Some (Str c))) eqn:E; symmetry; cbn [negb].
  - apply bool_decide_eq_false_2. apply strict_eq_Str in E. tauto.
  - apply bool_decide_eq_true_2. by apply strict_eq_Str_false.
Qed.

(** C4. On a list of recipe records, [filteredRecipes] returns the rule's
    list: under ["all"] the records whose category is not ["myfood"],
    otherwise the records whose category is the selected string; in both
    cases each record that qualifies, as often as it occurs, in source
    order. *)
Theorem filteredRecipes_rule (selectedCategory : string) (rs : list object) :
  MainFeedScreen.filteredRecipes selectedCategory (Obj <$> rs)
  = Ok (Obj <$> feed_rule selectedCategory rs)
  /\ (forall r : object,
        r ∈ feed_rule selectedCategory rs
        <-> r ∈ rs
            /\ if decide (selectedCategory = "all")
               then r !! "category" ≠ Some (Str "myfood")
               else r !! "category" = Some (Str selectedCategory))
  /\ sublist (feed_rule selectedCategory rs) rs.
Proof.
  unfold MainFeedScreen.filteredRecipes, feed_rule.
  destruct (String.eqb_spec selectedCategory "all") as [->|Hne].
  - rewrite decide_True by done.
    split; [|split].
    + apply filter_js_decide, category_is_not_decide.
    + intros r. rewrite decide_True by done.
      rewrite list_elem_of_filter. unfold is_category. tauto.
    + apply sublist_filter.
  - rewrite decide_False by done.
    split; [|split].
    + apply filter_js_decide, category_is_decide.
    + intros r. rewrite decide_False by done.
      rewrite list_elem_of_filter. unfold is_category. tauto.
    + apply sublist_filter.
Qed.

(** The spec's scenario: a breakfast, a lunch and a user-authored recipe. *)
Example filteredRecipes_all :
  MainFeedScreen.filteredRecipes "all" [Obj eggs; Obj wrap; Obj my_pie]
  = Ok [Obj eggs; Obj wrap].
Proof. vm_compute. reflexivity. Qed.

Example filteredRecipes_breakfast :
  MainFeedScreen.filteredRecipes "breakfast" [Obj eggs; Obj wrap; Obj my_pie]
  = Ok [Obj eggs].
Proof. vm_compute. reflexivity. Qed.

(** ** The save transform of the forms *)

(** *** [split] *)

Lemma split_nonempty (sep : ascii) (s : string) : split sep s ≠ [].
Proof.
  destruct s as [|c r]; cbn [split]; [done|].
  destruct (Ascii.eqb c sep); [done|]. by destruct (split sep r).
Qed.

(** Joining the pieces with the separator gives the text back. *)
Lemma split_join (sep : ascii) (s : string) :
  String.concat (String sep "") (split sep s) = s.
Proof.
  induction s as [|c r IH]; [done|]. cbn [split].
  pose proof (split_nonempty sep r) as Hne.
  destruct (Ascii.eqb_spec c sep) as [->|_].
  - destruct (split sep r) as [|h t]; [done|].
    rewrite <- IH. reflexivity.
  - destruct (split sep r) as [|h t]; [done|].
    rewrite <- IH. by destruct t.
Qed.

(** No piece holds the separator. *)
Lemma split_pieces (sep : ascii) (s : string) :
  Forall (fun piece => contains sep piece = false) (split sep s).
Proof.
  induction s as [|c r IH]; [by repeat constructor|]. cbn [split].
  destruct (Ascii.eqb_spec c sep) as [->|Hne].
  - by constructor.
  - apply Ascii.eqb_neq in Hne.
    destruct (split sep r) as [|h t].
    + repeat constructor. cbn [contains]. by rewrite Hne.
    + inversion IH; subst. constructor; [|done].
      cbn [contains]. by rewrite Hne.
Qed.

Lemma split_no_sep (sep : ascii) (s : string) :
  contains sep s = false -> split sep s = [s].
Proof.
  induction s as [|c r IH]; [done|]. cbn [contains split].
  intros H. apply orb_false_elim in H as [Hc Hr].
  by rewrite Hc, (IH Hr).
Qed.

Lemma split_app_sep (sep : ascii) (x r : string) :
  contains sep x = false ->
  split sep (x +:+ String sep r) = x :: split sep r.
Proof.
  induction x as [|c x IH]; intros H.
  - change ("" +:+ String sep r) with (String sep r). cbn [split].
    by rewrite Ascii.eqb_refl.
  - change (String c x +:+ String sep r) with (String c (x +:+ String sep r)).
    cbn [contains split] in *. apply orb_false_elim in H as [Hc Hx].
    by rewrite Hc, (IH Hx).
Qed.

Lemma split_concat (sep : ascii) (l : list string) :
  l ≠ [] ->
  Forall (fun x => contains sep x = false) l ->
  split sep (String.concat (String sep "") l) = l.
Proof.
  induction l as [|x l IH]; [done|]. intros _ Hall.
  apply Forall_cons in Hall as [Hx Hl].
  destruct l as [|y l]; [by apply split_no_sep|].
  change (String.concat (String sep "") (x :: y :: l))
    with (x +:+ String sep (String.concat (String sep "") (y :: l))).
  rewrite (split_app_sep sep x _ Hx).
  f_equal. by apply IH.
Qed.

(** *** [trim] *)

Lemma trimStart_head (s : string) :
  match trimStart s with
  | EmptyString => blank s = true
  | String c _ => is_ws c = false
  end.
Proof.
  induction s as [|c r IH]; [done|]. cbn [trimStart blank].
  destruct (is_ws c) eqn:E; [|done].
  destruct (trimStart r); [by rewrite IH|done].
Qed.

Lemma trimEnd_empty (s : string) : trimEnd s = "" <-> blank s = true.
Proof.
  induction s as [|c r IH]; [done|]. cbn [trimEnd blank].
  destruct (trimEnd r) eqn:E.
  - destruct (is_ws c); cbn [andb]; [by rewrite <- IH|].
    split; discriminate.
  - split; [discriminate|].
    intros H. apply andb_prop in H as [_ H]. apply IH in H. discriminate.
Qed.

Lemma trimStart_blank (s : string) : blank s = true -> trimStart s = "".
Proof.
  induction s as [|c r IH]; [done|]. cbn [blank trimStart].
  intros H. apply andb_prop in H as [-> H]. auto.
Qed.

Lemma trimStart_suffix_blank (s : string) :
  blank (trimStart s) = true -> blank s = true.
Proof.
  intros H. pose proof (trimStart_head s) as Hh.
  destruct (trimStart s) as [|c r]; [done|].
  cbn [blank] in H. rewrite Hh in H. discriminate.
Qed.

(** The text trims to nothing exactly when it is blank. *)
Lemma trim_empty (s : string) : trim s = "" <-> blank s = true.
Proof.
  unfold trim. rewrite trimEnd_empty. split.
  - apply trimStart_suffix_blank.
  - intros H. by rewrite (trimStart_blank s H).
Qed.

Lemma trimEnd_cons (c : ascii) (r : string) :
  trimEnd (String c r)
  = match trimEnd r with
    | EmptyString => if is_ws c then EmptyString else String c EmptyString
    | r' => String c r'
    end.
Proof. reflexivity. Qed.

Lemma trimEnd_idem (s : string) : trimEnd (trimEnd s) = trimEnd s.
Proof.
  induction s as [|c r IH]; [done|]. rewrite trimEnd_cons.
  destruct (trimEnd r) as [|d t].
  - destruct (is_ws c) eqn:Ec; [done|]. rewrite trimEnd_cons. cbn [trimEnd].
    by rewrite Ec.
  - rewrite trimEnd_cons, IH. done.
Qed.

Lemma trimEnd_head (c : ascii) (r : string) :
  is_ws c = false -> exists r', trimEnd (String c r) = String c r'.
Proof.
  intros Hc. cbn [trimEnd]. destruct (trimEnd r); [rewrite Hc|]; eauto.
Qed.

(** Trimming what is trimmed changes nothing. *)
Lemma trim_idem (s : string) : trim (trim s) = trim s.
Proof.
  unfold trim. pose proof (trimStart_head s) as Hh.
  destruct (trimStart s) as [|c r] eqn:E; [done|].
  destruct (trimEnd_head c r Hh) as [r' Hr']. rewrite Hr'.
  cbn [trimStart]. rewrite Hh, <- Hr'. apply trimEnd_idem.
Qed.

Lemma filter_nonempty (l : list string) :
  List.filter (fun line => (0 <? String.length line)%nat) l
  = filter (fun line : string => line ≠ "") l.
Proof.
  induction l as [|x l IH]; [done|].
  cbn [List.filter]. rewrite filter_cons, IH.
  destruct x; [by rewrite decide_False by tauto|].
  by rewrite decide_True by discriminate.
Qed.

(** *** White space, in the code's words and in the spec's *)

Lemma is_ws_white (c : ascii) : is_ws c = bool_decide (white c).
Proof.
  destruct c as [[] [] [] [] [] [] [] []]; vm_compute; reflexivity.
Qed.

Lemma white_ws (c : ascii) : white c <-> is_ws c = true.
Proof. rewrite is_ws_white. symmetry. apply bool_decide_eq_true. Qed.

Lemma not_white_ws (c : ascii) : ~ white c <-> is_ws c = false.
Proof. rewrite is_ws_white. symmetry. apply bool_decide_eq_false. Qed.

Lemma blank_all_white (s : string) : blank s = true <-> all_white s.
Proof.
  unfold all_white. induction s as [|c r IH]; cbn [blank list_ascii_of_string].
  - split; [constructor|done].
  - rewrite Forall_cons, andb_true_iff, IH, white_ws. done.
Qed.

Lemma contains_elem (c : ascii) (s : string) :
  contains c s = false <-> c ∉ list_ascii_of_string s.
Proof.
  induction s as [|d r IH]; cbn [contains list_ascii_of_string].
  - split; [intros _; apply not_elem_of_nil|done].
  - rewrite not_elem_of_cons, orb_false_iff, IH, Ascii.eqb_neq.
    split; intros [H1 H2]; split; congruence.
Qed.

(** What [trimStart] drops is white space, and so is what [trimEnd] drops. *)
Lemma trimStart_prefix (s : string) :
  exists pre, s = pre +:+ trimStart s /\ all_white pre.
Proof.
  induction s as [|c r (pre & Hs & Hp)].
  - exists "". split; [done|constructor].
  - cbn [trimStart]. destruct (is_ws c) eqn:E.
    + exists (String c pre). split.
      * change (String c pre +:+ trimStart r) with (String c (pre +:+ trimStart r)).
        by rewrite <- Hs.
      * constructor; [by apply white_ws|done].
    + exists "". split; [done|constructor].
Qed.

Lemma trimEnd_suffix (s : string) :
  exists post, s = trimEnd s +:+ post /\ all_white post.
Proof.
  induction s as [|c r (post & Hs & Hp)].
  - exists "". split; [done|constructor].
  - rewrite trimEnd_cons. destruct (trimEnd r) as [|d t] eqn:E.
    + change ("" +:+ post) with post in Hs. subst post.
      destruct (is_ws c) eqn:Ec.
      * exists (String c r). split; [done|].
        constructor; [by apply white_ws|done].
      * exists r. by split.
    + exists post. split; [|done].
      change (String c (String d t) +:+ post) with (String c (String d t +:+ post)).
      by rewrite <- Hs.
Qed.

Lemma last_char_none (s : string) : last_char s = None -> s = "".
Proof.
  induction s as [|c r IH]; [done|]. cbn [last_char].
  destruct r; [discriminate|]. intros H. by specialize (IH H).
Qed.

Lemma last_char_trimEnd (s : string) (c : ascii) :
  last_char (trimEnd s) = Some c -> is_ws c = false.
Proof.
  induction s as [|a r IH]; [done|]. rewrite trimEnd_cons.
  destruct (trimEnd r) as [|d t].
  - destruct (is_ws a) eqn:Ea; cbn [last_char]; [discriminate|].
    by intros [= <-].
  - exact IH.
Qed.

(** A piece that is not blank trims to its part between the white space. *)
Lemma trim_trimmed_to (piece : string) :
  trim piece ≠ "" -> trimmed_to piece (trim piece).
Proof.
  intros Hne. unfold trim in *.
  destruct (trimStart_prefix piece) as (pre & Hp & Hpre).
  destruct (trimEnd_suffix (trimStart piece)) as (post & Ht & Hpost).
  split; [|split].
  - exists pre, post. split; [|done]. by rewrite <- Ht.
  - pose proof (trimStart_head piece) as Hh.
    destruct (trimStart piece) as [|c r]; [done|].
    destruct (trimEnd_head c r Hh) as [r' ->].
    exists c. split; [done|]. by apply not_white_ws.
  - destruct (last_char (trimEnd (trimStart piece))) as [c|] eqn:E.
    + exists c. split; [done|]. apply not_white_ws.
      by apply (last_char_trimEnd (trimStart piece)).
    + by apply last_char_none in E.
Qed.

Lemma trimEnd_app_white (s post : string) :
  all_white post -> trimEnd (s +:+ post) = trimEnd s.
Proof.
  intros Hp. induction s as [|c r IH].
  - change ("" +:+ post) with post.
    by apply trimEnd_empty, blank_all_white.
  - change (String c r +:+ post) with (String c (r +:+ post)).
    by rewrite !trimEnd_cons, IH.
Qed.

Lemma trimEnd_fixed (s : string) (c : ascii) :
  last_char s = Some c -> ~ white c -> trimEnd s = s.
Proof.
  intros Hl Hc. induction s as [|a r IH]; [done|].
  rewrite trimEnd_cons. destruct r as [|b r].
  - injection Hl as ->. apply not_white_ws in Hc. cbn [trimEnd]. by rewrite Hc.
  - rewrite (IH Hl). done.
Qed.

Lemma trimStart_app_white (pre s : string) :
  all_white pre -> trimStart (pre +:+ s) = trimStart s.
Proof.
  induction pre as [|c pre IH]; intros H; [done|].
  apply Forall_cons in H as [Hc H].
  change (String c pre +:+ s) with (String c (pre +:+ s)). cbn [trimStart].
  apply white_ws in Hc as ->. auto.
Qed.

(** The part between the white space is what the piece trims to. *)
Lemma trimmed_to_trim (piece line : string) :
  trimmed_to piece line -> trim piece = line.
Proof.
  intros [(pre & post & -> & Hpre & Hpost) [(c & Hc & Hcw) (d & Hd & Hdw)]].
  unfold trim. rewrite (trimStart_app_white _ _ Hpre).
  destruct line as [|a r]; [done|]. injection Hc as ->.
  change (String c r +:+ post) with (String c (r +:+ post)). cbn [trimStart].
  apply not_white_ws in Hcw as ->.
  change (String c (r +:+ post)) with (String c r +:+ post).
  rewrite (trimEnd_app_white _ _ Hpost). by apply (trimEnd_fixed _ d).
Qed.

(** *** The lines kept *)

Lemma kept_trim (pieces : list string) :
  kept pieces (List.filter (fun line => (0 <? String.length line)%nat)
                           (trim <$> pieces)).
Proof.
  induction pieces as [|piece pieces IH]; [constructor|].
  rewrite fmap_cons. cbn [List.filter].
  destruct (trim piece) as [|c r] eqn:E.
  - apply kept_blank; [|exact IH]. by apply blank_all_white, trim_empty.
  - cbn [String.length Nat.ltb Nat.leb]. rewrite <- E.
    apply kept_line; [|exact IH]. apply trim_trimmed_to. by rewrite E.
Qed.

Lemma kept_lines (pieces lines : list string) :
  kept pieces lines ->
  lines = List.filter (fun line => (0 <? String.length line)%nat) (trim <$> pieces).
Proof.
  induction 1 as [|piece pieces lines Hw _ IH|piece line pieces lines Ht _ IH];
    [done|..]; rewrite fmap_cons; cbn [List.filter].
  - apply blank_all_white, trim_empty in Hw as ->. exact IH.
  - pose proof Ht as (_ & (c & Hc & _) & _).
    rewrite (trimmed_to_trim _ _ Ht). destruct line; [done|].
    cbn [String.length Nat.ltb Nat.leb]. by rewrite IH.
Qed.

(** Every text reads as pieces and kept lines, and the lines are those of
    [lines_of]. *)
Lemma lines_of_kept (text : string) :
  exists pieces : list string,
    text = String.concat nl pieces
    /\ Forall (fun piece => LF ∉ list_ascii_of_string piece) pieces
    /\ kept pieces (lines_of text).
Proof.
  exists (split LF text). split; [by rewrite (split_join LF)|]. split.
  - eapply Forall_impl; [apply split_pieces|].
    intros piece. apply contains_elem.
  - apply kept_trim.
Qed.

Lemma kept_lines_of (text : string) (pieces lines : list string) :
  text = String.concat nl pieces ->
  Forall (fun piece => LF ∉ list_ascii_of_string piece) pieces ->
  kept pieces lines ->
  lines = lines_of text.
Proof.
  intros -> Hp Hk. rewrite (kept_lines _ _ Hk). unfold lines_of.
  destruct pieces as [|p ps]; [reflexivity|].
  unfold nl. rewrite split_concat; [done|done|].
  eapply Forall_impl; [exact Hp|]. intros piece. apply contains_elem.
Qed.

(** C7. A text is its pieces joined by newlines, no piece holding a newline.
    A piece of white space only is discarded; any other piece is kept
    without the white space before its first and after its last character
    that is not white space; the order is that of the text.  Every text
    reads this way, and the lines that the reading gives are what both forms
    store, for the ingredients and for the instructions.  The text "flour",
    blank line, "2 eggs", line of two spaces, "milk" gives exactly the three
    entries, and so does that text with white space around its lines. *)
Theorem save_transform_lines :
  (forall text : string,
      exists pieces lines : list string,
        text = String.concat nl pieces
        /\ Forall (fun piece => LF ∉ list_ascii_of_string piece) pieces
        /\ kept pieces lines)
  /\ (forall (text : string) (pieces lines : list string)
             (recipe : object) (f : Form),
        text = String.concat nl pieces ->
        Forall (fun piece => LF ∉ list_ascii_of_string piece) pieces ->
        kept pieces lines ->
        AddRecipeScreen.newRecipe (with_ingredients text f) !! "ingredients"
        = Some (Arr (Str <$> lines))
        /\ AddRecipeScreen.newRecipe (with_instructions text f) !! "instructions"
           = Some (Arr (Str <$> lines))
        /\ EditRecipeScreen.updatedRecipe recipe (with_ingredients text f)
             !! "ingredients"
           = Some (Arr (Str <$> lines))
        /\ EditRecipeScreen.updatedRecipe recipe (with_instructions text f)
             !! "instructions"
           = Some (Arr (Str <$> lines)))
  /\ (forall f : Form,
        AddRecipeScreen.newRecipe (with_ingredients shopping_text f) !! "ingredients"
        = Some (Arr [Str "flour"; Str "2 eggs"; Str "milk"]))
  /\ (forall f : Form,
        AddRecipeScreen.newRecipe (with_ingredients padded_text f) !! "ingredients"
        = Some (Arr [Str "flour"; Str "2 eggs"; Str "milk"])).
Proof.
  split; [|split; [|split]].
  - intros text. destruct (lines_of_kept text) as (pieces & H1 & H2 & H3).
    by exists pieces, (lines_of text).
  - intros text pieces lines recipe f Ht Hp Hk.
    rewrite (kept_lines_of text pieces lines Ht Hp Hk).
    unfold EditRecipeScreen.updatedRecipe.
    destruct (recipe !! "id"); repeat split; reflexivity.
  - intros f. reflexivity.
  - intros f. reflexivity.
Qed.

Lemma save_transform_lines_witness :
  spaced_text = String.concat nl ["flour  "; " "; "  eggs"]
  /\ Forall (fun piece => LF ∉ list_ascii_of_string piece) ["flour  "; " "; "  eggs"]
  /\ kept ["flour  "; " "; "  eggs"] ["flour"; "eggs"]
  /\ AddRecipeScreen.newRecipe (with_ingredients spaced_text blank_form)
       !! "ingredients"
     = Some (Arr [Str "flour"; Str "eggs"])
  /\ EditRecipeScreen.updatedRecipe stew (with_instructions spaced_text blank_form)
       !! "instructions"
     = Some (Arr [Str "flour"; Str "eggs"]).
Proof.
  assert (H1 : spaced_text = String.concat nl ["flour  "; " "; "  eggs"])
    by reflexivity.
  assert (H2 : Forall (fun piece => LF ∉ list_ascii_of_string piece)
                      ["flour  "; " "; "  eggs"])
    by (repeat (constructor; [compute_done|]); constructor).
  assert (H3 : kept ["flour  "; " "; "  eggs"] ["flour"; "eggs"]).
  { apply kept_line; [|apply kept_blank; [|apply kept_line; [|constructor]]].
    - split; [exists "", "  "; split; [reflexivity|split; all_white_text]|].
      split; [exists "f"%char | exists "r"%char]; (split; [reflexivity|not_white_char]).
    - all_white_text.
    - split; [exists "  ", ""; split; [reflexivity|split; all_white_text]|].
      split; [exists "e"%char | exists "s"%char]; (split; [reflexivity|not_white_char]). }
  destruct save_transform_lines as (_ & H & _).
  destruct (H spaced_text _ _ stew blank_form H1 H2 H3) as (Ha & _ & _ & He).
  split; [exact H1|]. split; [exact H2|]. split; [exact H3|].
  split; [exact Ha | exact He].
Defined.

(** Saving the Add form in a world with nothing stored: the one stored
    record holds the three lines, and the defaults of the blank numeric
    fields. *)
Example handleSave_stores_lines :
  match stored Storage.MY_RECIPES_KEY
               (snd (AddRecipeScreen.handleSave
                       (with_ingredients shopping_text blank_form) empty_world))
  with
  | Some (Arr [Obj r]) =>
      r !! "ingredients" = Some (Arr [Str "flour"; Str "2 eggs"; Str "milk"])
      /\ r !! "servings" = Some (Num 1)
      /\ r !! "calories" = Some (Num 0)
      /\ r !! "category" = Some (Str "myfood")
  | _ => False
  end.
Proof. vm_compute. repeat split. Qed.

(** ** The numeric fields of the forms *)

Lemma parseInt_blank (s : string) : blank s = true -> parseInt s = None.
Proof.
  intros H. unfold parseInt. by rewrite (trimStart_blank s H).
Qed.

Lemma Add_servings (f : Form) :
  AddRecipeScreen.newRecipe f !! "servings"
  = Some (Num (num_or (parseInt (servings f)) 1)).
Proof. reflexivity. Qed.

Lemma Add_calories (f : Form) :
  AddRecipeScreen.newRecipe f !! "calories"
  = Some (Num (num_or (parseInt (calories f)) 0)).
Proof. reflexivity. Qed.

Lemma Edit_servings (recipe : object) (f : Form) :
  EditRecipeScreen.updatedRecipe recipe f !! "servings"
  = Some (Num (num_or (parseInt (servings f)) 1)).
Proof.
  unfold EditRecipeScreen.updatedRecipe. by destruct (recipe !! "id").
Qed.

Lemma Edit_calories (recipe : object) (f : Form) :
  EditRecipeScreen.updatedRecipe recipe f !! "calories"
  = Some (Num (num_or (parseInt (calories f)) 0)).
Proof.
  unfold EditRecipeScreen.updatedRecipe. by destruct (recipe !! "id").
Qed.

(** The servings text "0" parses, to 0, and 0 is not what is stored. *)
Lemma servings_zero_not_stored :
  parseInt "0" = Some 0
  /\ AddRecipeScreen.newRecipe (with_servings "0" blank_form) !! "servings"
     ≠ Some (Num 0).
Proof. split; [reflexivity|]. vm_compute. discriminate. Qed.

(** *** Numbers and their decimal text *)

Lemma leading_digits_of_uint (d : Decimal.uint) :
  leading_digits (NilEmpty.string_of_uint d) = uint_digits d.
Proof. induction d; cbn; by f_equal. Qed.

Lemma digits_fold_pos (d : Decimal.uint) (acc : positive) :
  fold_left (fun a x => 10 * a + x) (uint_digits d) (Z.pos acc)
  = Z.pos (Pos.of_uint_acc d acc).
Proof.
  revert acc. induction d; intros acc; cbn [uint_digits fold_left Pos.of_uint_acc];
    [done|..];
    match goal with
    | |- fold_left _ _ ?a = Z.pos (Pos.of_uint_acc _ ?p) =>
        replace a with (Z.pos p) by lia
    end; apply IHd.
Qed.

Lemma digits_fold_zero (d : Decimal.uint) :
  digits_value (uint_digits d) = Z.of_N (Pos.of_uint d).
Proof.
  unfold digits_value.
  induction d; cbn [uint_digits fold_left Pos.of_uint Z.of_N];
    [done | exact IHd |..];
    match goal with
    | |- fold_left _ _ ?a = Z.pos (Pos.of_uint_acc _ ?p) =>
        replace a with (Z.pos p) by lia
    end; apply digits_fold_pos.
Qed.

Lemma parseInt_digit_start (c : ascii) (r : string) (k : Z) :
  digit_of c = Some k ->
  parseInt (String c r) = Some (1 * digits_value (k :: leading_digits r))
  /\ parseInt (String "-" (String c r))
     = Some (-1 * digits_value (k :: leading_digits r)).
Proof.
  intros H.
  destruct c as [[] [] [] [] [] [] [] []]; vm_compute in H; try discriminate H;
    injection H as <-; split; reflexivity.
Qed.

Lemma parseInt_of_uint (d : Decimal.uint) :
  d ≠ Decimal.Nil ->
  parseInt (NilEmpty.string_of_uint d) = Some (Z.of_N (Pos.of_uint d))
  /\ parseInt (String "-" (NilEmpty.string_of_uint d))
     = Some (- Z.of_N (Pos.of_uint d)).
Proof.
  intros Hd. pose proof (digits_fold_zero d) as Hv.
  destruct d as [|d|d|d|d|d|d|d|d|d|d]; [done|..];
    cbn [NilEmpty.string_of_uint uint_digits] in *;
    match goal with
    | |- parseInt (String ?c ?r) = _ /\ _ =>
        match type of Hv with
        | digits_value (?k :: _) = _ =>
            destruct (parseInt_digit_start c r k eq_refl) as [-> ->]
        end
    end;
    rewrite leading_digits_of_uint, Hv; split; f_equal; lia.
Qed.

(** The decimal text of an integer parses back to it. *)
Lemma parseInt_Number_toString (n : Z) : parseInt (Number_toString n) = Some n.
Proof.
  unfold Number_toString. destruct n as [|p|p]; [reflexivity|..];
    cbn [Z.to_int NilZero.string_of_int NilZero.string_of_uint];
    pose proof (DecimalPos.Unsigned.to_uint_nonnil p) as Hnil;
    pose proof (DecimalPos.Unsigned.of_to p) as Hof;
    destruct (parseInt_of_uint (Pos.to_uint p) Hnil) as [Hpos Hneg];
    rewrite Hof in Hpos, Hneg.
  - destruct (Pos.to_uint p); [done|..]; exact Hpos.
  - destruct (Pos.to_uint p); [done|..]; exact Hneg.
Qed.

Lemma Number_toString_inj (n m : Z) :
  Number_toString n = Number_toString m -> n = m.
Proof.
  intros H. pose proof (parseInt_Number_toString n) as Hn.
  rewrite H, parseInt_Number_toString in Hn. congruence.
Qed.

(** *** Texts that read as an integer, and texts that do not *)

Lemma digit_of_decimal (c : ascii) :
  bool_decide (decimal_digit c)
  = match digit_of c with Some _ => true | None => false end.
Proof.
  destruct c as [[] [] [] [] [] [] [] []]; vm_compute; reflexivity.
Qed.

Lemma parseInt_skip_white (pre s : string) :
  all_white pre -> parseInt (pre +:+ s) = parseInt s.
Proof. intros H. unfold parseInt. by rewrite (trimStart_app_white _ _ H). Qed.

Lemma leading_digits_none (s : string) :
  ~ starts_with decimal_digit s -> leading_digits s = [].
Proof.
  destruct s as [|c r]; [done|]. intros H. cbn [leading_digits].
  pose proof (digit_of_decimal c) as Hd.
  destruct (digit_of c); [|done].
  apply bool_decide_eq_true in Hd. exfalso. apply H. by exists c.
Qed.

Lemma leading_digits_app (u : Decimal.uint) (rest : string) :
  ~ starts_with decimal_digit rest ->
  leading_digits (NilEmpty.string_of_uint u +:+ rest) = uint_digits u.
Proof.
  intros H. induction u; cbn; [by apply leading_digits_none|..];
    rewrite <- IHu; reflexivity.
Qed.

Lemma parseInt_plus_start (c : ascii) (r : string) (k : Z) :
  digit_of c = Some k ->
  parseInt (String "+" (String c r)) = Some (1 * digits_value (k :: leading_digits r)).
Proof.
  intros H.
  destruct c as [[] [] [] [] [] [] [] []]; vm_compute in H; try discriminate H;
    injection H as <-; reflexivity.
Qed.

(** A numeral, bare or signed, followed by something that does not go on
    with a digit, parses to the integer that the numeral denotes. *)
Lemma parseInt_numeral (u : Decimal.uint) (rest : string) :
  u ≠ Decimal.Nil ->
  ~ starts_with decimal_digit rest ->
  parseInt (NilEmpty.string_of_uint u +:+ rest) = Some (Z.of_uint u)
  /\ parseInt ("+" +:+ NilEmpty.string_of_uint u +:+ rest) = Some (Z.of_uint u)
  /\ parseInt ("-" +:+ NilEmpty.string_of_uint u +:+ rest) = Some (- Z.of_uint u).
Proof.
  intros Hu Hrest. pose proof (digits_fold_zero u) as Hv.
  unfold Z.of_uint.
  destruct u as [|u|u|u|u|u|u|u|u|u|u]; [done|..];
    cbn [NilEmpty.string_of_uint uint_digits] in *;
    match goal with
    | |- parseInt (String ?c ?s +:+ _) = _ /\ _ =>
        change (String c s +:+ rest) with (String c (s +:+ rest));
        change ("+" +:+ String c (s +:+ rest)) with (String "+" (String c (s +:+ rest)));
        change ("-" +:+ String c (s +:+ rest)) with (String "-" (String c (s +:+ rest)));
        match type of Hv with
        | digits_value (?k :: _) = _ =>
            destruct (parseInt_digit_start c (s +:+ rest) k eq_refl) as [-> ->];
            rewrite (parseInt_plus_start c (s +:+ rest) k eq_refl)
        end
    end;
    rewrite (leading_digits_app _ _ Hrest), Hv; repeat split; f_equal; lia.
Qed.

Lemma parseInt_integer_text (s : string) (n : Z) :
  integer_text s n -> parseInt s = Some n.
Proof.
  intros (pre & sign & rest & u & -> & Hpre & Hu & Hrest & Hsign).
  rewrite (parseInt_skip_white _ _ Hpre).
  destruct (parseInt_numeral u rest Hu Hrest) as (H0 & Hp & Hm).
  destruct Hsign as [[[->| ->] ->]|[-> ->]]; done.
Qed.

Lemma parseInt_no_start (c : ascii) (r : string) :
  ~ white c -> c ≠ "+"%char -> c ≠ "-"%char -> ~ decimal_digit c ->
  parseInt (String c r) = None.
Proof.
  intros Hw Hp Hm Hd.
  apply not_white_ws in Hw. apply Ascii.eqb_neq in Hp, Hm.
  apply (bool_decide_eq_false_2 _) in Hd. rewrite digit_of_decimal in Hd.
  destruct c as [[] [] [] [] [] [] [] []]; vm_compute in Hw, Hp, Hm, Hd;
    try discriminate; reflexivity.
Qed.

Lemma parseInt_not_integer_text (s : string) :
  not_integer_text s -> parseInt s = None.
Proof.
  intros (pre & sign & rest & -> & Hpre & Hrest & Hsign).
  rewrite (parseInt_skip_white _ _ Hpre).
  destruct Hsign as [->|[->|(-> & Hw & Hs)]].
  - change (parseInt ("+" +:+ rest))
      with (match leading_digits rest with
            | [] => None
            | ds => Some (1 * digits_value ds)
            end).
    by rewrite (leading_digits_none _ Hrest).
  - change (parseInt ("-" +:+ rest))
      with (match leading_digits rest with
            | [] => None
            | ds => Some (-1 * digits_value ds)
            end).
    by rewrite (leading_digits_none _ Hrest).
  - change ("" +:+ rest) with rest.
    destruct rest as [|c r]; [reflexivity|].
    apply parseInt_no_start.
    + intros H. apply Hw. by exists c.
    + intros ->. apply Hs. exists "+"%char. split; [done|by left].
    + intros ->. apply Hs. exists "-"%char. split; [done|by right].
    + intros H. apply Hrest. by exists c.
Qed.

(** Every text begins with a numeral, possibly empty, that is not followed
    by a digit. *)
Lemma digit_run (s : string) :
  exists (u : Decimal.uint) (rest : string),
    s = NilEmpty.string_of_uint u +:+ rest
    /\ ~ starts_with decimal_digit rest.
Proof.
  induction s as [|c r (u & rest & Hr & Hn)].
  - exists Decimal.Nil, "". split; [done|]. by intros (c & ? & _).
  - destruct (decide (decimal_digit c)) as [Hd|Hd].
    + unfold decimal_digit in Hd.
      repeat (apply elem_of_cons in Hd as [->|Hd]);
        [ exists (Decimal.D0 u), rest | exists (Decimal.D1 u), rest
        | exists (Decimal.D2 u), rest | exists (Decimal.D3 u), rest
        | exists (Decimal.D4 u), rest | exists (Decimal.D5 u), rest
        | exists (Decimal.D6 u), rest | exists (Decimal.D7 u), rest
        | exists (Decimal.D8 u), rest | exists (Decimal.D9 u), rest
        | by apply elem_of_nil in Hd ];
        (split; [by rewrite Hr at 1|done]).
    + exists Decimal.Nil, (String c r). split; [done|].
      by intros (c' & [= <-] & H).
Qed.

Lemma numeral_empty (u : Decimal.uint) : u = Decimal.Nil \/ u ≠ Decimal.Nil.
Proof. destruct u; [by left|by right..]. Qed.

(** Every text reads as an integer or does not. *)
Lemma text_reads (s : string) :
  not_integer_text s \/ exists n : Z, integer_text s n.
Proof.
  destruct (trimStart_prefix s) as (pre & Hs & Hpre).
  pose proof (trimStart_head s) as Hh.
  destruct (trimStart s) as [|c r].
  { left. exists pre, "", "". split; [done|]. split; [done|].
    split; [by intros (c & ? & _)|]. right. right.
    split; [done|]. split; by intros (c & ? & _). }
  apply not_white_ws in Hh.
  destruct (decide (c = "+"%char)) as [->|Hp]; [|destruct (decide (c = "-"%char)) as [->|Hm]].
  - destruct (digit_run r) as (u & rest & -> & Hn).
    destruct (numeral_empty u) as [->|Hu].
    + left. exists pre, "+", rest. split; [done|]. split; [done|].
      split; [done|]. by left.
    + right. exists (Z.of_uint u), pre, "+", rest, u.
      split; [done|]. split; [done|]. split; [done|]. split; [done|].
      left. split; [by right|done].
  - destruct (digit_run r) as (u & rest & -> & Hn).
    destruct (numeral_empty u) as [->|Hu].
    + left. exists pre, "-", rest. split; [done|]. split; [done|].
      split; [done|]. right. by left.
    + right. exists (- Z.of_uint u), pre, "-", rest, u.
      split; [done|]. split; [done|]. split; [done|]. split; [done|].
      right. by split.
  - destruct (digit_run (String c r)) as (u & rest & Hr & Hn).
    destruct (numeral_empty u) as [->|Hu].
    + left. assert (Hr' : rest = String c r) by (symmetry; exact Hr).
      subst rest. exists pre, "", (String c r).
      split; [exact Hs|]. split; [done|]. split; [done|].
      right. right. split; [done|].
      split; intros (c' & [= <-] & H); [done|]. by destruct H.
    + right. exists (Z.of_uint u), pre, "", rest, u.
      split; [by rewrite <- Hr|]. split; [done|]. split; [done|].
      split; [done|]. left. split; [by left|done].
Qed.

(** C8, as the code has it.  Every text reads as an integer or does not.
    On the Add form a servings text that is blank or does not read as an
    integer stores 1, and so does one that reads as 0; a calories text that
    is blank or does not read as an integer stores 0; a servings text that
    reads as an integer other than 0, and a calories text that reads as an
    integer, store that integer, when it is one that a JavaScript number
    holds exactly. *)
Theorem Add_numeric_fallback (f : Form) :
  (forall s : string, not_integer_text s \/ exists n : Z, integer_text s n)
  /\ (all_white (servings f) \/ not_integer_text (servings f) ->
      AddRecipeScreen.newRecipe f !! "servings" = Some (Num 1))
  /\ (all_white (calories f) \/ not_integer_text (calories f) ->
      AddRecipeScreen.newRecipe f !! "calories" = Some (Num 0))
  /\ (integer_text (servings f) 0 ->
      AddRecipeScreen.newRecipe f !! "servings" = Some (Num 1))
  /\ (forall n : Z,
        integer_text (servings f) n -> n ≠ 0 -> safe n ->
        AddRecipeScreen.newRecipe f !! "servings" = Some (Num n))
  /\ (forall n : Z,
        integer_text (calories f) n -> safe n ->
        AddRecipeScreen.newRecipe f !! "calories" = Some (Num n)).
Proof.
  rewrite Add_servings, Add_calories.
  split; [|split; [|split; [|split; [|split]]]].
  - apply text_reads.
  - intros [H|H]; [apply blank_all_white, parseInt_blank in H
                  |apply parseInt_not_integer_text in H]; by rewrite H.
  - intros [H|H]; [apply blank_all_white, parseInt_blank in H
                  |apply parseInt_not_integer_text in H]; by rewrite H.
  - intros H. by rewrite (parseInt_integer_text _ _ H).
  - intros n H Hn _. rewrite (parseInt_integer_text _ _ H). cbn [num_or].
    by apply Z.eqb_neq in Hn as ->.
  - intros n H _. rewrite (parseInt_integer_text _ _ H). cbn [num_or].
    by destruct (Z.eqb_spec n 0) as [->|].
Qed.

Lemma Add_numeric_fallback_witness :
  not_integer_text "abc"
  /\ all_white ""
  /\ integer_text "0" 0
  /\ integer_text " 12 cups" 12 /\ 12 ≠ 0 /\ safe 12
  /\ integer_text "-250kcal" (-250) /\ safe (-250)
  /\ AddRecipeScreen.newRecipe (with_servings "abc" blank_form) !! "servings"
     = Some (Num 1)
  /\ AddRecipeScreen.newRecipe (with_servings "abc" blank_form) !! "calories"
     = Some (Num 0)
  /\ AddRecipeScreen.newRecipe (with_servings "0" blank_form) !! "servings"
     = Some (Num 1)
  /\ AddRecipeScreen.newRecipe (with_servings " 12 cups" blank_form) !! "servings"
     = Some (Num 12)
  /\ AddRecipeScreen.newRecipe (with_calories "-250kcal" blank_form) !! "calories"
     = Some (Num (-250)).
Proof.
  assert (H1 : not_integer_text "abc").
  { exists "", "", "abc". split; [reflexivity|]. split; [all_white_text|].
    split; [no_such_start|]. right. right. split; [reflexivity|].
    split; no_such_start. }
  assert (H2 : all_white "") by all_white_text.
  assert (H3 : integer_text "0" 0).
  { exists "", "", "", (Decimal.D0 Decimal.Nil). split; [reflexivity|].
    split; [all_white_text|]. split; [discriminate|]. split; [no_such_start|].
    left. split; [by left|reflexivity]. }
  assert (H4 : integer_text " 12 cups" 12).
  { exists " ", "", " cups", (Decimal.D1 (Decimal.D2 Decimal.Nil)).
    split; [reflexivity|]. split; [all_white_text|]. split; [discriminate|].
    split; [no_such_start|]. left. split; [by left|reflexivity]. }
  assert (H5 : 12 ≠ 0) by discriminate.
  assert (H6 : safe 12) by (split; vm_compute; discriminate).
  assert (H7 : integer_text "-250kcal" (-250)).
  { exists "", "-", "kcal", (Decimal.D2 (Decimal.D5 (Decimal.D0 Decimal.Nil))).
    split; [reflexivity|]. split; [all_white_text|]. split; [discriminate|].
    split; [no_such_start|]. right. split; reflexivity. }
  assert (H8 : safe (-250)) by (split; vm_compute; discriminate).
  destruct (Add_numeric_fallback (with_servings "abc" blank_form))
    as (_ & Habc_s & Habc_c & _).
  destruct (Add_numeric_fallback (with_servings "0" blank_form))
    as (_ & _ & _ & Hzero & _).
  destruct (Add_numeric_fallback (with_servings " 12 cups" blank_form))
    as (_ & _ & _ & _ & Hcups & _).
  destruct (Add_numeric_fallback (with_calories "-250kcal" blank_form))
    as (_ & _ & _ & _ & _ & Hcal).
  split; [exact H1|]. split; [exact H2|]. split; [exact H3|].
  split; [exact H4|]. split; [exact H5|]. split; [exact H6|].
  split; [exact H7|]. split; [exact H8|].
  split; [exact (Habc_s (or_intror H1))|].
  split; [exact (Habc_c (or_introl H2))|].
  split; [exact (Hzero H3)|].
  split; [exact (Hcups 12 H4 H5 H6)|].
  exact (Hcal (-250) H7 H8).
Defined.

(** C10. The servings text "0" parses to 0 and is stored as 1 by both forms,
    whatever the other fields hold; the calories text "0" is stored as 0. *)
Theorem servings_zero_becomes_one (recipe : object) (f : Form) :
  parseInt "0" = Some 0
  /\ AddRecipeScreen.newRecipe (with_servings "0" f) !! "servings"
     = Some (Num 1)
  /\ EditRecipeScreen.updatedRecipe recipe (with_servings "0" f) !! "servings"
     = Some (Num 1)
  /\ AddRecipeScreen.newRecipe (with_calories "0" f) !! "calories"
     = Some (Num 0)
  /\ EditRecipeScreen.updatedRecipe recipe (with_calories "0" f) !! "calories"
     = Some (Num 0).
Proof.
  rewrite Add_servings, Add_calories, Edit_servings, Edit_calories.
  repeat split.
Qed.

(** ** Failures *)

Lemma try_catch_never_throws {A} (body : M A) (handler : error -> M A) :
  (forall e, never_throws (handler e)) -> never_throws (try_catch body handler).
Proof.
  intros Hh w. unfold try_catch.
  destruct (body w) as [[a|e] w1]; [by eauto|]. apply Hh.
Qed.

Lemma log_and_return_never_throws {A} (msg : string) (a : A) :
  never_throws (console_error msg;; ret a).
Proof. intros w. by eexists _, _. Qed.

Lemma console_error_never_throws (msg : string) :
  never_throws (console_error msg).
Proof. intros w. by eexists _, _. Qed.

Lemma rejected_tail (w w1 : World) (n : nat) :
  faults w1 = tail (faults w) -> rejected n w1 <-> rejected (S n) w.
Proof. unfold rejected. intros ->. by rewrite lookup_tail. Qed.

Lemma reader_spec (key msg : string) (w : World) :
  exists v w1,
    reader key msg w = (Ok v, w1)
    /\ disk w1 = disk w
    /\ faults w1 = tail (faults w)
    /\ (unreadable key w -> v = Arr [])
    /\ (served 1 w -> forall u, stored key w = Some u -> v = u).
Proof.
  destruct w as [d fs c con].
  unfold reader, try_catch, bind, AsyncStorage_getItem, next_fault, unreadable,
    rejected, served, stored.
  cbn [faults disk clock console].
  destruct fs as [|[] fs]; cbn [tail take disk faults clock console];
    try destruct (d !! key) as [[u|]|];
    cbn [JSON_parse ret throw console_error]; eexists _, _;
    (split; [reflexivity|]); cbn [disk faults];
    repeat split; try done; try congruence;
    try (intros [?|?]; congruence);
    try (intros H; by inversion H).
Qed.

Lemma writer_spec (key msg : string) (v : value) (w : World) :
  exists w1,
    writer key msg v w = (Ok tt, w1)
    /\ faults w1 = tail (faults w)
    /\ (rejected 0 w -> disk w1 = disk w)
    /\ (served 1 w -> disk w1 = <[key := JsonText v]> (disk w)).
Proof.
  destruct w as [d fs c con].
  unfold writer, try_catch, AsyncStorage_setItem, next_fault, rejected, served.
  cbn [faults disk clock console].
  destruct fs as [|[] fs]; cbn [tail take disk faults clock console]; eexists;
    (split; [reflexivity|]); cbn [disk faults]; repeat split; try done;
    try (intros H; by inversion H).
Qed.

Lemma toggleFavorite_not_an_array (x : string) (w : World) :
  not_an_array Storage.FAVORITES_KEY w ->
  fst (Storage.toggleFavorite x w) = Ok (Arr []).
Proof.
  intros (Hs & u & Hu & Harr).
  unfold Storage.toggleFavorite, try_catch, bind.
  change Storage.getFavorites
    with (reader Storage.FAVORITES_KEY "Error reading favorites:").
  destruct (reader_spec Storage.FAVORITES_KEY "Error reading favorites:" w)
    as (v & w1 & -> & _ & _ & _ & Hv).
  rewrite (Hv Hs u Hu). by destruct u.
Qed.

Lemma addMyRecipe_not_an_array (recipe : object) (w : World) :
  not_an_array Storage.MY_RECIPES_KEY w ->
  fst (Storage.addMyRecipe recipe w) = Ok Null.
Proof.
  intros (Hs & u & Hu & Harr).
  unfold Storage.addMyRecipe, try_catch, bind.
  change Storage.getMyRecipes
    with (reader Storage.MY_RECIPES_KEY "Error reading my recipes:").
  destruct (reader_spec Storage.MY_RECIPES_KEY "Error reading my recipes:" w)
    as (v & w1 & -> & _ & _ & _ & Hv).
  rewrite (Hv Hs u Hu). by destruct u.
Qed.

Lemma updateMyRecipe_failure (upd : object) (w : World) :
  unreadable Storage.MY_RECIPES_KEY w
  \/ not_an_array Storage.MY_RECIPES_KEY w
  \/ rejected 1 w ->
  disk (snd (Storage.updateMyRecipe upd w)) = disk w.
Proof.
  intros Hfail.
  unfold Storage.updateMyRecipe, try_catch, bind.
  change Storage.getMyRecipes
    with (reader Storage.MY_RECIPES_KEY "Error reading my recipes:").
  destruct (reader_spec Storage.MY_RECIPES_KEY "Error reading my recipes:" w)
    as (v & w1 & -> & Hd & Hf & Hun & Hv).
  destruct v as [| | | |l|]; try exact Hd.
  cbn [as_array ret lift].
  destruct (findIndex _ l) as [index|e] eqn:Ei; [|exact Hd].
  destruct (index >? -1) eqn:Egt; [|exact Hd].
  change (Storage.saveMyRecipes ?u)
    with (writer Storage.MY_RECIPES_KEY "Error saving my recipes:" u).
  match goal with
  | |- context [writer ?k ?m ?u w1] =>
      destruct (writer_spec k m u w1) as (w2 & -> & _ & Hrej & _)
  end.
  cbn [snd]. destruct Hfail as [Hr|[(Hs & u & Hu & Harr)|Hw]].
  - apply Hun in Hr. injection Hr as ->. cbn [findIndex] in Ei.
    injection Ei as <-. discriminate Egt.
  - rewrite <- (Hv Hs u Hu) in Harr. discriminate Harr.
  - rewrite <- Hd. apply Hrej. by apply (rejected_tail w w1 0).
Qed.

Lemma deleteMyRecipe_failure (i : string) (w : World) :
  not_an_array Storage.MY_RECIPES_KEY w \/ rejected 1 w ->
  disk (snd (Storage.deleteMyRecipe i w)) = disk w.
Proof.
  intros Hfail.
  unfold Storage.deleteMyRecipe, try_catch, bind.
  change Storage.getMyRecipes
    with (reader Storage.MY_RECIPES_KEY "Error reading my recipes:").
  destruct (reader_spec Storage.MY_RECIPES_KEY "Error reading my recipes:" w)
    as (v & w1 & -> & Hd & Hf & Hun & Hv).
  destruct v as [| | | |l|]; try exact Hd.
  cbn [as_array ret lift].
  destruct (filter_js _ l) as [filtered|e]; [|exact Hd].
  change (Storage.saveMyRecipes ?u)
    with (writer Storage.MY_RECIPES_KEY "Error saving my recipes:" u).
  destruct (writer_spec Storage.MY_RECIPES_KEY "Error saving my recipes:"
              (Arr filtered) w1) as (w2 & -> & _ & Hrej & _).
  cbn [snd]. destruct Hfail as [(Hs & u & Hu & Harr)|Hw].
  - rewrite <- (Hv Hs u Hu) in Harr. discriminate Harr.
  - rewrite <- Hd. apply Hrej. by apply (rejected_tail w w1 0).
Qed.

(** A rejected read or write inside [toggleFavorite], [addMyRecipe] and
    [deleteMyRecipe] is absorbed by the reader or the writer: the first two
    return their ordinary result, and the third overwrites the stored
    recipes with what an empty read leaves. *)
Lemma storage_failure_absorbed :
  rejected 1 write_rejected_world
  /\ fst (Storage.toggleFavorite "7" write_rejected_world) = Ok (Arr [Str "7"])
  /\ fst (Storage.toggleFavorite "7" write_rejected_world) ≠ Ok (Arr [])
  /\ fst (Storage.addMyRecipe tacos write_rejected_world) ≠ Ok Null
  /\ stored Storage.MY_RECIPES_KEY
            (snd (Storage.addMyRecipe tacos write_rejected_world))
     = Some (Arr [])
  /\ fst (AddRecipeScreen.handleSave (with_servings "2" blank_form)
                                     write_rejected_world) = Ok Success
  /\ rejected 0 read_rejected_world
  /\ stored Storage.MY_RECIPES_KEY read_rejected_world
     = Some (Arr (Obj <$> two_recipes))
  /\ stored Storage.MY_RECIPES_KEY
            (snd (Storage.deleteMyRecipe "user_9" read_rejected_world))
     = Some (Arr []).
Proof.
  split; [reflexivity|].
  split; [vm_compute; reflexivity|].
  split; [vm_compute; discriminate|].
  split; [vm_compute; discriminate|].
  split; [vm_compute; reflexivity|].
  split; [vm_compute; reflexivity|].
  split; [reflexivity|].
  split; vm_compute; reflexivity.
Qed.

(** C5, as the code has it. No persistence operation lets an exception out: each one
    returns a plain value in every world.  When the read is rejected or the
    stored text does not parse, [getFavorites] and [getMyRecipes] return the
    empty array.  When the stored value is not an array, [toggleFavorite]
    returns the empty array and [addMyRecipe] returns [null].  A rejected
    write leaves the store as it was in [saveFavorites], [saveMyRecipes] and
    [deleteMyRecipe]; so does a stored value that is not an array in
    [deleteMyRecipe]; and [updateMyRecipe] leaves the store as it was on a
    failed read, on a stored value that is not an array and on a rejected
    write. *)
Theorem persistence_failures :
  (never_throws Storage.getFavorites
   /\ never_throws Storage.getMyRecipes
   /\ (forall v, never_throws (Storage.saveFavorites v))
   /\ (forall v, never_throws (Storage.saveMyRecipes v))
   /\ (forall x, never_throws (Storage.toggleFavorite x))
   /\ (forall r, never_throws (Storage.addMyRecipe r))
   /\ (forall r, never_throws (Storage.updateMyRecipe r))
   /\ (forall x, never_throws (Storage.deleteMyRecipe x)))
  /\ (forall w, unreadable Storage.FAVORITES_KEY w ->
                fst (Storage.getFavorites w) = Ok (Arr []))
  /\ (forall w, unreadable Storage.MY_RECIPES_KEY w ->
                fst (Storage.getMyRecipes w) = Ok (Arr []))
  /\ (forall x w, not_an_array Storage.FAVORITES_KEY w ->
                  fst (Storage.toggleFavorite x w) = Ok (Arr []))
  /\ (forall r w, not_an_array Storage.MY_RECIPES_KEY w ->
                  fst (Storage.addMyRecipe r w) = Ok Null)
  /\ (forall v w, rejected 0 w ->
                  disk (snd (Storage.saveFavorites v w)) = disk w)
  /\ (forall v w, rejected 0 w ->
                  disk (snd (Storage.saveMyRecipes v w)) = disk w)
  /\ (forall r w,
        unreadable Storage.MY_RECIPES_KEY w
        \/ not_an_array Storage.MY_RECIPES_KEY w
        \/ rejected 1 w ->
        disk (snd (Storage.updateMyRecipe r w)) = disk w)
  /\ (forall x w,
        not_an_array Storage.MY_RECIPES_KEY w \/ rejected 1 w ->
        disk (snd (Storage.deleteMyRecipe x w)) = disk w).
Proof.
  split.
  { repeat split; intros;
      apply try_catch_never_throws; intros e;
      first [apply log_and_return_never_throws | apply console_error_never_throws]. }
  split.
  { intros w Hw.
    destruct (reader_spec Storage.FAVORITES_KEY "Error reading favorites:" w)
      as (v & w1 & E & _ & _ & Hun & _).
    change (Storage.getFavorites w = (Ok v, w1)) in E.
    rewrite E. cbn [fst]. f_equal. by apply Hun. }
  split.
  { intros w Hw.
    destruct (reader_spec Storage.MY_RECIPES_KEY "Error reading my recipes:" w)
      as (v & w1 & E & _ & _ & Hun & _).
    change (Storage.getMyRecipes w = (Ok v, w1)) in E.
    rewrite E. cbn [fst]. f_equal. by apply Hun. }
  split; [exact toggleFavorite_not_an_array|].
  split; [exact addMyRecipe_not_an_array|].
  split.
  { intros v w Hw.
    destruct (writer_spec Storage.FAVORITES_KEY "Error saving favorites:" v w)
      as (w1 & E & _ & Hrej & _).
    change (Storage.saveFavorites v w = (Ok tt, w1)) in E.
    rewrite E. by apply Hrej. }
  split.
  { intros v w Hw.
    destruct (writer_spec Storage.MY_RECIPES_KEY "Error saving my recipes:" v w)
      as (w1 & E & _ & Hrej & _).
    change (Storage.saveMyRecipes v w = (Ok tt, w1)) in E.
    rewrite E. by apply Hrej. }
  split; [exact updateMyRecipe_failure | exact deleteMyRecipe_failure].
Qed.

Lemma persistence_failures_witness :
  (unreadable Storage.FAVORITES_KEY malformed_world
   /\ fst (Storage.getFavorites malformed_world) = Ok (Arr []))
  /\ (unreadable Storage.MY_RECIPES_KEY read_rejected_world
      /\ fst (Storage.getMyRecipes read_rejected_world) = Ok (Arr []))
  /\ (not_an_array Storage.FAVORITES_KEY not_arrays_world
      /\ fst (Storage.toggleFavorite "7" not_arrays_world) = Ok (Arr []))
  /\ (not_an_array Storage.MY_RECIPES_KEY not_arrays_world
      /\ fst (Storage.addMyRecipe tacos not_arrays_world) = Ok Null)
  /\ (rejected 0 read_rejected_world
      /\ disk (snd (Storage.saveFavorites (Arr []) read_rejected_world))
         = disk read_rejected_world
      /\ disk (snd (Storage.saveMyRecipes (Arr []) read_rejected_world))
         = disk read_rejected_world)
  /\ (rejected 1 recipes_write_rejected_world
      /\ disk (snd (Storage.updateMyRecipe calories_200 recipes_write_rejected_world))
         = disk recipes_write_rejected_world
      /\ disk (snd (Storage.deleteMyRecipe "user_1" recipes_write_rejected_world))
         = disk recipes_write_rejected_world).
Proof.
  destruct persistence_failures
    as (_ & Hgf & Hgr & Htog & Hadd & Hsf & Hsr & Hupd & Hdel).
  assert (H1 : unreadable Storage.FAVORITES_KEY malformed_world)
    by (right; vm_compute; reflexivity).
  assert (H2 : unreadable Storage.MY_RECIPES_KEY read_rejected_world)
    by (left; reflexivity).
  assert (H3 : not_an_array Storage.FAVORITES_KEY not_arrays_world).
  { split; [constructor|]. exists Null. split; vm_compute; reflexivity. }
  assert (H4 : not_an_array Storage.MY_RECIPES_KEY not_arrays_world).
  { split; [constructor|]. exists (Num 5). split; vm_compute; reflexivity. }
  assert (H5 : rejected 0 read_rejected_world) by reflexivity.
  assert (H6 : rejected 1 recipes_write_rejected_world) by reflexivity.
  split; [split; [exact H1 | exact (Hgf _ H1)]|].
  split; [split; [exact H2 | exact (Hgr _ H2)]|].
  split; [split; [exact H3 | exact (Htog "7" _ H3)]|].
  split; [split; [exact H4 | exact (Hadd tacos _ H4)]|].
  split; [split; [exact H5 | split; [exact (Hsf _ _ H5) | exact (Hsr _ _ H5)]]|].
  split; [exact H6|].
  split; [apply Hupd | apply Hdel]; right; try right; exact H6.
Defined.

(** ** More on the storage operations *)

(** *** Writing and reading back *)

Lemma reader_quiet_other (key key' msg : string) (v : value) (w : World) :
  key ≠ key' ->
  fst (reader key' msg (write key v w)) = fst (reader key' msg w).
Proof.
  intros Hne. destruct w as [d fs c con].
  unfold reader, try_catch, bind, AsyncStorage_getItem, next_fault, write.
  cbn [faults disk clock console].
  destruct fs as [|[] fs]; cbn [disk faults clock console]; try reflexivity;
    rewrite lookup_insert_ne by done;
    by destruct (d !! key') as [[u|]|].
Qed.

(** What [saveFavorites] writes is what [getFavorites] reads next, and
    [getMyRecipes] reads what it read before; likewise with the roles of the
    two collections exchanged. *)
Theorem save_then_get (v : value) (w : World) :
  faults w = [] ->
  fst (Storage.getFavorites (snd (Storage.saveFavorites v w))) = Ok v
  /\ fst (Storage.getMyRecipes (snd (Storage.saveFavorites v w)))
     = fst (Storage.getMyRecipes w)
  /\ fst (Storage.getMyRecipes (snd (Storage.saveMyRecipes v w))) = Ok v
  /\ fst (Storage.getFavorites (snd (Storage.saveMyRecipes v w)))
     = fst (Storage.getFavorites w).
Proof.
  intros Hq.
  rewrite (saveFavorites_quiet w Hq), (saveMyRecipes_quiet w Hq). cbn [snd].
  split; [|split; [|split]].
  - by rewrite (getFavorites_quiet _ (eq_trans (faults_write _ _ _) Hq) v
                  (stored_write _ _ _)).
  - apply (reader_quiet_other Storage.FAVORITES_KEY Storage.MY_RECIPES_KEY).
    done.
  - by rewrite (getMyRecipes_quiet _ (eq_trans (faults_write _ _ _) Hq) v
                  (stored_write _ _ _)).
  - apply (reader_quiet_other Storage.MY_RECIPES_KEY Storage.FAVORITES_KEY).
    done.
Qed.

Lemma save_then_get_witness :
  faults favorites_1_5 = []
  /\ fst (Storage.getFavorites
            (snd (Storage.saveFavorites (Arr [Str "9"]) favorites_1_5)))
     = Ok (Arr [Str "9"])
  /\ fst (Storage.getMyRecipes
            (snd (Storage.saveFavorites (Arr [Str "9"]) favorites_1_5)))
     = fst (Storage.getMyRecipes favorites_1_5)
  /\ fst (Storage.getMyRecipes
            (snd (Storage.saveMyRecipes (Arr [Str "9"]) favorites_1_5)))
     = Ok (Arr [Str "9"])
  /\ fst (Storage.getFavorites
            (snd (Storage.saveMyRecipes (Arr [Str "9"]) favorites_1_5)))
     = fst (Storage.getFavorites favorites_1_5).
Proof.
  assert (H : faults favorites_1_5 = []) by reflexivity.
  split; [exact H|].
  exact (save_then_get (Arr [Str "9"]) favorites_1_5 H).
Defined.

(** *** What each operation can touch *)

Lemma touches_only_refl (key : string) (w : World) : touches_only key w w.
Proof. by intros k _. Qed.

Lemma touches_only_trans (key : string) (w1 w2 w3 : World) :
  touches_only key w1 w2 -> touches_only key w2 w3 -> touches_only key w1 w3.
Proof. intros H12 H23 k Hk. by rewrite (H23 k Hk), (H12 k Hk). Qed.

Lemma touches_only_same_disk (key : string) (w w' : World) :
  disk w' = disk w -> touches_only key w w'.
Proof. intros H k _. by rewrite H. Qed.

Lemma reader_same_disk (key msg : string) (w : World) :
  disk (snd (reader key msg w)) = disk w.
Proof.
  destruct (reader_spec key msg w) as (v & w1 & -> & Hd & _). exact Hd.
Qed.

Lemma writer_touches_only (key msg : string) (v : value) (w : World) :
  touches_only key w (snd (writer key msg v w)).
Proof.
  destruct w as [d fs c con].
  unfold writer, try_catch, AsyncStorage_setItem, next_fault.
  cbn [faults disk clock console].
  destruct fs as [|[] fs]; cbn [snd disk faults clock console];
    intros k Hk; cbn [disk]; try reflexivity;
    by rewrite lookup_insert_ne.
Qed.

(** Running [body] under a handler that only logs. *)
Lemma try_log_touches_only {A} (key msg : string) (body : M A) (a : A)
      (w : World) :
  touches_only key w (snd (body w)) ->
  touches_only key w
    (snd (try_catch body (fun _ => console_error msg;; ret a) w)).
Proof.
  unfold try_catch. destruct (body w) as [[x|e] w1]; [done|].
  intros H k Hk. exact (H k Hk).
Qed.

Lemma try_log_unit_touches_only (key msg : string) (body : M unit)
      (w : World) :
  touches_only key w (snd (body w)) ->
  touches_only key w (snd (try_catch body (fun _ => console_error msg) w)).
Proof.
  unfold try_catch. destruct (body w) as [[x|e] w1]; [done|].
  intros H k Hk. exact (H k Hk).
Qed.

Ltac read_step key msg w :=
  let v := fresh "v" in
  let w1 := fresh "w" in
  let E := fresh "E" in
  let Hd := fresh "Hd" in
  destruct (reader_spec key msg w) as (v & w1 & E & Hd & _);
  unfold bind; rewrite E;
  destruct v as [| | | |?l|]; cbn [as_array ret throw lift snd];
  try (by apply touches_only_same_disk).

Lemma toggleFavorite_touches_only (x : string) (w : World) :
  touches_only Storage.FAVORITES_KEY w (snd (Storage.toggleFavorite x w)).
Proof.
  unfold Storage.toggleFavorite. apply try_log_touches_only.
  change Storage.getFavorites
    with (reader Storage.FAVORITES_KEY "Error reading favorites:").
  read_step Storage.FAVORITES_KEY "Error reading favorites:" w.
  cbv zeta.
  change (Storage.saveFavorites ?u)
    with (writer Storage.FAVORITES_KEY "Error saving favorites:" u).
  match goal with
  | |- context [writer ?k ?m ?u ?w1] =>
      pose proof (writer_touches_only k m u w1) as Hw;
      destruct (writer k m u w1) as [[[]|e] w2]
  end; cbn [snd] in *;
    (eapply touches_only_trans; [by apply touches_only_same_disk | exact Hw]).
Qed.

Lemma addMyRecipe_touches_only (r : object) (w : World) :
  touches_only Storage.MY_RECIPES_KEY w (snd (Storage.addMyRecipe r w)).
Proof.
  unfold Storage.addMyRecipe. apply try_log_touches_only.
  change Storage.getMyRecipes
    with (reader Storage.MY_RECIPES_KEY "Error reading my recipes:").
  read_step Storage.MY_RECIPES_KEY "Error reading my recipes:" w;
    cbn [Date_now]; cbv zeta; cbn [as_array ret throw snd];
    try (by apply touches_only_same_disk).
  change (Storage.saveMyRecipes ?u)
    with (writer Storage.MY_RECIPES_KEY "Error saving my recipes:" u).
  match goal with
  | |- context [writer ?k ?m ?u ?w1] =>
      pose proof (writer_touches_only k m u w1) as Hw;
      destruct (writer k m u w1) as [[[]|e] w2]
  end; cbn [snd] in *;
    (eapply touches_only_trans; [by apply touches_only_same_disk | exact Hw]).
Qed.

Lemma updateMyRecipe_touches_only (r : object) (w : World) :
  touches_only Storage.MY_RECIPES_KEY w (snd (Storage.updateMyRecipe r w)).
Proof.
  unfold Storage.updateMyRecipe. apply try_log_unit_touches_only.
  change Storage.getMyRecipes
    with (reader Storage.MY_RECIPES_KEY "Error reading my recipes:").
  read_step Storage.MY_RECIPES_KEY "Error reading my recipes:" w.
  destruct (findIndex _ l) as [index|e]; cbn [snd];
    [|by apply touches_only_same_disk].
  destruct (index >? -1); cbn [ret snd]; [|by apply touches_only_same_disk].
  change (Storage.saveMyRecipes ?u)
    with (writer Storage.MY_RECIPES_KEY "Error saving my recipes:" u).
  eapply touches_only_trans;
    [by apply touches_only_same_disk | apply writer_touches_only].
Qed.

Lemma deleteMyRecipe_touches_only (i : string) (w : World) :
  touches_only Storage.MY_RECIPES_KEY w (snd (Storage.deleteMyRecipe i w)).
Proof.
  unfold Storage.deleteMyRecipe. apply try_log_unit_touches_only.
  change Storage.getMyRecipes
    with (reader Storage.MY_RECIPES_KEY "Error reading my recipes:").
  read_step Storage.MY_RECIPES_KEY "Error reading my recipes:" w.
  destruct (filter_js _ l) as [filtered|e]; cbn [snd];
    [|by apply touches_only_same_disk].
  change (Storage.saveMyRecipes ?u)
    with (writer Storage.MY_RECIPES_KEY "Error saving my recipes:" u).
  eapply touches_only_trans;
    [by apply touches_only_same_disk | apply writer_touches_only].
Qed.

(** In every world, whatever is rejected: the two readers leave the store as
    it is; [saveFavorites] and [toggleFavorite] change no entry but the
    favorites; [saveMyRecipes], [addMyRecipe], [updateMyRecipe] and
    [deleteMyRecipe] change no entry but the user recipes. *)
Theorem storage_footprint (w : World) :
  disk (snd (Storage.getFavorites w)) = disk w
  /\ disk (snd (Storage.getMyRecipes w)) = disk w
  /\ (forall v, touches_only Storage.FAVORITES_KEY w
                  (snd (Storage.saveFavorites v w)))
  /\ (forall x, touches_only Storage.FAVORITES_KEY w
                  (snd (Storage.toggleFavorite x w)))
  /\ (forall v, touches_only Storage.MY_RECIPES_KEY w
                  (snd (Storage.saveMyRecipes v w)))
  /\ (forall r, touches_only Storage.MY_RECIPES_KEY w
                  (snd (Storage.addMyRecipe r w)))
  /\ (forall r, touches_only Storage.MY_RECIPES_KEY w
                  (snd (Storage.updateMyRecipe r w)))
  /\ (forall i, touches_only Storage.MY_RECIPES_KEY w
                  (snd (Storage.deleteMyRecipe i w))).
Proof.
  split; [apply (reader_same_disk Storage.FAVORITES_KEY)|].
  split; [apply (reader_same_disk Storage.MY_RECIPES_KEY)|].
  split; [intros v; apply (writer_touches_only Storage.FAVORITES_KEY)|].
  split; [intros x; apply toggleFavorite_touches_only|].
  split; [intros v; apply (writer_touches_only Storage.MY_RECIPES_KEY)|].
  split; [intros r; apply addMyRecipe_touches_only|].
  split; [intros r; apply updateMyRecipe_touches_only
         |intros i; apply deleteMyRecipe_touches_only].
Qed.

(** *** Toggling a favorite that is present *)

Lemma indexOf_first (l1 l2 : list string) (x : string) :
  x ∉ l1 ->
  indexOf (Str <$> (l1 ++ x :: l2)) (Str x) = Z.of_nat (length l1).
Proof.
  induction l1 as [|y l1 IH]; csimpl.
  - intros _. by rewrite String.eqb_refl.
  - intros H. apply not_elem_of_cons in H as [Hne Hnin].
    destruct (String.eqb_spec y x) as [->|_]; [done|].
    rewrite IH by done.
    destruct (Z.ltb_spec (Z.of_nat (length l1)) 0); lia.
Qed.

Lemma splice_middle (l1 l2 : list value) (x : value) :
  splice (l1 ++ x :: l2) (Z.of_nat (length l1)) 1 = l1 ++ l2.
Proof.
  unfold splice. rewrite Nat2Z.id. change (Z.to_nat 1) with 1%nat.
  rewrite take_app_length. f_equal.
  rewrite drop_app_ge by lia.
  by replace (length l1 + 1 - length l1)%nat with 1%nat by lia.
Qed.

(** Toggling an id that is among the stored favorites removes its first
    occurrence and nothing else, the others keeping their order; an id that
    was stored more than once is therefore still a favorite afterwards. *)
Theorem toggleFavorite_present (x : string) (l1 l2 : list string) (w : World) :
  faults w = [] ->
  stored Storage.FAVORITES_KEY w = Some (Arr (Str <$> (l1 ++ x :: l2))) ->
  x ∉ l1 ->
  exists w' : World,
    Storage.toggleFavorite x w = (Ok (Arr (Str <$> (l1 ++ l2))), w')
    /\ stored Storage.FAVORITES_KEY w' = Some (Arr (Str <$> (l1 ++ l2)))
    /\ (x ∈ (l1 ++ l2) <-> x ∈ l2).
Proof.
  intros Hq Hs Hx.
  pose proof (toggleFavorite_quiet w _ x Hq Hs) as H. cbv zeta in H.
  rewrite (indexOf_first _ _ _ Hx) in H.
  replace (Z.of_nat (length l1) >? -1) with true in H
    by (symmetry; apply Z.gtb_lt; lia).
  rewrite fmap_app, fmap_cons in H.
  replace (Z.of_nat (length l1)) with (Z.of_nat (length (Str <$> l1))) in H
    by (by rewrite length_fmap).
  rewrite splice_middle, <- fmap_app in H.
  eexists. split; [exact H|]. split; [apply stored_write|].
  rewrite elem_of_app. tauto.
Qed.

Lemma toggleFavorite_present_witness :
  faults favorites_1_5 = []
  /\ stored Storage.FAVORITES_KEY favorites_1_5
     = Some (Arr (Str <$> ([] ++ "1" :: ["5"])))
  /\ ("1" ∉ @nil string)
  /\ exists w' : World,
       Storage.toggleFavorite "1" favorites_1_5
       = (Ok (Arr (Str <$> ([] ++ ["5"]))), w')
       /\ stored Storage.FAVORITES_KEY w' = Some (Arr (Str <$> ([] ++ ["5"])))
       /\ ("1" ∈ ([] ++ ["5"]) <-> "1" ∈ ["5"]).
Proof.
  assert (H1 : faults favorites_1_5 = []) by reflexivity.
  assert (H2 : stored Storage.FAVORITES_KEY favorites_1_5
               = Some (Arr (Str <$> ([] ++ "1" :: ["5"]))))
    by (vm_compute; reflexivity).
  assert (H3 : "1" ∉ @nil string) by compute_done.
  split; [exact H1|]. split; [exact H2|]. split; [exact H3|].
  exact (toggleFavorite_present "1" [] ["5"] favorites_1_5 H1 H2 H3).
Defined.

(** One toggle, whichever way it goes. *)
Lemma toggleFavorite_cases (x : string) (favs : list string) (w : World) :
  faults w = [] ->
  stored Storage.FAVORITES_KEY w = Some (Arr (Str <$> favs)) ->
  exists (favs' : list string),
    Storage.toggleFavorite x w
    = (Ok (Arr (Str <$> favs')), write Storage.FAVORITES_KEY (Arr (Str <$> favs')) w)
    /\ (((x ∉ favs) /\ favs' = favs ++ [x])
        \/ (exists l1 l2, favs = l1 ++ x :: l2 /\ (x ∉ l1) /\ favs' = l1 ++ l2)).
Proof.
  intros Hq Hs.
  pose proof (toggleFavorite_quiet w _ x Hq Hs) as H. cbv zeta in H.
  destruct (decide (x ∈ favs)) as [Hin|Hnin].
  - apply list_elem_of_split_l in Hin as (l1 & l2 & -> & Hx).
    exists (l1 ++ l2). split; [|right; by eauto].
    rewrite (indexOf_first _ _ _ Hx) in H.
    replace (Z.of_nat (length l1) >? -1) with true in H
      by (symmetry; apply Z.gtb_lt; lia).
    rewrite fmap_app, fmap_cons in H.
    replace (Z.of_nat (length l1)) with (Z.of_nat (length (Str <$> l1))) in H
      by (by rewrite length_fmap).
    by rewrite splice_middle, <- fmap_app in H.
  - exists (favs ++ [x]). split; [|by left].
    rewrite (indexOf_absent _ _ Hnin) in H. cbn [Z.gtb Z.compare] in H.
    unfold push in H. by rewrite fmap_app.
Qed.

(** The stored favorites stay free of duplicates under a toggle, which flips
    the membership of the toggled id and of no other. *)
Theorem toggleFavorite_NoDup (x : string) (favs : list string) (w : World) :
  faults w = [] ->
  stored Storage.FAVORITES_KEY w = Some (Arr (Str <$> favs)) ->
  NoDup favs ->
  exists (favs' : list string) (w' : World),
    Storage.toggleFavorite x w = (Ok (Arr (Str <$> favs')), w')
    /\ stored Storage.FAVORITES_KEY w' = Some (Arr (Str <$> favs'))
    /\ NoDup favs'
    /\ (x ∈ favs' <-> x ∉ favs)
    /\ (forall y : string, y ≠ x -> y ∈ favs' <-> y ∈ favs).
Proof.
  intros Hq Hs Hnd.
  destruct (toggleFavorite_cases x favs w Hq Hs) as (favs' & Hrun & Hcase).
  exists favs', (write Storage.FAVORITES_KEY (Arr (Str <$> favs')) w).
  split; [exact Hrun|]. split; [apply stored_write|].
  destruct Hcase as [[Hnin ->]|(l1 & l2 & -> & Hx & ->)].
  - split; [|split].
    + apply NoDup_app. split; [done|]. split; [|apply NoDup_singleton].
      intros y Hy Hy'. apply list_elem_of_singleton in Hy' as ->. done.
    + rewrite elem_of_app, list_elem_of_singleton. tauto.
    + intros y Hy. rewrite elem_of_app, list_elem_of_singleton. tauto.
  - apply NoDup_app in Hnd as (Hn1 & Hdisj & Hn2).
    apply NoDup_cons in Hn2 as [Hx2 Hn2].
    split; [|split].
    + apply NoDup_app. split; [done|]. split; [|done].
      intros y Hy Hy'. apply (Hdisj y Hy). by right.
    + rewrite !elem_of_app, elem_of_cons. tauto.
    + intros y Hy. rewrite !elem_of_app, elem_of_cons. tauto.
Qed.

Lemma toggleFavorite_NoDup_witness :
  faults favorites_1_5 = []
  /\ stored Storage.FAVORITES_KEY favorites_1_5 = Some (Arr (Str <$> ["1"; "5"]))
  /\ NoDup ["1"; "5"]
  /\ exists (favs' : list string) (w' : World),
       Storage.toggleFavorite "5" favorites_1_5 = (Ok (Arr (Str <$> favs')), w')
       /\ stored Storage.FAVORITES_KEY w' = Some (Arr (Str <$> favs'))
       /\ NoDup favs'
       /\ ("5" ∈ favs' <-> "5" ∉ ["1"; "5"])
       /\ (forall y : string, y ≠ "5" -> y ∈ favs' <-> y ∈ ["1"; "5"]).
Proof.
  assert (H1 : faults favorites_1_5 = []) by reflexivity.
  assert (H2 : stored Storage.FAVORITES_KEY favorites_1_5
               = Some (Arr (Str <$> ["1"; "5"]))) by (vm_compute; reflexivity).
  assert (H3 : NoDup ["1"; "5"]) by compute_done.
  split; [exact H1|]. split; [exact H2|]. split; [exact H3|].
  exact (toggleFavorite_NoDup "5" ["1"; "5"] favorites_1_5 H1 H2 H3).
Defined.

Lemma first_split_unique (x : string) (l1 l2 k1 k2 : list string) :
  l1 ++ x :: l2 = k1 ++ x :: k2 -> x ∉ l1 -> x ∉ k1 -> k1 = l1 /\ k2 = l2.
Proof.
  revert k1. induction l1 as [|a l1 IH]; intros [|b k1] Heq Hl Hk;
    simplify_eq/=.
  - done.
  - exfalso. apply Hk. left.
  - exfalso. apply Hl. left.
  - apply not_elem_of_cons in Hl as [_ Hl].
    apply not_elem_of_cons in Hk as [_ Hk].
    match goal with
    | H : l1 ++ _ = k1 ++ _ |- _ => destruct (IH k1 H Hl Hk) as [-> ->]
    end.
    done.
Qed.

(** Un-favoriting and favoriting again does not restore the order: the id
    comes back last. *)
Theorem toggleFavorite_twice_present (x : string) (l1 l2 : list string)
        (w : World) :
  faults w = [] ->
  stored Storage.FAVORITES_KEY w = Some (Arr (Str <$> (l1 ++ x :: l2))) ->
  NoDup (l1 ++ x :: l2) ->
  exists w1 w2 : World,
    Storage.toggleFavorite x w = (Ok (Arr (Str <$> (l1 ++ l2))), w1)
    /\ Storage.toggleFavorite x w1 = (Ok (Arr (Str <$> (l1 ++ l2 ++ [x]))), w2)
    /\ stored Storage.FAVORITES_KEY w2 = Some (Arr (Str <$> (l1 ++ l2 ++ [x]))).
Proof.
  intros Hq Hs Hnd.
  apply NoDup_app in Hnd as (Hn1 & Hdisj & Hn2).
  apply NoDup_cons in Hn2 as [Hx2 Hn2].
  assert (Hx1 : x ∉ l1) by (intros Hin; apply (Hdisj x Hin); left).
  destruct (toggleFavorite_cases x _ w Hq Hs) as (favs' & Hrun & Hcase).
  destruct Hcase as [[Hnin _]|(k1 & k2 & Heq & Hk & ->)].
  { exfalso. apply Hnin. rewrite elem_of_app, elem_of_cons. tauto. }
  destruct (first_split_unique x l1 l2 k1 k2 Heq Hx1 Hk) as [-> ->].
  set (w1 := write Storage.FAVORITES_KEY (Arr (Str <$> (l1 ++ l2))) w) in *.
  assert (Hq1 : faults w1 = []) by done.
  assert (Hs1 : stored Storage.FAVORITES_KEY w1 = Some (Arr (Str <$> (l1 ++ l2))))
    by apply stored_write.
  destruct (toggleFavorite_cases x _ w1 Hq1 Hs1) as (favs2 & Hrun2 & Hcase2).
  destruct Hcase2 as [[_ ->]|(k1 & k2 & Heq2 & _ & _)].
  - exists w1. eexists. rewrite <- app_assoc in Hrun2.
    split; [exact Hrun|]. split; [exact Hrun2|]. apply stored_write.
  - exfalso. assert (Hin : x ∈ l1 ++ l2).
    { rewrite Heq2, elem_of_app, elem_of_cons. tauto. }
    apply elem_of_app in Hin as [Hin|Hin]; done.
Qed.

Lemma toggleFavorite_twice_present_witness :
  faults favorites_1_5 = []
  /\ stored Storage.FAVORITES_KEY favorites_1_5
     = Some (Arr (Str <$> ([] ++ "1" :: ["5"])))
  /\ NoDup ([] ++ "1" :: ["5"])
  /\ exists w1 w2 : World,
       Storage.toggleFavorite "1" favorites_1_5
       = (Ok (Arr (Str <$> ([] ++ ["5"]))), w1)
       /\ Storage.toggleFavorite "1" w1
          = (Ok (Arr (Str <$> ([] ++ ["5"] ++ ["1"]))), w2)
       /\ stored Storage.FAVORITES_KEY w2
          = Some (Arr (Str <$> ([] ++ ["5"] ++ ["1"]))).
Proof.
  assert (H1 : faults favorites_1_5 = []) by reflexivity.
  assert (H2 : stored Storage.FAVORITES_KEY favorites_1_5
               = Some (Arr (Str <$> ([] ++ "1" :: ["5"]))))
    by (vm_compute; reflexivity).
  assert (H3 : NoDup ([] ++ "1" :: ["5"])) by compute_done.
  split; [exact H1|]. split; [exact H2|]. split; [exact H3|].
  exact (toggleFavorite_twice_present "1" [] ["5"] favorites_1_5 H1 H2 H3).
Defined.

(** ** More on the user recipes *)

Lemma reader_clock (key msg : string) (w : World) :
  clock (snd (reader key msg w)) = clock w.
Proof.
  destruct w as [d fs c con].
  unfold reader, try_catch, bind, AsyncStorage_getItem, next_fault.
  cbn [faults disk clock console].
  destruct fs as [|[] fs]; cbn [disk faults clock console]; try reflexivity;
    by destruct (d !! key) as [[u|]|].
Qed.

Lemma addMyRecipe_returned_id (r saved : object) (w : World) :
  fst (Storage.addMyRecipe r w) = Ok (Obj saved) ->
  saved !! "id" = Some (Str ("user_" +:+ Number_toString (clock w))).
Proof.
  unfold Storage.addMyRecipe, try_catch, bind.
  change Storage.getMyRecipes
    with (reader Storage.MY_RECIPES_KEY "Error reading my recipes:").
  pose proof (reader_clock Storage.MY_RECIPES_KEY "Error reading my recipes:" w)
    as Hc.
  destruct (reader _ _ w) as [[v|e] w1]; cbn [snd] in Hc;
    cbn [Date_now]; [|discriminate].
  destruct v as [| | | |l|]; cbn [as_array ret throw console_error fst];
    try discriminate.
  destruct (Storage.saveMyRecipes _ w1) as [[[]|e] w2]; cbn [fst];
    [|discriminate].
  intros [= <-]. rewrite Hc.
  by rewrite lookup_insert_ne, lookup_insert_eq.
Qed.

(** The generated id is a function of the clock alone, and an injective
    one: two records get the same id exactly when they are created at the
    same millisecond. *)
Theorem addMyRecipe_ids_by_clock (r1 r2 saved1 saved2 : object)
        (w1 w2 : World) :
  fst (Storage.addMyRecipe r1 w1) = Ok (Obj saved1) ->
  fst (Storage.addMyRecipe r2 w2) = Ok (Obj saved2) ->
  (saved1 !! "id" = saved2 !! "id" <-> clock w1 = clock w2).
Proof.
  intros H1 H2.
  rewrite (addMyRecipe_returned_id _ _ _ H1), (addMyRecipe_returned_id _ _ _ H2).
  split.
  - intros [= H]. by apply Number_toString_inj.
  - by intros ->.
Qed.

Lemma addMyRecipe_ids_by_clock_witness :
  fst (Storage.addMyRecipe tacos empty_world)
  = Ok (Obj (<["category" := Str "myfood"]>
               (<["id" := Str "user_1700000000000"]> tacos)))
  /\ fst (Storage.addMyRecipe tacos later_world)
     = Ok (Obj (<["category" := Str "myfood"]>
                  (<["id" := Str "user_1700000000001"]> tacos)))
  /\ ((<["category" := Str "myfood"]>
         (<["id" := Str "user_1700000000000"]> tacos) : object) !! "id"
      = (<["category" := Str "myfood"]>
           (<["id" := Str "user_1700000000001"]> tacos) : object) !! "id"
      <-> clock empty_world = clock later_world).
Proof.
  assert (H1 : fst (Storage.addMyRecipe tacos empty_world)
               = Ok (Obj (<["category" := Str "myfood"]>
                            (<["id" := Str "user_1700000000000"]> tacos))))
    by (vm_compute; reflexivity).
  assert (H2 : fst (Storage.addMyRecipe tacos later_world)
               = Ok (Obj (<["category" := Str "myfood"]>
                            (<["id" := Str "user_1700000000001"]> tacos))))
    by (vm_compute; reflexivity).
  split; [exact H1|]. split; [exact H2|].
  exact (addMyRecipe_ids_by_clock _ _ _ _ _ _ H1 H2).
Defined.

(** *** Running the operations on stored records *)

Lemma write_write (key : string) (v v' : value) (w : World) :
  write key v' (write key v w) = write key v' w.
Proof. unfold write. cbn [disk faults clock console]. by rewrite insert_insert_eq. Qed.

Lemma write_stored (key : string) (v : value) (w : World) :
  disk w !! key = Some (JsonText v) -> write key v w = w.
Proof.
  intros H. destruct w as [d fs c con]. unfold write.
  cbn [disk faults clock console] in *. by rewrite insert_id.
Qed.

Lemma addMyRecipe_quiet (recipe : object) (l : list value) (w : World) :
  faults w = [] ->
  stored Storage.MY_RECIPES_KEY w = Some (Arr l) ->
  let saved : object :=
    <["category" := Str "myfood"]>
      (<["id" := Str ("user_" +:+ Number_toString (clock w))]> recipe) in
  Storage.addMyRecipe recipe w
  = (Ok (Obj saved), write Storage.MY_RECIPES_KEY (Arr (l ++ [Obj saved])) w).
Proof.
  intros Hq Hs. unfold Storage.addMyRecipe, try_catch, bind.
  rewrite (getMyRecipes_quiet w Hq _ Hs). cbn [Date_now as_array ret].
  by rewrite (saveMyRecipes_quiet w Hq).
Qed.

Lemma strict_eq_eq (a b : option value) : strict_eq a b = true -> a = b.
Proof.
  destruct a as [[]|], b as [[]|]; cbn; try discriminate; try done.
  - intros H. apply Bool.eqb_prop in H. by subst.
  - intros H. apply Z.eqb_eq in H. by subst.
  - intros H. apply String.eqb_eq in H. by subst.
Qed.

(** The search of [updateMyRecipe] over records: nothing, or the first
    record whose id is strictly equal to the one sought. *)
Lemma findIndex_records (id : option value) (rs : list object) :
  findIndex (Storage.has_id id) (Obj <$> rs) = Ok (-1)
  \/ exists rs1 old rs2,
       rs = rs1 ++ old :: rs2
       /\ strict_eq (old !! "id") id = true
       /\ findIndex (Storage.has_id id) (Obj <$> rs)
          = Ok (Z.of_nat (length rs1)).
Proof.
  induction rs as [|r rs IH]; [by left|].
  rewrite fmap_cons. cbn [findIndex].
  change (Storage.has_id id (Obj r)) with (Ok (strict_eq (r !! "id") id)).
  destruct (strict_eq (r !! "id") id) eqn:E.
  - right. by exists [], r, rs.
  - destruct IH as [->|(rs1 & old & rs2 & -> & Hid & ->)]; [by left|].
    right. exists (r :: rs1), old, rs2. split; [done|]. split; [done|].
    destruct (Z.ltb_spec (Z.of_nat (length rs1)) 0); [lia|].
    cbn [length]. f_equal. lia.
Qed.

(** [updateMyRecipe] on stored records, whatever the update holds. *)
Lemma updateMyRecipe_records (upd : object) (rs : list object) (w : World) :
  faults w = [] ->
  stored Storage.MY_RECIPES_KEY w = Some (Arr (Obj <$> rs)) ->
  Storage.updateMyRecipe upd w = (Ok tt, w)
  \/ exists rs1 old rs2,
       rs = rs1 ++ old :: rs2
       /\ strict_eq (old !! "id") (upd !! "id") = true
       /\ findIndex (Storage.has_id (upd !! "id")) (Obj <$> rs)
          = Ok (Z.of_nat (length rs1))
       /\ Storage.updateMyRecipe upd w
          = (Ok tt, write Storage.MY_RECIPES_KEY
                      (Arr (Obj <$> (rs1 ++ (upd ∪ old) :: rs2))) w).
Proof.
  intros Hq Hs. unfold Storage.updateMyRecipe, try_catch, bind.
  rewrite (getMyRecipes_quiet w Hq _ Hs). cbn [as_array ret lift].
  destruct (findIndex_records (upd !! "id") rs)
    as [->|(rs1 & old & rs2 & -> & Hid & Hfind)]; [by left|].
  right. exists rs1, old, rs2. split; [done|]. split; [done|].
  split; [done|]. rewrite Hfind.
  replace (Z.of_nat (length rs1) >? -1) with true
    by (symmetry; apply Z.gtb_lt; lia).
  rewrite Nat2Z.id, !fmap_app, !fmap_cons.
  replace (length rs1) with (length (Obj <$> rs1)) by apply length_fmap.
  rewrite spread_at_middle, array_set_middle.
  by rewrite (saveMyRecipes_quiet w Hq).
Qed.

(** An update changes neither the number of stored records nor any id,
    whatever fields it carries: the record it overwrites is one whose id is
    the update's. *)
Theorem updateMyRecipe_keeps_ids (upd : object) (rs : list object) (w : World) :
  faults w = [] ->
  stored Storage.MY_RECIPES_KEY w = Some (Arr (Obj <$> rs)) ->
  exists (rs' : list object) (w' : World),
    Storage.updateMyRecipe upd w = (Ok tt, w')
    /\ stored Storage.MY_RECIPES_KEY w' = Some (Arr (Obj <$> rs'))
    /\ ids rs' = ids rs
    /\ length rs' = length rs.
Proof.
  intros Hq Hs.
  destruct (updateMyRecipe_records upd rs w Hq Hs)
    as [->|(rs1 & old & rs2 & -> & Hid & _ & ->)].
  - by exists rs, w.
  - eexists _, _. split; [done|]. split; [apply stored_write|].
    unfold ids. rewrite !fmap_app, !fmap_cons, !length_app. cbn [length].
    split; [|done]. do 2 f_equal.
    rewrite lookup_merge. apply strict_eq_eq in Hid.
    by destruct (upd !! "id").
Qed.

Lemma updateMyRecipe_keeps_ids_witness :
  faults two_recipes_world = []
  /\ stored Storage.MY_RECIPES_KEY two_recipes_world
     = Some (Arr (Obj <$> two_recipes))
  /\ exists (rs' : list object) (w' : World),
       Storage.updateMyRecipe calories_200 two_recipes_world = (Ok tt, w')
       /\ stored Storage.MY_RECIPES_KEY w' = Some (Arr (Obj <$> rs'))
       /\ ids rs' = ids two_recipes
       /\ length rs' = length two_recipes.
Proof.
  assert (H1 : faults two_recipes_world = []) by reflexivity.
  assert (H2 : stored Storage.MY_RECIPES_KEY two_recipes_world
               = Some (Arr (Obj <$> two_recipes))) by (vm_compute; reflexivity).
  split; [exact H1|]. split; [exact H2|].
  exact (updateMyRecipe_keeps_ids calories_200 two_recipes two_recipes_world H1 H2).
Defined.

Lemma findIndex_same_prefix (id : option value) (rs1 rs2 : list object)
      (old new : object) :
  strict_eq (new !! "id") id = true ->
  findIndex (Storage.has_id id) (Obj <$> (rs1 ++ old :: rs2))
  = Ok (Z.of_nat (length rs1)) ->
  findIndex (Storage.has_id id) (Obj <$> (rs1 ++ new :: rs2))
  = Ok (Z.of_nat (length rs1)).
Proof.
  intros Hnew. induction rs1 as [|r rs1 IH]; cbn [app length].
  - intros _. rewrite fmap_cons. cbn [findIndex].
    change (Storage.has_id id (Obj new)) with (Ok (strict_eq (new !! "id") id)).
    by rewrite Hnew.
  - rewrite !fmap_cons. cbn [findIndex].
    change (Storage.has_id id (Obj r)) with (Ok (strict_eq (r !! "id") id)).
    destruct (strict_eq (r !! "id") id); [intros [= H]; lia|].
    destruct (findIndex _ (Obj <$> (rs1 ++ old :: rs2))) as [j|e] eqn:Ej;
      [|discriminate].
    intros [= H].
    assert (j = Z.of_nat (length rs1)) as -> by (destruct (Z.ltb_spec j 0); lia).
    rewrite (IH eq_refl). by rewrite H.
Qed.

(** Saving the same update a second time changes nothing more: the world
    after two calls is the world after one. *)
Theorem updateMyRecipe_idempotent (upd : object) (rs : list object) (w : World) :
  faults w = [] ->
  stored Storage.MY_RECIPES_KEY w = Some (Arr (Obj <$> rs)) ->
  Storage.updateMyRecipe upd (snd (Storage.updateMyRecipe upd w))
  = (Ok tt, snd (Storage.updateMyRecipe upd w)).
Proof.
  intros Hq Hs.
  destruct (updateMyRecipe_records upd rs w Hq Hs)
    as [E|(rs1 & old & rs2 & -> & Hid & Hfind & E)]; rewrite E; cbn [snd].
  - exact E.
  - set (v1 := Arr (Obj <$> (rs1 ++ (upd ∪ old) :: rs2))).
    set (w1 := write Storage.MY_RECIPES_KEY v1 w).
    assert (Hq1 : faults w1 = []) by done.
    assert (Hs1 : stored Storage.MY_RECIPES_KEY w1 = Some v1) by apply stored_write.
    assert (Hnew : strict_eq ((upd ∪ old) !! "id") (upd !! "id") = true).
    { rewrite lookup_merge. apply strict_eq_eq in Hid as Hid'.
      destruct (upd !! "id"); [by rewrite <- Hid' at 1|done]. }
    pose proof (findIndex_same_prefix _ rs1 rs2 old (upd ∪ old) Hnew Hfind)
      as Hfind1.
    unfold Storage.updateMyRecipe, try_catch, bind.
    rewrite (getMyRecipes_quiet w1 Hq1 _ Hs1). unfold v1 at 1.
    cbn [as_array ret lift]. rewrite Hfind1.
    replace (Z.of_nat (length rs1) >? -1) with true
      by (symmetry; apply Z.gtb_lt; lia).
    rewrite Nat2Z.id, !fmap_app, !fmap_cons.
    replace (length rs1) with (length (Obj <$> rs1)) by apply length_fmap.
    rewrite spread_at_middle, array_set_middle.
    rewrite (saveMyRecipes_quiet w1 Hq1).
    rewrite (assoc_L (∪) upd upd old), (idemp_L (∪) upd).
    unfold w1. rewrite write_write. unfold v1.
    by rewrite !fmap_app, !fmap_cons.
Qed.

Lemma updateMyRecipe_idempotent_witness :
  faults two_recipes_world = []
  /\ stored Storage.MY_RECIPES_KEY two_recipes_world
     = Some (Arr (Obj <$> two_recipes))
  /\ Storage.updateMyRecipe calories_200
       (snd (Storage.updateMyRecipe calories_200 two_recipes_world))
     = (Ok tt, snd (Storage.updateMyRecipe calories_200 two_recipes_world)).
Proof.
  assert (H1 : faults two_recipes_world = []) by reflexivity.
  assert (H2 : stored Storage.MY_RECIPES_KEY two_recipes_world
               = Some (Arr (Obj <$> two_recipes))) by (vm_compute; reflexivity).
  split; [exact H1|]. split; [exact H2|].
  exact (updateMyRecipe_idempotent calories_200 two_recipes two_recipes_world H1 H2).
Defined.

(** *** Deleting *)

Lemma others_idem (i : string) (rs : list object) :
  others i (others i rs) = others i rs.
Proof. apply others_absent, others_clean. Qed.

Lemma others_comm (i j : string) (rs : list object) :
  others i (others j rs) = others j (others i rs).
Proof.
  induction rs as [|r rs IH]; [done|].
  cbn [others List.filter]. fold (others i rs) (others j rs).
  destruct (id_is j r) eqn:Ej, (id_is i r) eqn:Ei; cbn [negb];
    cbn [others List.filter];
    fold (others i (others j rs)) (others j (others i rs));
    fold (others i rs) (others j rs);
    rewrite ?Ei, ?Ej; cbn [negb]; by rewrite ?IH.
Qed.

(** Deleting the same id twice leaves the world that one delete leaves, and
    two deletes store the same records in either order. *)
Theorem deleteMyRecipe_idempotent_commutes (i j : string) (rs : list object)
        (w : World) :
  faults w = [] ->
  stored Storage.MY_RECIPES_KEY w = Some (Arr (Obj <$> rs)) ->
  snd (Storage.deleteMyRecipe i (snd (Storage.deleteMyRecipe i w)))
  = snd (Storage.deleteMyRecipe i w)
  /\ snd (Storage.deleteMyRecipe j (snd (Storage.deleteMyRecipe i w)))
     = snd (Storage.deleteMyRecipe i (snd (Storage.deleteMyRecipe j w))).
Proof.
  intros Hq Hs.
  assert (Hrun : forall a b : string,
             snd (Storage.deleteMyRecipe b (snd (Storage.deleteMyRecipe a w)))
             = write Storage.MY_RECIPES_KEY (Arr (Obj <$> others b (others a rs))) w).
  { intros a b. rewrite (deleteMyRecipe_quiet a rs w Hq Hs). cbn [snd].
    rewrite (deleteMyRecipe_quiet b (others a rs)
               (write Storage.MY_RECIPES_KEY (Arr (Obj <$> others a rs)) w)
               Hq (stored_write _ _ _)).
    cbn [snd]. apply write_write. }
  split.
  - rewrite Hrun, others_idem. by rewrite (deleteMyRecipe_quiet i rs w Hq Hs).
  - by rewrite !Hrun, others_comm.
Qed.

Lemma deleteMyRecipe_idempotent_commutes_witness :
  faults three_recipes_world = []
  /\ stored Storage.MY_RECIPES_KEY three_recipes_world
     = Some (Arr (Obj <$> three_recipes))
  /\ snd (Storage.deleteMyRecipe "user_1"
            (snd (Storage.deleteMyRecipe "user_1" three_recipes_world)))
     = snd (Storage.deleteMyRecipe "user_1" three_recipes_world)
  /\ snd (Storage.deleteMyRecipe "user_3"
            (snd (Storage.deleteMyRecipe "user_1" three_recipes_world)))
     = snd (Storage.deleteMyRecipe "user_1"
              (snd (Storage.deleteMyRecipe "user_3" three_recipes_world))).
Proof.
  assert (H1 : faults three_recipes_world = []) by reflexivity.
  assert (H2 : stored Storage.MY_RECIPES_KEY three_recipes_world
               = Some (Arr (Obj <$> three_recipes))) by (vm_compute; reflexivity).
  split; [exact H1|]. split; [exact H2|].
  exact (deleteMyRecipe_idempotent_commutes "user_1" "user_3" three_recipes
           three_recipes_world H1 H2).
Defined.

(** Creating a record and deleting the id it was given stores the records
    that were there before, provided none of them had that id. *)
Theorem addMyRecipe_then_delete (recipe : object) (rs : list object) (w : World) :
  faults w = [] ->
  stored Storage.MY_RECIPES_KEY w = Some (Arr (Obj <$> rs)) ->
  no_record_with_id ("user_" +:+ Number_toString (clock w)) rs ->
  exists (saved : object) (w1 : World),
    Storage.addMyRecipe recipe w = (Ok (Obj saved), w1)
    /\ saved !! "id" = Some (Str ("user_" +:+ Number_toString (clock w)))
    /\ stored Storage.MY_RECIPES_KEY w1 = Some (Arr (Obj <$> (rs ++ [saved])))
    /\ stored Storage.MY_RECIPES_KEY
              (snd (Storage.deleteMyRecipe
                      ("user_" +:+ Number_toString (clock w)) w1))
       = Some (Arr (Obj <$> rs)).
Proof.
  intros Hq Hs Hfresh.
  pose proof (addMyRecipe_quiet recipe _ w Hq Hs) as Hadd. cbv zeta in Hadd.
  set (i := "user_" +:+ Number_toString (clock w)) in *.
  set (saved := <["category" := Str "myfood"]> (<["id" := Str i]> recipe)) in *.
  assert (Hid : saved !! "id" = Some (Str i)).
  { unfold saved. by rewrite lookup_insert_ne, lookup_insert_eq. }
  eexists saved, _. split; [exact Hadd|]. split; [exact Hid|].
  assert (Hs1 : stored Storage.MY_RECIPES_KEY
                  (write Storage.MY_RECIPES_KEY
                         (Arr ((Obj <$> rs) ++ [Obj saved])) w)
                = Some (Arr (Obj <$> (rs ++ [saved])))).
  { rewrite stored_write. by rewrite fmap_app. }
  split; [exact Hs1|].
  rewrite (deleteMyRecipe_quiet i (rs ++ [saved])
             (write Storage.MY_RECIPES_KEY (Arr ((Obj <$> rs) ++ [Obj saved])) w)
             Hq Hs1).
  cbn [snd].
  rewrite stored_write, others_app, (others_absent i rs Hfresh).
  cbn [others List.filter]. apply id_is_true in Hid. rewrite Hid. cbn [negb].
  by rewrite app_nil_r.
Qed.

Lemma addMyRecipe_then_delete_witness :
  faults two_recipes_world = []
  /\ stored Storage.MY_RECIPES_KEY two_recipes_world
     = Some (Arr (Obj <$> two_recipes))
  /\ no_record_with_id ("user_" +:+ Number_toString (clock two_recipes_world))
                       two_recipes
  /\ exists (saved : object) (w1 : World),
       Storage.addMyRecipe tacos two_recipes_world = (Ok (Obj saved), w1)
       /\ saved !! "id"
          = Some (Str ("user_" +:+ Number_toString (clock two_recipes_world)))
       /\ stored Storage.MY_RECIPES_KEY w1
          = Some (Arr (Obj <$> (two_recipes ++ [saved])))
       /\ stored Storage.MY_RECIPES_KEY
                 (snd (Storage.deleteMyRecipe
                         ("user_" +:+ Number_toString (clock two_recipes_world))
                         w1))
          = Some (Arr (Obj <$> two_recipes)).
Proof.
  assert (H1 : faults two_recipes_world = []) by reflexivity.
  assert (H2 : stored Storage.MY_RECIPES_KEY two_recipes_world
               = Some (Arr (Obj <$> two_recipes))) by (vm_compute; reflexivity).
  assert (H3 : no_record_with_id
                 ("user_" +:+ Number_toString (clock two_recipes_world))
                 two_recipes) by no_such_record.
  split; [exact H1|]. split; [exact H2|]. split; [exact H3|].
  exact (addMyRecipe_then_delete tacos two_recipes two_recipes_world H1 H2 H3).
Defined.

(** A stored entry that is [null] makes [deleteMyRecipe] fail inside its
    callback: the failure is logged and nothing is deleted, whichever id was
    asked for. *)
Theorem deleteMyRecipe_null_entry (i : string) (l : list value) (w : World) :
  faults w = [] ->
  stored Storage.MY_RECIPES_KEY w = Some (Arr l) ->
  Null ∈ l ->
  Storage.deleteMyRecipe i w
  = (Ok tt, mkWorld (disk w) (faults w) (clock w)
                    ("Error deleting recipe:" :: console w)).
Proof.
  intros Hq Hs Hnull. unfold Storage.deleteMyRecipe, try_catch, bind.
  rewrite (getMyRecipes_quiet w Hq _ Hs). cbn [as_array ret lift].
  assert (Hthrow : filter_js (Storage.lacks_id (Some (Str i))) l = Throw TypeError).
  { clear -Hnull. induction l as [|y l IH]; [by apply elem_of_nil in Hnull|].
    cbn [filter_js]. apply elem_of_cons in Hnull as [<-|Hin]; [done|].
    rewrite (IH Hin).
    by destruct (Storage.lacks_id (Some (Str i)) y) as [b|[]] eqn:E;
      [|destruct y; cbn in E; try discriminate..]. }
  by rewrite Hthrow.
Qed.

Lemma deleteMyRecipe_null_entry_witness :
  faults null_entry_world = []
  /\ stored Storage.MY_RECIPES_KEY null_entry_world
     = Some (Arr (Null :: (Obj <$> two_recipes)))
  /\ Null ∈ Null :: (Obj <$> two_recipes)
  /\ Storage.deleteMyRecipe "user_1" null_entry_world
     = (Ok tt, mkWorld (disk null_entry_world) (faults null_entry_world)
                       (clock null_entry_world)
                       ("Error deleting recipe:" :: console null_entry_world)).
Proof.
  assert (H1 : faults null_entry_world = []) by reflexivity.
  assert (H2 : stored Storage.MY_RECIPES_KEY null_entry_world
               = Some (Arr (Null :: (Obj <$> two_recipes))))
    by (vm_compute; reflexivity).
  assert (H3 : Null ∈ Null :: (Obj <$> two_recipes)) by left.
  split; [exact H1|]. split; [exact H2|]. split; [exact H3|].
  exact (deleteMyRecipe_null_entry "user_1" _ null_entry_world H1 H2 H3).
Defined.

(** ** The forms as a whole *)

Lemma reader_array_or_not (key msg : string) (w : World) :
  not_an_array key w
  \/ exists l w1,
       reader key msg w = (Ok (Arr l), w1)
       /\ disk w1 = disk w
       /\ faults w1 = tail (faults w).
Proof.
  destruct (reader_spec key msg w) as (v & w1 & E & Hd & Hf & Hun & Hv).
  destruct w as [d fs c con].
  unfold not_an_array, unreadable, rejected, served, stored in *.
  cbn [disk faults] in *.
  destruct fs as [|[] fs]; cbn [take lookup list_lookup] in *.
  - destruct (d !! key) as [[u|]|] eqn:Ed.
    + rewrite <- (Hv ltac:(constructor) u eq_refl) in *.
      destruct v; try (left; split; [constructor | by eauto]).
      right. by eauto.
    + rewrite (Hun ltac:(by right)) in E. right. by eauto.
    + rewrite (Hv ltac:(constructor) _ eq_refl) in E. right. by eauto.
  - rewrite (Hun ltac:(by left)) in E. right. by eauto.
  - assert (Hserved : Forall (fun b : bool => b = false) [false])
      by (by repeat constructor).
    destruct (d !! key) as [[u|]|] eqn:Ed.
    + rewrite <- (Hv Hserved u eq_refl) in *.
      destruct v; try (left; split; [done | by eauto]).
      right. by eauto.
    + rewrite (Hun ltac:(by right)) in E. right. by eauto.
    + rewrite (Hv Hserved _ eq_refl) in E. right. by eauto.
Qed.

Lemma addMyRecipe_array (recipe : object) (l : list value) (w w1 : World) :
  Storage.getMyRecipes w = (Ok (Arr l), w1) ->
  disk w1 = disk w ->
  faults w1 = tail (faults w) ->
  exists saved w2,
    Storage.addMyRecipe recipe w = (Ok (Obj saved), w2)
    /\ (rejected 1 w -> disk w2 = disk w).
Proof.
  intros E Hd Hf. unfold Storage.addMyRecipe, try_catch, bind.
  rewrite E. cbn [Date_now as_array ret].
  change (Storage.saveMyRecipes ?u)
    with (writer Storage.MY_RECIPES_KEY "Error saving my recipes:" u).
  match goal with
  | |- context [writer ?k ?m ?u w1] =>
      destruct (writer_spec k m u w1) as (w2 & -> & _ & Hrej & _)
  end.
  eexists _, w2. split; [reflexivity|].
  intros Hr. rewrite <- Hd. apply Hrej. by apply (rejected_tail w w1 0).
Qed.

(** What the Add form reports.  A blank name: the missing-information
    dialog, and the world is not touched.  Otherwise: failure exactly when
    the stored recipes read as something that is not an array, and success
    in every other world, also when the write is rejected and nothing has
    been stored. *)
Theorem Add_handleSave_outcome (f : Form) (w : World) :
  (trim (name f) = "" ->
   AddRecipeScreen.handleSave f w = (Ok MissingInformation, w))
  /\ (trim (name f) ≠ "" -> not_an_array Storage.MY_RECIPES_KEY w ->
      fst (AddRecipeScreen.handleSave f w) = Ok Failure)
  /\ (trim (name f) ≠ "" -> ¬ not_an_array Storage.MY_RECIPES_KEY w ->
      fst (AddRecipeScreen.handleSave f w) = Ok Success
      /\ (rejected 1 w ->
          disk (snd (AddRecipeScreen.handleSave f w)) = disk w)).
Proof.
  unfold AddRecipeScreen.handleSave.
  destruct (String.eqb_spec (trim (name f)) "") as [Hb|Hb].
  { split; [done|]. split; intros Hne; by destruct Hne. }
  split; [by intros Hb'|]. split; intros _ Harr.
  - unfold bind.
    pose proof (addMyRecipe_not_an_array (AddRecipeScreen.newRecipe f) w Harr) as H.
    destruct (Storage.addMyRecipe _ w) as [[v|e] w1]; cbn [fst] in H;
      [|discriminate].
    injection H as ->. reflexivity.
  - destruct (reader_array_or_not Storage.MY_RECIPES_KEY
                "Error reading my recipes:" w)
      as [Hn|(l & w1 & E & Hd & Hf)]; [done|].
    destruct (addMyRecipe_array (AddRecipeScreen.newRecipe f) l w w1 E Hd Hf)
      as (saved & w2 & Hadd & Hrej).
    unfold bind. rewrite Hadd. cbn [truthy ret fst snd]. by split.
Qed.

Lemma Add_handleSave_outcome_witness :
  AddRecipeScreen.handleSave (with_servings "2" (mkForm "  " "" "" "" "" "" "" ""))
                             empty_world
  = (Ok MissingInformation, empty_world)
  /\ fst (AddRecipeScreen.handleSave blank_form not_arrays_world) = Ok Failure
  /\ fst (AddRecipeScreen.handleSave blank_form write_rejected_world) = Ok Success
  /\ disk (snd (AddRecipeScreen.handleSave blank_form write_rejected_world))
     = disk write_rejected_world.
Proof.
  destruct (Add_handleSave_outcome
              (with_servings "2" (mkForm "  " "" "" "" "" "" "" "")) empty_world)
    as (Hblank & _).
  destruct (Add_handleSave_outcome blank_form not_arrays_world)
    as (_ & Hfail & _).
  destruct (Add_handleSave_outcome blank_form write_rejected_world)
    as (_ & _ & Hok).
  assert (Hname : trim (name blank_form) ≠ "") by (vm_compute; discriminate).
  assert (Hnot : not_an_array Storage.MY_RECIPES_KEY not_arrays_world).
  { split; [constructor|]. exists (Num 5). split; vm_compute; reflexivity. }
  assert (Harr : ¬ not_an_array Storage.MY_RECIPES_KEY write_rejected_world).
  { intros (_ & v & Hv & Ha). vm_compute in Hv. injection Hv as <-.
    discriminate Ha. }
  split; [apply Hblank; reflexivity|].
  split; [exact (Hfail Hname Hnot)|].
  destruct (Hok Hname Harr) as [Hs Hd].
  split; [exact Hs | apply Hd; reflexivity].
Defined.

Lemma updateMyRecipe_never_throws (upd : object) :
  never_throws (Storage.updateMyRecipe upd).
Proof. apply try_catch_never_throws. intros e. apply console_error_never_throws. Qed.

(** What the Edit form reports: the missing-information dialog for a blank
    name, the world not being touched; success otherwise, in every world,
    whether a record was updated or not. *)
Theorem Edit_handleSave_outcome (recipe : object) (f : Form) (w : World) :
  (trim (name f) = "" ->
   EditRecipeScreen.handleSave recipe f w = (Ok MissingInformation, w))
  /\ (trim (name f) ≠ "" ->
      fst (EditRecipeScreen.handleSave recipe f w) = Ok Success).
Proof.
  unfold EditRecipeScreen.handleSave.
  destruct (String.eqb_spec (trim (name f)) "") as [Hb|Hb].
  { split; [done|]. intros Hne; by destruct Hne. }
  split; [by intros Hb'|]. intros _. unfold bind.
  destruct (updateMyRecipe_never_throws
              (EditRecipeScreen.updatedRecipe recipe f) w) as ([] & w1 & ->).
  reflexivity.
Qed.

Lemma Edit_handleSave_outcome_witness :
  EditRecipeScreen.handleSave ∅ (mkForm "  " "" "" "" "" "" "" "") empty_world
  = (Ok MissingInformation, empty_world)
  /\ fst (EditRecipeScreen.handleSave ∅ blank_form not_arrays_world) = Ok Success.
Proof.
  destruct (Edit_handleSave_outcome ∅ (mkForm "  " "" "" "" "" "" "" "")
              empty_world) as (Hblank & _).
  destruct (Edit_handleSave_outcome ∅ blank_form not_arrays_world) as (_ & Hok).
  split; [apply Hblank; reflexivity|].
  apply Hok. vm_compute. discriminate.
Defined.

Lemma updatedRecipe_category (recipe : object) (f : Form) :
  EditRecipeScreen.updatedRecipe recipe f !! "category" = Some (Str "myfood").
Proof. unfold EditRecipeScreen.updatedRecipe. by destruct (recipe !! "id"). Qed.



Lemma all_myfood_others (i : string) (rs : list object) :
  all_myfood rs -> all_myfood (others i rs).
Proof.
  unfold all_myfood, others. rewrite !Forall_forall.
  intros H r Hin. apply H.
  apply list_elem_of_In, List.filter_In in Hin as [Hin _].
  by apply list_elem_of_In.
Qed.

(** The stored user recipes all stay in the category ["myfood"]: through a
    create, through a delete, and through a save of the Edit form, whatever
    record the form was opened on and whatever was typed. *)
Theorem user_recipes_stay_myfood (rs : list object) (w : World) :
  faults w = [] ->
  stored Storage.MY_RECIPES_KEY w = Some (Arr (Obj <$> rs)) ->
  all_myfood rs ->
  (forall recipe : object, exists rs',
      stored Storage.MY_RECIPES_KEY (snd (Storage.addMyRecipe recipe w))
      = Some (Arr (Obj <$> rs')) /\ all_myfood rs')
  /\ (forall i : string, exists rs',
        stored Storage.MY_RECIPES_KEY (snd (Storage.deleteMyRecipe i w))
        = Some (Arr (Obj <$> rs')) /\ all_myfood rs')
  /\ (forall (recipe : object) (f : Form), exists rs',
        stored Storage.MY_RECIPES_KEY
               (snd (EditRecipeScreen.handleSave recipe f w))
        = Some (Arr (Obj <$> rs')) /\ all_myfood rs').
Proof.
  intros Hq Hs Hall. split; [|split].
  - intros recipe.
    pose proof (addMyRecipe_quiet recipe _ w Hq Hs) as Hadd. cbv zeta in Hadd.
    rewrite Hadd. cbn [snd]. eexists (rs ++ [_]).
    split; [by rewrite stored_write, fmap_app|].
    apply Forall_app. split; [done|]. repeat constructor.
    unfold is_category. by rewrite lookup_insert_eq.
  - intros i. rewrite (deleteMyRecipe_quiet i rs w Hq Hs). cbn [snd].
    exists (others i rs). split; [apply stored_write|].
    by apply all_myfood_others.
  - intros recipe f. unfold EditRecipeScreen.handleSave.
    destruct (String.eqb (trim (name f)) ""); [by exists rs|].
    unfold bind.
    destruct (updateMyRecipe_records (EditRecipeScreen.updatedRecipe recipe f)
                rs w Hq Hs)
      as [->|(rs1 & old & rs2 & -> & _ & _ & ->)]; cbn [ret snd].
    + by exists rs.
    + eexists. split; [apply stored_write|].
      apply Forall_app in Hall as [H1 H2]. apply Forall_cons in H2 as [_ H2].
      apply Forall_app. split; [done|]. constructor; [|done].
      unfold is_category. by rewrite lookup_merge, updatedRecipe_category.
Qed.

Lemma user_recipes_stay_myfood_witness :
  faults noted_world = []
  /\ stored Storage.MY_RECIPES_KEY noted_world
     = Some (Arr (Obj <$> [noted_recipe]))
  /\ all_myfood [noted_recipe]
  /\ (forall recipe : object, exists rs',
        stored Storage.MY_RECIPES_KEY (snd (Storage.addMyRecipe recipe noted_world))
        = Some (Arr (Obj <$> rs')) /\ all_myfood rs')
  /\ (forall i : string, exists rs',
        stored Storage.MY_RECIPES_KEY (snd (Storage.deleteMyRecipe i noted_world))
        = Some (Arr (Obj <$> rs')) /\ all_myfood rs')
  /\ (forall (recipe : object) (f : Form), exists rs',
        stored Storage.MY_RECIPES_KEY
               (snd (EditRecipeScreen.handleSave recipe f noted_world))
        = Some (Arr (Obj <$> rs')) /\ all_myfood rs').
Proof.
  assert (H1 : faults noted_world = []) by reflexivity.
  assert (H2 : stored Storage.MY_RECIPES_KEY noted_world
               = Some (Arr (Obj <$> [noted_recipe]))) by (vm_compute; reflexivity).
  assert (H3 : all_myfood [noted_recipe]).
  { repeat constructor. }
  split; [exact H1|]. split; [exact H2|]. split; [exact H3|].
  exact (user_recipes_stay_myfood [noted_recipe] noted_world H1 H2 H3).
Defined.

Lemma updateMyRecipe_found (upd : object) (i : string)
      (rs1 rs2 : list object) (old : object) (w : World) :
  faults w = [] ->
  stored Storage.MY_RECIPES_KEY w = Some (Arr (Obj <$> (rs1 ++ old :: rs2))) ->
  upd !! "id" = Some (Str i) ->
  no_record_with_id i rs1 ->
  old !! "id" = Some (Str i) ->
  Storage.updateMyRecipe upd w
  = (Ok tt, write Storage.MY_RECIPES_KEY
              (Arr (Obj <$> (rs1 ++ (upd ∪ old) :: rs2))) w).
Proof.
  intros Hq Hs Hid Hno Hold.
  unfold Storage.updateMyRecipe, try_catch, bind.
  rewrite (getMyRecipes_quiet w Hq _ Hs). cbn [as_array ret lift].
  rewrite Hid, !fmap_app, !fmap_cons.
  rewrite (findIndex_first i rs1 old _ Hno Hold).
  replace (Z.of_nat (length rs1) >? -1) with true
    by (symmetry; apply Z.gtb_lt; lia).
  rewrite Nat2Z.id.
  replace (length rs1) with (length (Obj <$> rs1)) by apply length_fmap.
  rewrite spread_at_middle, array_set_middle.
  by rewrite (saveMyRecipes_quiet w Hq).
Qed.



(** ** From the stored record back to the form *)

Lemma join_with_cons (f : value -> result string) (sep : string) (x : value)
      (l : list value) :
  join_with f sep (x :: l)
  = match (match x with Null => Ok "" | _ => f x end) with
    | Throw e => Throw e
    | Ok s =>
        match l with
        | [] => Ok s
        | _ :: _ =>
            match join_with f sep l with
            | Throw e => Throw e
            | Ok t => Ok (s +:+ sep +:+ t)
            end
        end
    end.
Proof. reflexivity. Qed.

Lemma join_strings (sep : string) (l : list string) :
  join_with ToString sep (Str <$> l) = Ok (String.concat sep l).
Proof.
  induction l as [|x l IH]; [done|].
  rewrite fmap_cons, join_with_cons.
  destruct l as [|y l]; [done|].
  rewrite fmap_cons in *. by rewrite IH.
Qed.

Lemma contains_trimStart (c : ascii) (s : string) :
  contains c s = false -> contains c (trimStart s) = false.
Proof.
  induction s as [|d r IH]; [done|]. cbn [contains trimStart].
  intros H. destruct (is_ws d); [|done].
  apply orb_false_elim in H as [_ Hr]. auto.
Qed.

Lemma contains_trimEnd (c : ascii) (s : string) :
  contains c s = false -> contains c (trimEnd s) = false.
Proof.
  induction s as [|d r IH]; [done|]. rewrite trimEnd_cons. cbn [contains].
  intros H. apply orb_false_elim in H as [Hd Hr]. specialize (IH Hr).
  destruct (trimEnd r) as [|e t].
  - destruct (is_ws d); [done|]. cbn [contains]. by rewrite Hd.
  - cbn [contains] in *. by rewrite Hd, IH.
Qed.

Lemma lines_of_pieces (text : string) :
  Forall (fun line => line ≠ "" /\ trim line = line /\ contains LF line = false)
         (lines_of text).
Proof.
  unfold lines_of. rewrite filter_nonempty.
  apply Forall_forall. intros line Hin.
  apply list_elem_of_filter in Hin as [Hne Hin].
  apply list_elem_of_fmap in Hin as (raw & -> & Hraw).
  split; [done|]. split; [apply trim_idem|].
  unfold trim. apply contains_trimEnd, contains_trimStart.
  pose proof (split_pieces LF text) as Hp.
  rewrite Forall_forall in Hp. by apply Hp.
Qed.

Lemma lines_of_concat (l : list string) :
  Forall (fun line => line ≠ "" /\ trim line = line /\ contains LF line = false) l ->
  lines_of (String.concat (String LF "") l) = l.
Proof.
  intros Hall. destruct l as [|x l]; [reflexivity|].
  unfold lines_of. rewrite split_concat; [|done|].
  - rewrite filter_nonempty.
    induction Hall as [|y k (Hne & Htrim & _) _ IH]; [done|].
    rewrite fmap_cons, filter_cons, Htrim, decide_True by done.
    by rewrite IH.
  - eapply Forall_impl; [exact Hall|]. by intros y (_ & _ & Hy).
Qed.

(** A list of lines stored by a form comes back unchanged through the Edit
    form: the text the form shows for it is the lines joined by newlines,
    and the save transform of that text is the list again. *)
Theorem lines_round_trip (text : string) :
  EditRecipeScreen.lines_text (Some (Arr (Str <$> lines_of text)))
  = Ok (String.concat (String LF "") (lines_of text))
  /\ lines_of (String.concat (String LF "") (lines_of text)) = lines_of text.
Proof.
  split; [apply join_strings | apply lines_of_concat, lines_of_pieces].
Qed.

Lemma text_of_Num (n : Z) :
  EditRecipeScreen.text_of (Some (Num n))
  = Ok (if n =? 0 then "" else Number_toString n).
Proof. unfold EditRecipeScreen.text_of. cbn. by destruct (n =? 0). Qed.

Lemma parse_text_of_Num (n : Z) :
  parseInt (if n =? 0 then "" else Number_toString n)
  = if n =? 0 then None else Some n.
Proof. destruct (n =? 0); [reflexivity | apply parseInt_Number_toString]. Qed.

(** The numeric fields through the Edit form, left as they are shown, for
    stored integers that a JavaScript number holds exactly: the calories are
    saved back as they are; so are the servings, except 0, which is shown as
    blank and saved back as 1. *)
Theorem Edit_numeric_round_trip (recipe : object) (f : Form) (s c : Z)
        (st : EditRecipeScreen.State) :
  recipe !! "servings" = Some (Num s) ->
  recipe !! "calories" = Some (Num c) ->
  safe s ->
  safe c ->
  EditRecipeScreen.initialState recipe = Ok st ->
  let f' := with_servings (EditRecipeScreen.st_servings st)
              (with_calories (EditRecipeScreen.st_calories st) f) in
  EditRecipeScreen.updatedRecipe recipe f' !! "servings"
  = Some (Num (if s =? 0 then 1 else s))
  /\ EditRecipeScreen.updatedRecipe recipe f' !! "calories" = Some (Num c).
Proof.
  intros Hs Hc _ _ Hst. unfold EditRecipeScreen.initialState in Hst.
  rewrite Hs, Hc, !text_of_Num in Hst.
  destruct (EditRecipeScreen.lines_text (recipe !! "ingredients"));
    [|discriminate].
  destruct (EditRecipeScreen.lines_text (recipe !! "instructions"));
    [|discriminate].
  injection Hst as <-. cbv zeta.
  rewrite Edit_servings, Edit_calories.
  cbn [with_servings with_calories servings calories
       EditRecipeScreen.st_servings EditRecipeScreen.st_calories].
  rewrite !parse_text_of_Num. split.
  - destruct (Z.eqb_spec s 0) as [->|Hne]; [done|]. cbn [num_or].
    by apply Z.eqb_neq in Hne as ->.
  - destruct (Z.eqb_spec c 0) as [->|Hne]; [done|]. cbn [num_or].
    by apply Z.eqb_neq in Hne as ->.
Qed.

(** *** Opening the Edit form on a record made by the Add form *)

Lemma or_empty_Str (x : string) : EditRecipeScreen.or_empty (Some (Str x)) = Str x.
Proof.
  unfold EditRecipeScreen.or_empty. cbn [truthy].
  by destruct (String.eqb_spec x "") as [->|].
Qed.

Lemma str_or_nonempty (s d : string) : d ≠ "" -> str_or s d ≠ "".
Proof. unfold str_or. by destruct (String.eqb_spec s ""). Qed.

Lemma str_or_again (s d : string) :
  trim d = d -> d ≠ "" ->
  str_or (trim (str_or (trim s) d)) d = str_or (trim s) d.
Proof.
  intros Hd Hne. unfold str_or at 2 3.
  destruct (String.eqb_spec (trim s) "") as [E|E].
  - rewrite Hd. unfold str_or. by destruct (String.eqb_spec d "").
  - rewrite trim_idem. unfold str_or. by destruct (String.eqb_spec (trim s) "").
Qed.

Lemma image_or_again (s d : string) :
  trim d = d ->
  EditRecipeScreen.image_or (trim (str_or (trim s) d))
                            (Some (Str (str_or (trim s) d)))
  = Str (str_or (trim s) d).
Proof.
  intros Hd.
  assert (Ht : trim (str_or (trim s) d) = str_or (trim s) d).
  { unfold str_or. destruct (String.eqb_spec (trim s) ""); [done|apply trim_idem]. }
  rewrite Ht. unfold EditRecipeScreen.image_or. cbn [truthy].
  by destruct (String.eqb_spec (str_or (trim s) d) "") as [->|].
Qed.

Lemma num_or_again (x : option Z) (d : Z) :
  d = 0 \/ d = 1 ->
  num_or (parseInt (if num_or x d =? 0 then "" else Number_toString (num_or x d))) d
  = num_or x d.
Proof.
  intros Hd. rewrite parse_text_of_Num.
  destruct (Z.eqb_spec (num_or x d) 0) as [E|E]; cbn [num_or].
  - rewrite E. destruct x as [k|]; cbn [num_or] in E.
    + destruct (Z.eqb_spec k 0); lia.
    + done.
  - by apply Z.eqb_neq in E as ->.
Qed.

Lemma initialState_created (i : string) (f : Form) :
  EditRecipeScreen.initialState (created i f)
  = Ok (EditRecipeScreen.mkState
          (Str (trim (name f)))
          (Str (str_or (trim (imageUrl f)) AddRecipeScreen.PLACEHOLDER_IMAGE))
          (Str (str_or (trim (prepTime f)) "N/A"))
          (if num_or (parseInt (servings f)) 1 =? 0 then ""
           else Number_toString (num_or (parseInt (servings f)) 1))
          (if num_or (parseInt (calories f)) 0 =? 0 then ""
           else Number_toString (num_or (parseInt (calories f)) 0))
          (Str (str_or (trim (difficulty f)) "Easy"))
          (String.concat (String LF "") (lines_of (ingredients f)))
          (String.concat (String LF "") (lines_of (instructions f)))).
Proof.
  unfold EditRecipeScreen.initialState.
  change (created i f !! "servings")
    with (Some (Num (num_or (parseInt (servings f)) 1))).
  change (created i f !! "calories")
    with (Some (Num (num_or (parseInt (calories f)) 0))).
  change (created i f !! "ingredients")
    with (Some (Arr (Str <$> lines_of (ingredients f)))).
  change (created i f !! "instructions")
    with (Some (Arr (Str <$> lines_of (instructions f)))).
  change (created i f !! "name") with (Some (Str (trim (name f)))).
  change (created i f !! "image")
    with (Some (Str (str_or (trim (imageUrl f)) AddRecipeScreen.PLACEHOLDER_IMAGE))).
  change (created i f !! "prepTime")
    with (Some (Str (str_or (trim (prepTime f)) "N/A"))).
  change (created i f !! "difficulty")
    with (Some (Str (str_or (trim (difficulty f)) "Easy"))).
  rewrite !text_of_Num. unfold EditRecipeScreen.lines_text.
  rewrite !join_strings, !or_empty_Str. reflexivity.
Qed.

Lemma updatedRecipe_created (i : string) (f : Form) (st : EditRecipeScreen.State)
      (f1 : Form) :
  EditRecipeScreen.initialState (created i f) = Ok st ->
  form_of_state st = Some f1 ->
  EditRecipeScreen.updatedRecipe (created i f) f1 = created i f.
Proof.
  rewrite initialState_created. intros [= <-]. cbn [form_of_state
    EditRecipeScreen.st_name EditRecipeScreen.st_imageUrl
    EditRecipeScreen.st_prepTime EditRecipeScreen.st_difficulty
    EditRecipeScreen.st_servings EditRecipeScreen.st_calories
    EditRecipeScreen.st_ingredients EditRecipeScreen.st_instructions].
  intros [= <-].
  unfold EditRecipeScreen.updatedRecipe.
  change (created i f !! "id") with (Some (Str i)).
  change (created i f !! "image")
    with (Some (Str (str_or (trim (imageUrl f)) AddRecipeScreen.PLACEHOLDER_IMAGE))).
  cbn [name imageUrl prepTime servings calories difficulty ingredients
       instructions].
  rewrite trim_idem.
  rewrite (image_or_again _ AddRecipeScreen.PLACEHOLDER_IMAGE eq_refl).
  rewrite (str_or_again _ "N/A" eq_refl ltac:(discriminate)).
  rewrite (str_or_again _ "Easy" eq_refl ltac:(discriminate)).
  rewrite (num_or_again _ 1 ltac:(by right)).
  rewrite (num_or_again _ 0 ltac:(by left)).
  rewrite !(lines_of_concat _ (lines_of_pieces _)).
  reflexivity.
Qed.

(** Opening the Edit form on a record made by the Add form and saving it
    untouched changes nothing, when the servings and calories typed into
    the Add form were of at most 15 characters (so that the numbers stored
    are held exactly): every field of the form comes up as a string, the
    save reports success, and the world afterwards is the world before. *)
Theorem Edit_untouched_round_trip (f0 : Form) (i : string)
        (rs1 rs2 : list object) (w : World) :
  faults w = [] ->
  stored Storage.MY_RECIPES_KEY w
  = Some (Arr (Obj <$> (rs1 ++ created i f0 :: rs2))) ->
  no_record_with_id i rs1 ->
  trim (name f0) ≠ "" ->
  (String.length (servings f0) <= 15)%nat ->
  (String.length (calories f0) <= 15)%nat ->
  exists (st : EditRecipeScreen.State) (f1 : Form),
    EditRecipeScreen.initialState (created i f0) = Ok st
    /\ form_of_state st = Some f1
    /\ EditRecipeScreen.handleSave (created i f0) f1 w = (Ok Success, w).
Proof.
  intros Hq Hs Hno Hname _ _.
  eexists _, _. split; [apply initialState_created|]. split; [reflexivity|].
  set (f1 := mkForm _ _ _ _ _ _ _ _).
  assert (Hupd : EditRecipeScreen.updatedRecipe (created i f0) f1 = created i f0).
  { apply (updatedRecipe_created i f0 _ f1 (initialState_created i f0)).
    reflexivity. }
  unfold EditRecipeScreen.handleSave.
  change (name f1) with (trim (name f0)). rewrite trim_idem.
  destruct (String.eqb_spec (trim (name f0)) ""); [done|].
  unfold bind. rewrite Hupd.
  assert (Hid : created i f0 !! "id" = Some (Str i)) by reflexivity.
  rewrite (updateMyRecipe_found (created i f0) i rs1 rs2 (created i f0) w
             Hq Hs Hid Hno Hid).
  rewrite (idemp_L (∪) (created i f0)).
  rewrite write_stored; [reflexivity|].
  unfold stored in Hs.
  destruct (disk w !! Storage.MY_RECIPES_KEY) as [[v|]|]; [by injection Hs as ->| |];
    try discriminate.
  injection Hs as Hs. apply (f_equal length) in Hs.
  rewrite length_fmap, length_app in Hs. cbn [length] in Hs. lia.
Qed.

Lemma Edit_untouched_round_trip_witness :
  faults pancakes_world = []
  /\ stored Storage.MY_RECIPES_KEY pancakes_world
     = Some (Arr (Obj <$> ([] ++ created "user_1700000000000" pancakes_form :: [])))
  /\ no_record_with_id "user_1700000000000" []
  /\ trim (name pancakes_form) ≠ ""
  /\ (String.length (servings pancakes_form) <= 15)%nat
  /\ (String.length (calories pancakes_form) <= 15)%nat
  /\ exists (st : EditRecipeScreen.State) (f1 : Form),
       EditRecipeScreen.initialState (created "user_1700000000000" pancakes_form)
       = Ok st
       /\ form_of_state st = Some f1
       /\ EditRecipeScreen.handleSave
            (created "user_1700000000000" pancakes_form) f1 pancakes_world
          = (Ok Success, pancakes_world).
Proof.
  assert (H1 : faults pancakes_world = []) by reflexivity.
  assert (H2 : stored Storage.MY_RECIPES_KEY pancakes_world
               = Some (Arr (Obj <$> ([] ++ created "user_1700000000000"
                                             pancakes_form :: []))))
    by (vm_compute; reflexivity).
  assert (H3 : no_record_with_id "user_1700000000000" []) by constructor.
  assert (H4 : trim (name pancakes_form) ≠ "") by (vm_compute; discriminate).
  assert (H5 : (String.length (servings pancakes_form) <= 15)%nat)
    by (vm_compute; lia).
  assert (H6 : (String.length (calories pancakes_form) <= 15)%nat)
    by (vm_compute; lia).
  split; [exact H1|]. split; [exact H2|]. split; [exact H3|]. split; [exact H4|].
  split; [exact H5|]. split; [exact H6|].
  exact (Edit_untouched_round_trip pancakes_form "user_1700000000000" [] []
           pancakes_world H1 H2 H3 H4 H5 H6).
Defined.

Lemma Edit_numeric_round_trip_witness :
  stew !! "servings" = Some (Num 4)
  /\ stew !! "calories" = Some (Num 250)
  /\ safe 4
  /\ safe 250
  /\ EditRecipeScreen.initialState stew
     = Ok (EditRecipeScreen.mkState (Str "Stew") (Str "") (Str "") "4" "250"
                                    (Str "") "" "")
  /\ EditRecipeScreen.updatedRecipe stew
       (with_servings "4" (with_calories "250" blank_form)) !! "servings"
     = Some (Num 4)
  /\ EditRecipeScreen.updatedRecipe stew
       (with_servings "4" (with_calories "250" blank_form)) !! "calories"
     = Some (Num 250).
Proof.
  assert (H1 : stew !! "servings" = Some (Num 4)) by reflexivity.
  assert (H2 : stew !! "calories" = Some (Num 250)) by reflexivity.
  assert (H3 : safe 4) by (split; vm_compute; discriminate).
  assert (H4 : safe 250) by (split; vm_compute; discriminate).
  assert (H5 : EditRecipeScreen.initialState stew
               = Ok (EditRecipeScreen.mkState (Str "Stew") (Str "") (Str "") "4"
                                              "250" (Str "") "" ""))
    by reflexivity.
  split; [exact H1|]. split; [exact H2|]. split; [exact H3|]. split; [exact H4|].
  split; [exact H5|].
  exact (Edit_numeric_round_trip stew blank_form 4 250 _ H1 H2 H3 H4 H5).
Defined.

(** A stored record without servings: the form shows a blank field and the
    save stores 1. *)
Example Edit_zero_servings :
  EditRecipeScreen.initialState zero_servings
  = Ok (EditRecipeScreen.mkState (Str "Soup") (Str "") (Str "") "" ""
                                 (Str "") "" "")
  /\ EditRecipeScreen.updatedRecipe zero_servings
       (with_servings "" (with_calories "" blank_form)) !! "servings"
     = Some (Num 1).
Proof. split; reflexivity. Qed.

(** ** The Main Feed *)

Lemma presses_snoc (ps : list string) (p sel : string) :
  presses (ps ++ [p]) sel
  = if String.eqb p "myfood" then presses ps sel else p.
Proof.
  unfold presses. rewrite fold_left_app. cbn [fold_left].
  unfold MainFeedScreen.handleCategoryPress.
  by destruct (String.eqb p "myfood").
Qed.

Lemma presses_last (ps : list string) :
  presses ps "all"
  = default "all" (last (filter (fun p : string => p ≠ "myfood") ps)).
Proof.
  induction ps as [|p ps IH] using rev_ind; [done|].
  rewrite presses_snoc, filter_app, filter_cons, filter_nil.
  destruct (String.eqb_spec p "myfood") as [->|Hne].
  - rewrite decide_False by tauto. by rewrite app_nil_r.
  - rewrite decide_True by done. by rewrite last_snoc.
Qed.

Lemma selectedCategory_never_myfood_aux (ps : list string) :
  presses ps "all" ≠ "myfood".
Proof.
  rewrite presses_last.
  destruct (last _) as [p|] eqn:E; cbn [default]; [|done].
  apply last_Some_elem_of, list_elem_of_filter in E as [Hp _]. done.
Qed.

(** Whatever pills are pressed, starting from ["all"], the selection is
    never ["myfood"]: it is the last pill pressed other than ["myfood"], or
    ["all"] if there is none; pressing ["myfood"] navigates to the My
    Recipes screen and leaves the selection. *)
Theorem selectedCategory_never_myfood (ps : list string) :
  presses ps "all" ≠ "myfood"
  /\ presses ps "all"
     = default "all" (last (filter (fun p : string => p ≠ "myfood") ps))
  /\ MainFeedScreen.handleCategoryPress "myfood" (presses ps "all")
     = (presses ps "all", Some "MyRecipes").
Proof.
  split; [apply selectedCategory_never_myfood_aux|].
  split; [apply presses_last|]. reflexivity.
Qed.

Lemma filteredRecipes_records (selectedCategory : string) (rs : list object) :
  MainFeedScreen.filteredRecipes selectedCategory (Obj <$> rs)
  = Ok (Obj <$> feed_rule selectedCategory rs).
Proof.
  unfold MainFeedScreen.filteredRecipes, feed_rule.
  destruct (String.eqb_spec selectedCategory "all") as [->|Hne].
  - rewrite decide_True by done.
    apply filter_js_decide, category_is_not_decide.
  - rewrite decide_False by done.
    apply filter_js_decide, category_is_decide.
Qed.

Lemma feed_rule_user (selectedCategory : string) (users : list object) :
  selectedCategory ≠ "myfood" ->
  all_myfood users ->
  feed_rule selectedCategory users = [].
Proof.
  intros Hsel Hall. unfold feed_rule.
  destruct (decide (selectedCategory = "all")).
  - induction Hall as [|r rs Hr _ IH]; [done|].
    rewrite filter_cons, decide_False by tauto. exact IH.
  - induction Hall as [|r rs Hr _ IH]; [done|].
    rewrite filter_cons, decide_False; [exact IH|].
    unfold is_category in *. congruence.
Qed.

Lemma loadRecipes_quiet (MOCK_RECIPES l : list value) (w : World) :
  faults w = [] ->
  stored Storage.MY_RECIPES_KEY w = Some (Arr l) ->
  MainFeedScreen.loadRecipes MOCK_RECIPES w = (Ok (MOCK_RECIPES ++ l), w).
Proof.
  intros Hq Hs. unfold MainFeedScreen.loadRecipes, bind.
  by rewrite (getMyRecipes_quiet w Hq _ Hs).
Qed.

(** The Main Feed never lists a user recipe: with the stored user recipes
    all in ["myfood"], what the feed shows after a reload, under any
    selection that pressing pills can reach, is what it shows of the catalog
    alone. *)
Theorem feed_hides_user_recipes (cat users : list object) (ps : list string)
        (w : World) :
  faults w = [] ->
  stored Storage.MY_RECIPES_KEY w = Some (Arr (Obj <$> users)) ->
  all_myfood users ->
  exists allRecipes : list value,
    MainFeedScreen.loadRecipes (Obj <$> cat) w = (Ok allRecipes, w)
    /\ allRecipes = Obj <$> (cat ++ users)
    /\ MainFeedScreen.filteredRecipes (presses ps "all") allRecipes
       = MainFeedScreen.filteredRecipes (presses ps "all") (Obj <$> cat).
Proof.
  intros Hq Hs Hall. exists (Obj <$> (cat ++ users)).
  split; [by rewrite (loadRecipes_quiet _ _ w Hq Hs), fmap_app|].
  split; [done|].
  pose proof (selectedCategory_never_myfood_aux ps) as Hsel.
  rewrite !filteredRecipes_records. do 2 f_equal.
  unfold feed_rule at 1.
  destruct (decide (presses ps "all" = "all")) as [E|E].
  - rewrite filter_app.
    pose proof (feed_rule_user _ users Hsel Hall) as Hu.
    unfold feed_rule in *. rewrite decide_True in * by done.
    by rewrite Hu, app_nil_r.
  - rewrite filter_app.
    pose proof (feed_rule_user _ users Hsel Hall) as Hu.
    unfold feed_rule in *. rewrite decide_False in * by done.
    by rewrite Hu, app_nil_r.
Qed.

Lemma feed_hides_user_recipes_witness :
  faults home_world = []
  /\ stored Storage.MY_RECIPES_KEY home_world = Some (Arr (Obj <$> [my_pie]))
  /\ all_myfood [my_pie]
  /\ exists allRecipes : list value,
       MainFeedScreen.loadRecipes (Obj <$> catalog) home_world
       = (Ok allRecipes, home_world)
       /\ allRecipes = Obj <$> (catalog ++ [my_pie])
       /\ MainFeedScreen.filteredRecipes (presses ["lunch"; "myfood"] "all")
                                         allRecipes
          = MainFeedScreen.filteredRecipes (presses ["lunch"; "myfood"] "all")
                                           (Obj <$> catalog).
Proof.
  assert (H1 : faults home_world = []) by reflexivity.
  assert (H2 : stored Storage.MY_RECIPES_KEY home_world
               = Some (Arr (Obj <$> [my_pie]))) by (vm_compute; reflexivity).
  assert (H3 : all_myfood [my_pie]) by (repeat constructor).
  split; [exact H1|]. split; [exact H2|]. split; [exact H3|].
  exact (feed_hides_user_recipes catalog [my_pie] ["lunch"; "myfood"] home_world
           H1 H2 H3).
Defined.

(** ** The Favorites screen *)

Lemma filter_js_bool (b : object -> bool) (p : value -> result bool)
      (rs : list object) :
  (forall r, p (Obj r) = Ok (b r)) ->
  filter_js p (Obj <$> rs) = Ok (Obj <$> List.filter b rs).
Proof.
  intros Hp. induction rs as [|r rs IH]; [done|].
  rewrite fmap_cons. cbn [filter_js List.filter]. rewrite Hp, IH.
  by destruct (b r).
Qed.

Lemma includes_ids (favs : list string) (x : option value) :
  includes (Arr (Str <$> favs)) x
  = Ok (existsb (fun s => strict_eq x (Some (Str s))) favs).
Proof.
  cbn [includes]. f_equal. induction favs as [|s favs IH]; [done|].
  rewrite fmap_cons. cbn [existsb]. rewrite IH. f_equal.
  destruct x as [[]|]; cbn [strict_eq]; try reflexivity.
  apply String.eqb_sym.
Qed.

Lemma favorited_spec (favs : list string) (r : object) :
  favorited favs r = true <-> exists s, s ∈ favs /\ r !! "id" = Some (Str s).
Proof.
  unfold favorited. rewrite existsb_exists. split.
  - intros (s & Hin & Hid). exists s. split; [by apply list_elem_of_In|].
    by apply id_is_true.
  - intros (s & Hin & Hid). exists s. split; [by apply list_elem_of_In|].
    by apply id_is_true.
Qed.

Lemma List_filter_sublist {A} (b : A -> bool) (l : list A) :
  sublist (List.filter b l) l.
Proof.
  induction l as [|x l IH]; [constructor|]. cbn [List.filter].
  destruct (b x); by constructor.
Qed.

Lemma loadFavorites_quiet (cat users : list object) (favs : list string)
      (w : World) :
  faults w = [] ->
  stored Storage.FAVORITES_KEY w = Some (Arr (Str <$> favs)) ->
  stored Storage.MY_RECIPES_KEY w = Some (Arr (Obj <$> users)) ->
  FavoritesScreen.loadFavorites (Obj <$> cat) w
  = (Ok (Obj <$> List.filter (favorited favs) (cat ++ users)), w).
Proof.
  intros Hq Hf Hu. unfold FavoritesScreen.loadFavorites, bind.
  rewrite (getFavorites_quiet w Hq _ Hf), (getMyRecipes_quiet w Hq _ Hu).
  cbn [iterate lift]. rewrite <- fmap_app.
  rewrite (filter_js_bool (favorited favs)); [done|].
  intros r. unfold FavoritesScreen.is_favorite. cbn [get_prop].
  by rewrite includes_ids.
Qed.

(** What the Favorites screen lists: the records of the catalog and then of
    the user recipes whose id is among the stored favorites, each where it
    stands in that sequence, whatever the order in which they were
    favorited; a record without an id is never listed, and a favorite id
    that no record has lists nothing. *)
Theorem loadFavorites_shows (cat users : list object) (favs : list string)
        (w : World) :
  faults w = [] ->
  stored Storage.FAVORITES_KEY w = Some (Arr (Str <$> favs)) ->
  stored Storage.MY_RECIPES_KEY w = Some (Arr (Obj <$> users)) ->
  exists shown : list object,
    FavoritesScreen.loadFavorites (Obj <$> cat) w = (Ok (Obj <$> shown), w)
    /\ (forall r : object,
          r ∈ shown
          <-> r ∈ cat ++ users /\ exists s, s ∈ favs /\ r !! "id" = Some (Str s))
    /\ sublist shown (cat ++ users).
Proof.
  intros Hq Hf Hu. exists (List.filter (favorited favs) (cat ++ users)).
  split; [by apply loadFavorites_quiet|]. split; [|apply List_filter_sublist].
  intros r. rewrite list_elem_of_In, List.filter_In, <- list_elem_of_In.
  by rewrite favorited_spec.
Qed.

Lemma loadFavorites_shows_witness :
  faults home_world = []
  /\ stored Storage.FAVORITES_KEY home_world = Some (Arr (Str <$> ["4"]))
  /\ stored Storage.MY_RECIPES_KEY home_world = Some (Arr (Obj <$> [my_pie]))
  /\ exists shown : list object,
       FavoritesScreen.loadFavorites (Obj <$> catalog) home_world
       = (Ok (Obj <$> shown), home_world)
       /\ (forall r : object,
             r ∈ shown
             <-> r ∈ catalog ++ [my_pie]
                 /\ exists s, s ∈ ["4"] /\ r !! "id" = Some (Str s))
       /\ sublist shown (catalog ++ [my_pie]).
Proof.
  assert (H1 : faults home_world = []) by reflexivity.
  assert (H2 : stored Storage.FAVORITES_KEY home_world = Some (Arr (Str <$> ["4"])))
    by (vm_compute; reflexivity).
  assert (H3 : stored Storage.MY_RECIPES_KEY home_world
               = Some (Arr (Obj <$> [my_pie]))) by (vm_compute; reflexivity).
  split; [exact H1|]. split; [exact H2|]. split; [exact H3|].
  exact (loadFavorites_shows catalog [my_pie] ["4"] home_world H1 H2 H3).
Defined.

(** ** The Recipe Detail screen *)

Lemma includes_member (favs : list string) (s : string) :
  includes (Arr (Str <$> favs)) (Some (Str s)) = Ok (bool_decide (s ∈ favs)).
Proof.
  rewrite includes_ids. f_equal.
  induction favs as [|y favs IH]; [done|].
  cbn [existsb]. rewrite IH.
  change (strict_eq (Some (Str s)) (Some (Str y))) with (String.eqb s y).
  destruct (String.eqb_spec s y) as [->|Hne].
  - symmetry. apply bool_decide_eq_true_2. left.
  - cbn [orb]. apply bool_decide_ext. rewrite elem_of_cons. tauto.
Qed.

Lemma checkFavorite_quiet (s : string) (favs : list string) (b : bool)
      (w : World) :
  faults w = [] ->
  stored Storage.FAVORITES_KEY w = Some (Arr (Str <$> favs)) ->
  s ≠ "" ->
  RecipeDetailScreen.checkFavorite (Some s) b w = (Ok (bool_decide (s ∈ favs)), w).
Proof.
  intros Hq Hs Hne. unfold RecipeDetailScreen.checkFavorite.
  cbn [fmap option_fmap option_map truthy].
  destruct (String.eqb_spec s "") as [|_]; [done|]. cbn [negb].
  unfold bind. rewrite (getFavorites_quiet w Hq _ Hs). cbn [lift].
  by rewrite includes_member.
Qed.

(** After a tap on the heart, the heart shows what the store holds: the new
    state is whether the id is among the favorites now stored, which is what
    the next focus of the screen computes; with no duplicates stored, the
    state is the opposite of the membership before the tap. *)
Theorem heart_matches_store (s : string) (favs : list string) (b : bool)
        (w : World) :
  faults w = [] ->
  stored Storage.FAVORITES_KEY w = Some (Arr (Str <$> favs)) ->
  s ≠ "" ->
  exists (favs' : list string) (w' : World),
    RecipeDetailScreen.handleToggleFavorite (Some s) b w
    = (Ok (bool_decide (s ∈ favs')), w')
    /\ stored Storage.FAVORITES_KEY w' = Some (Arr (Str <$> favs'))
    /\ RecipeDetailScreen.checkFavorite (Some s) b w'
       = (Ok (bool_decide (s ∈ favs')), w')
    /\ (NoDup favs -> (s ∈ favs' <-> s ∉ favs)).
Proof.
  intros Hq Hs Hne.
  destruct (toggleFavorite_cases s favs w Hq Hs) as (favs' & Hrun & Hcase).
  exists favs', (write Storage.FAVORITES_KEY (Arr (Str <$> favs')) w).
  assert (Hs' : stored Storage.FAVORITES_KEY
                  (write Storage.FAVORITES_KEY (Arr (Str <$> favs')) w)
                = Some (Arr (Str <$> favs'))) by apply stored_write.
  split; [|split; [exact Hs'|split]].
  - unfold RecipeDetailScreen.handleToggleFavorite.
    cbn [fmap option_fmap option_map truthy].
    destruct (String.eqb_spec s "") as [|_]; [done|]. cbn [negb].
    unfold bind. rewrite Hrun. cbn [lift]. by rewrite includes_member.
  - by apply checkFavorite_quiet.
  - intros Hnd.
    destruct Hcase as [[Hnin ->]|(l1 & l2 & -> & Hx & ->)].
    + rewrite elem_of_app, list_elem_of_singleton. tauto.
    + apply NoDup_app in Hnd as (_ & _ & Hn2).
      apply NoDup_cons in Hn2 as [Hx2 _].
      rewrite !elem_of_app, elem_of_cons. tauto.
Qed.

Lemma heart_matches_store_witness :
  faults home_world = []
  /\ stored Storage.FAVORITES_KEY home_world = Some (Arr (Str <$> ["4"]))
  /\ "4" ≠ ""
  /\ exists (favs' : list string) (w' : World),
       RecipeDetailScreen.handleToggleFavorite (Some "4") true home_world
       = (Ok (bool_decide ("4" ∈ favs')), w')
       /\ stored Storage.FAVORITES_KEY w' = Some (Arr (Str <$> favs'))
       /\ RecipeDetailScreen.checkFavorite (Some "4") true w'
          = (Ok (bool_decide ("4" ∈ favs')), w')
       /\ (NoDup ["4"] -> ("4" ∈ favs' <-> "4" ∉ ["4"])).
Proof.
  assert (H1 : faults home_world = []) by reflexivity.
  assert (H2 : stored Storage.FAVORITES_KEY home_world = Some (Arr (Str <$> ["4"])))
    by (vm_compute; reflexivity).
  assert (H3 : "4" ≠ "") by discriminate.
  split; [exact H1|]. split; [exact H2|]. split; [exact H3|].
  exact (heart_matches_store "4" ["4"] true home_world H1 H2 H3).
Defined.

Lemma toggled_cases (x : string) (favs : list string) :
  exists favs' : list string,
    toggled x (Str <$> favs) = Str <$> favs'
    /\ (((x ∉ favs) /\ favs' = favs ++ [x])
        \/ (exists l1 l2, favs = l1 ++ x :: l2 /\ (x ∉ l1) /\ favs' = l1 ++ l2)).
Proof.
  unfold toggled. destruct (decide (x ∈ favs)) as [Hin|Hnin].
  - apply list_elem_of_split_l in Hin as (l1 & l2 & -> & Hx).
    exists (l1 ++ l2). split; [|right; by eauto].
    rewrite (indexOf_first _ _ _ Hx).
    replace (Z.of_nat (length l1) >? -1) with true
      by (symmetry; apply Z.gtb_lt; lia).
    rewrite fmap_app, fmap_cons.
    replace (Z.of_nat (length l1)) with (Z.of_nat (length (Str <$> l1)))
      by (by rewrite length_fmap).
    by rewrite splice_middle, <- fmap_app.
  - exists (favs ++ [x]). split; [|by left].
    rewrite (indexOf_absent _ _ Hnin). cbn [Z.gtb Z.compare].
    unfold push. by rewrite fmap_app.
Qed.

Lemma toggleFavorite_write_rejected (x : string) (l : list value) (w : World) :
  faults w = [false; true] ->
  stored Storage.FAVORITES_KEY w = Some (Arr l) ->
  Storage.toggleFavorite x w
  = (Ok (Arr (toggled x l)),
     mkWorld (disk w) [] (clock w) ("Error saving favorites:" :: console w)).
Proof.
  intros Hf Hs. destruct w as [d fs c con]. cbn [faults] in Hf. subst fs.
  unfold stored in Hs. cbn [disk] in Hs.
  unfold Storage.toggleFavorite, Storage.getFavorites, Storage.saveFavorites,
    try_catch, bind, AsyncStorage_getItem, AsyncStorage_setItem, next_fault.
  cbn [faults disk clock console].
  destruct (d !! Storage.FAVORITES_KEY) as [[v|]|]; [| discriminate |];
    injection Hs as ->; reflexivity.
Qed.

(** When the write is rejected, the heart and the store part ways: after
    the tap the heart shows the opposite of what is stored, nothing has
    been written, and the next focus of the screen puts the heart back. *)
Theorem heart_diverges (s : string) (favs : list string) (b : bool) (w : World) :
  faults w = [false; true] ->
  stored Storage.FAVORITES_KEY w = Some (Arr (Str <$> favs)) ->
  s ≠ "" ->
  NoDup favs ->
  exists w' : World,
    RecipeDetailScreen.handleToggleFavorite (Some s) b w
    = (Ok (negb (bool_decide (s ∈ favs))), w')
    /\ disk w' = disk w
    /\ fst (RecipeDetailScreen.checkFavorite
              (Some s) (negb (bool_decide (s ∈ favs))) w')
       = Ok (bool_decide (s ∈ favs)).
Proof.
  intros Hf Hs Hne Hnd.
  pose proof (toggleFavorite_write_rejected s _ w Hf Hs) as Hrun.
  destruct (toggled_cases s favs) as (favs' & Ht & Hcase). rewrite Ht in Hrun.
  eexists. split; [|split].
  - unfold RecipeDetailScreen.handleToggleFavorite.
    cbn [fmap option_fmap option_map truthy].
    destruct (String.eqb_spec s "") as [|_]; [done|]. cbn [negb].
    unfold bind. rewrite Hrun. cbn [lift]. rewrite includes_member.
    do 2 f_equal.
    destruct Hcase as [[Hnin ->]|(l1 & l2 & -> & Hx & ->)].
    + rewrite (bool_decide_eq_false_2 _ Hnin). cbn [negb].
      apply bool_decide_eq_true_2. rewrite elem_of_app, list_elem_of_singleton.
      tauto.
    + apply NoDup_app in Hnd as (_ & _ & Hn2).
      apply NoDup_cons in Hn2 as [Hx2 _].
      rewrite (bool_decide_eq_true_2 (s ∈ l1 ++ s :: l2)).
      * cbn [negb]. apply bool_decide_eq_false_2.
        rewrite elem_of_app. tauto.
      * rewrite elem_of_app, elem_of_cons. tauto.
  - reflexivity.
  - rewrite (checkFavorite_quiet s favs); [done|done| |done].
    exact Hs.
Qed.

Lemma heart_diverges_witness :
  faults home_write_rejected_world = [false; true]
  /\ stored Storage.FAVORITES_KEY home_write_rejected_world
     = Some (Arr (Str <$> ["4"]))
  /\ "1" ≠ ""
  /\ NoDup ["4"]
  /\ exists w' : World,
       RecipeDetailScreen.handleToggleFavorite (Some "1") false
         home_write_rejected_world
       = (Ok (negb (bool_decide ("1" ∈ ["4"]))), w')
       /\ disk w' = disk home_write_rejected_world
       /\ fst (RecipeDetailScreen.checkFavorite
                 (Some "1") (negb (bool_decide ("1" ∈ ["4"]))) w')
          = Ok (bool_decide ("1" ∈ ["4"])).
Proof.
  assert (H1 : faults home_write_rejected_world = [false; true]) by reflexivity.
  assert (H2 : stored Storage.FAVORITES_KEY home_write_rejected_world
               = Some (Arr (Str <$> ["4"]))) by (vm_compute; reflexivity).
  assert (H3 : "1" ≠ "") by discriminate.
  assert (H4 : NoDup ["4"]) by compute_done.
  split; [exact H1|]. split; [exact H2|]. split; [exact H3|]. split; [exact H4|].
  exact (heart_diverges "1" ["4"] false home_write_rejected_world H1 H2 H3 H4).
Defined.

(** The Favorites screen follows the heart: once the heart of a listed
    recipe has been tapped, the next load of the Favorites screen lists the
    recipe exactly when the heart shows it as a favorite. *)
Theorem favorites_follow_the_heart (cat users : list object)
        (favs : list string) (s : string) (r : object) (b : bool) (w : World) :
  faults w = [] ->
  stored Storage.FAVORITES_KEY w = Some (Arr (Str <$> favs)) ->
  stored Storage.MY_RECIPES_KEY w = Some (Arr (Obj <$> users)) ->
  s ≠ "" ->
  r ∈ cat ++ users ->
  r !! "id" = Some (Str s) ->
  exists (b' : bool) (w' : World) (shown : list object),
    RecipeDetailScreen.handleToggleFavorite (Some s) b w = (Ok b', w')
    /\ FavoritesScreen.loadFavorites (Obj <$> cat) w' = (Ok (Obj <$> shown), w')
    /\ (r ∈ shown <-> b' = true).
Proof.
  intros Hq Hf Hu Hne Hin Hid.
  destruct (toggleFavorite_cases s favs w Hq Hf) as (favs' & Hrun & _).
  set (w' := write Storage.FAVORITES_KEY (Arr (Str <$> favs')) w) in *.
  assert (Hf' : stored Storage.FAVORITES_KEY w' = Some (Arr (Str <$> favs')))
    by apply stored_write.
  assert (Hu' : stored Storage.MY_RECIPES_KEY w' = Some (Arr (Obj <$> users)))
    by (unfold w'; by rewrite stored_write_ne).
  exists (bool_decide (s ∈ favs')), w',
         (List.filter (favorited favs') (cat ++ users)).
  split; [|split].
  - unfold RecipeDetailScreen.handleToggleFavorite.
    cbn [fmap option_fmap option_map truthy].
    destruct (String.eqb_spec s "") as [|_]; [done|]. cbn [negb].
    unfold bind. rewrite Hrun. cbn [lift]. by rewrite includes_member.
  - by apply (loadFavorites_quiet cat users favs' w').
  - rewrite list_elem_of_In, List.filter_In, <- list_elem_of_In, favorited_spec.
    rewrite bool_decide_eq_true. split.
    + intros (_ & s' & Hs' & Hid'). rewrite Hid in Hid'. by injection Hid' as ->.
    + intros Hs'. split; [done|]. by exists s.
Qed.

Lemma favorites_follow_the_heart_witness :
  faults home_world = []
  /\ stored Storage.FAVORITES_KEY home_world = Some (Arr (Str <$> ["4"]))
  /\ stored Storage.MY_RECIPES_KEY home_world = Some (Arr (Obj <$> [my_pie]))
  /\ "1" ≠ ""
  /\ eggs ∈ catalog ++ [my_pie]
  /\ eggs !! "id" = Some (Str "1")
  /\ exists (b' : bool) (w' : World) (shown : list object),
       RecipeDetailScreen.handleToggleFavorite (Some "1") false home_world
       = (Ok b', w')
       /\ FavoritesScreen.loadFavorites (Obj <$> catalog) w'
          = (Ok (Obj <$> shown), w')
       /\ (eggs ∈ shown <-> b' = true).
Proof.
  assert (H1 : faults home_world = []) by reflexivity.
  assert (H2 : stored Storage.FAVORITES_KEY home_world = Some (Arr (Str <$> ["4"])))
    by (vm_compute; reflexivity).
  assert (H3 : stored Storage.MY_RECIPES_KEY home_world
               = Some (Arr (Obj <$> [my_pie]))) by (vm_compute; reflexivity).
  assert (H4 : "1" ≠ "") by discriminate.
  assert (H5 : eggs ∈ catalog ++ [my_pie]) by left.
  assert (H6 : eggs !! "id" = Some (Str "1")) by (vm_compute; reflexivity).
  split; [exact H1|]. split; [exact H2|]. split; [exact H3|]. split; [exact H4|].
  split; [exact H5|]. split; [exact H6|].
  exact (favorites_follow_the_heart catalog [my_pie] ["4"] "1" eggs false
           home_world H1 H2 H3 H4 H5 H6).
Defined.

(** ** The My Recipes screen *)

Lemma deleteMyRecipe_write_rejected (i : string) (rs : list object) (w : World) :
  faults w = [false; true] ->
  stored Storage.MY_RECIPES_KEY w = Some (Arr (Obj <$> rs)) ->
  Storage.deleteMyRecipe i w
  = (Ok tt, mkWorld (disk w) [] (clock w)
                    ("Error saving my recipes:" :: console w)).
Proof.
  intros Hf Hs. destruct w as [d fs c con]. cbn [faults] in Hf. subst fs.
  unfold stored in Hs. cbn [disk] in Hs.
  unfold Storage.deleteMyRecipe, Storage.getMyRecipes, Storage.saveMyRecipes,
    try_catch, bind, AsyncStorage_getItem, AsyncStorage_setItem, next_fault.
  cbn [faults disk clock console].
  destruct (d !! Storage.MY_RECIPES_KEY) as [[v|]|]; [| discriminate |];
    injection Hs as Hs; try subst v;
    cbn [JSON_parse ret as_array lift]; rewrite ?Hs, ?filter_js_records;
    reflexivity.
Qed.

(** After a confirmed delete the list shown is the list stored.  When
    nothing is rejected, that is the old list without the records of the
    deleted id; when the write is rejected, it is the whole old list, the
    record still in it. *)
Theorem confirmDelete_shows_store (i : string) (rs : list object) (w : World) :
  stored Storage.MY_RECIPES_KEY w = Some (Arr (Obj <$> rs)) ->
  (faults w = [] ->
   exists w' : World,
     MyRecipesScreen.confirmDelete i w = (Ok (Arr (Obj <$> others i rs)), w')
     /\ stored Storage.MY_RECIPES_KEY w' = Some (Arr (Obj <$> others i rs))
     /\ no_record_with_id i (others i rs))
  /\ (faults w = [false; true] ->
      exists w' : World,
        MyRecipesScreen.confirmDelete i w = (Ok (Arr (Obj <$> rs)), w')
        /\ stored Storage.MY_RECIPES_KEY w' = Some (Arr (Obj <$> rs))).
Proof.
  intros Hs. split; intros Hf.
  - eexists. unfold MyRecipesScreen.confirmDelete, bind.
    rewrite (deleteMyRecipe_quiet i rs w Hf Hs).
    rewrite (getMyRecipes_quiet
               (write Storage.MY_RECIPES_KEY (Arr (Obj <$> others i rs)) w)
               Hf _ (stored_write _ _ _)).
    split; [reflexivity|]. split; [apply stored_write | apply others_clean].
  - eexists. unfold MyRecipesScreen.confirmDelete, bind.
    rewrite (deleteMyRecipe_write_rejected i rs w Hf Hs).
    rewrite (getMyRecipes_quiet
               (mkWorld (disk w) [] (clock w)
                        ("Error saving my recipes:" :: console w))
               eq_refl _ Hs).
    split; [reflexivity | exact Hs].
Qed.

Lemma confirmDelete_shows_store_witness :
  stored Storage.MY_RECIPES_KEY two_recipes_world
  = Some (Arr (Obj <$> two_recipes))
  /\ faults two_recipes_world = []
  /\ (exists w' : World,
        MyRecipesScreen.confirmDelete "user_1" two_recipes_world
        = (Ok (Arr (Obj <$> others "user_1" two_recipes)), w')
        /\ stored Storage.MY_RECIPES_KEY w'
           = Some (Arr (Obj <$> others "user_1" two_recipes))
        /\ no_record_with_id "user_1" (others "user_1" two_recipes))
  /\ stored Storage.MY_RECIPES_KEY recipes_write_rejected_world
     = Some (Arr (Obj <$> two_recipes))
  /\ faults recipes_write_rejected_world = [false; true]
  /\ (exists w' : World,
        MyRecipesScreen.confirmDelete "user_1" recipes_write_rejected_world
        = (Ok (Arr (Obj <$> two_recipes)), w')
        /\ stored Storage.MY_RECIPES_KEY w' = Some (Arr (Obj <$> two_recipes))).
Proof.
  assert (H1 : stored Storage.MY_RECIPES_KEY two_recipes_world
               = Some (Arr (Obj <$> two_recipes))) by (vm_compute; reflexivity).
  assert (H2 : faults two_recipes_world = []) by reflexivity.
  assert (H3 : stored Storage.MY_RECIPES_KEY recipes_write_rejected_world
               = Some (Arr (Obj <$> two_recipes))) by (vm_compute; reflexivity).
  assert (H4 : faults recipes_write_rejected_world = [false; true])
    by reflexivity.
  split; [exact H1|]. split; [exact H2|].
  split; [exact (proj1 (confirmDelete_shows_store "user_1" two_recipes
                          two_recipes_world H1) H2)|].
  split; [exact H3|]. split; [exact H4|].
  exact (proj2 (confirmDelete_shows_store "user_1" two_recipes
                  recipes_write_rejected_world H3) H4).
Defined.

(** ** Where an exception does get out *)

Lemma iterate_throws (v : value) :
  iterable v = false -> iterate v = Throw TypeError.
Proof. by destruct v. Qed.

(** The loaders of the Main Feed and of the Favorites screen spread the
    stored user recipes without a handler: when what is stored is neither an
    array nor a string, [getMyRecipes] returns it as it is, the My Recipes
    screen takes it as its list, and the two loaders throw a [TypeError]. *)
Theorem loaders_throw (MOCK_RECIPES : list value) (v : value) (w : World) :
  faults w = [] ->
  stored Storage.MY_RECIPES_KEY w = Some v ->
  iterable v = false ->
  fst (MyRecipesScreen.loadRecipes w) = Ok v
  /\ fst (MainFeedScreen.loadRecipes MOCK_RECIPES w) = Throw TypeError
  /\ fst (FavoritesScreen.loadFavorites MOCK_RECIPES w) = Throw TypeError.
Proof.
  intros Hq Hs Hv. split; [|split].
  - unfold MyRecipesScreen.loadRecipes. by rewrite (getMyRecipes_quiet w Hq _ Hs).
  - unfold MainFeedScreen.loadRecipes, bind.
    rewrite (getMyRecipes_quiet w Hq _ Hs). cbn [lift].
    by rewrite (iterate_throws v Hv).
  - unfold FavoritesScreen.loadFavorites, bind.
    change Storage.getFavorites
      with (reader Storage.FAVORITES_KEY "Error reading favorites:").
    destruct (reader_spec Storage.FAVORITES_KEY "Error reading favorites:" w)
      as (u & w1 & -> & Hd & Hf & _).
    assert (Hq1 : faults w1 = []) by (by rewrite Hf, Hq).
    assert (Hs1 : stored Storage.MY_RECIPES_KEY w1 = Some v)
      by (unfold stored in *; by rewrite Hd).
    rewrite (getMyRecipes_quiet w1 Hq1 _ Hs1). cbn [lift].
    by rewrite (iterate_throws v Hv).
Qed.

Lemma loaders_throw_witness :
  faults object_world = []
  /\ stored Storage.MY_RECIPES_KEY object_world = Some (Obj ∅)
  /\ iterable (Obj ∅) = false
  /\ fst (MyRecipesScreen.loadRecipes object_world) = Ok (Obj ∅)
  /\ fst (MainFeedScreen.loadRecipes (Obj <$> catalog) object_world)
     = Throw TypeError
  /\ fst (FavoritesScreen.loadFavorites (Obj <$> catalog) object_world)
     = Throw TypeError.
Proof.
  assert (H1 : faults object_world = []) by reflexivity.
  assert (H2 : stored Storage.MY_RECIPES_KEY object_world = Some (Obj ∅))
    by (vm_compute; reflexivity).
  assert (H3 : iterable (Obj ∅) = false) by reflexivity.
  split; [exact H1|]. split; [exact H2|]. split; [exact H3|].
  exact (loaders_throw (Obj <$> catalog) (Obj ∅) object_world H1 H2 H3).
Defined.
